(** * generate_plots.py: the benchmark analysis script

    A shallow embedding of [scripts/generate_plots.py]: the script loads
    [results/performance_data.csv] into a pandas DataFrame, hands series to
    matplotlib, and prints a statistical summary.

    Layout of the development:
    - [F64]       binary64 arithmetic (the float64 dtype), on the IEEE
                  specification of the Standard Library;
    - [value]     the scalars a DataFrame cell can hold after [read_csv];
    - [Pandas]    the DataFrame operations the script calls;
    - [Script]    the script itself, statement by statement, in a monad that
                  threads standard output and propagates exceptions;
    - then the properties. *)

From Stdlib Require Import ZArith List String Ascii Bool Lia Sorted.
From Stdlib Require Import Permutation.
From Stdlib Require Import Floats.SpecFloat.
From Stdlib Require Import DecimalString.
Import ListNotations.

Local Open Scope string_scope.
Local Open Scope list_scope.

(* ===================================================================== *)
(** ** binary64 *)
(* ===================================================================== *)

Module F64.

Definition prec : Z := 53.
Definition emax : Z := 1024.

Definition float : Type := spec_float.

Definition nan : float := S754_nan.
Definition zero : float := S754_zero false.
Definition infinity : float := S754_infinity false.

Definition add : float -> float -> float := SFadd prec emax.
Definition div : float -> float -> float := SFdiv prec emax.
Definition opp : float -> float := SFopp.
Definition ltb : float -> float -> bool := SFltb.
Definition leb : float -> float -> bool := SFleb.
Definition eqb : float -> float -> bool := SFeqb.

(** int64 -> float64 conversion: round to nearest, ties to even. *)
Definition of_Z (z : Z) : float := binary_normalize prec emax z 0 false.

Definition of_nat (n : nat) : float := of_Z (Z.of_nat n).

Definition is_nan (f : float) : bool :=
  match f with S754_nan => true | _ => false end.

Definition is_infinite (f : float) : bool :=
  match f with S754_infinity _ => true | _ => false end.

Definition is_finite (f : float) : bool :=
  match f with S754_zero _ | S754_finite _ _ _ => true | _ => false end.

(** The decimal [m / 10^k] for small [m] and [k]: one correctly rounded
    division of two exactly representable integers. Used for literals. *)
Definition dec (m : Z) (k : nat) : float :=
  div (of_Z m) (of_Z (10 ^ Z.of_nat k)).

End F64.

(* ===================================================================== *)
(** ** Scalars, exceptions, results *)
(* ===================================================================== *)

(** What a cell of the loaded DataFrame holds: an integer (int64, or uint64
    in a column with a value past the int64 range), a float64 (NaN for a
    missing cell), a Python [str] (object dtype) or a boolean (bool dtype, or
    object dtype in a column of booleans with missing cells). Integers are
    never added or multiplied as integers by the script (only compared, or
    converted to float64), so no wrap-around arises. *)
Inductive value : Type :=
| VInt (z : Z)
| VFloat (f : F64.float)
| VStr (s : string)
| VBool (b : bool).

Definition Series : Type := list value.

(** Exceptions the run can end with. [IOError name path] is the exception of
    class [name] that opening or decoding the file at [path] raised
    ([FileNotFoundError], [IsADirectoryError], [PermissionError],
    [UnicodeDecodeError], ...). [RenderError] stands for whatever matplotlib
    raises (an [OSError] from [savefig], for instance). *)
Inductive exn : Type :=
| IOError (name : string) (path : string)
| EmptyDataError
| ParserError (line : nat)
| KeyError (column : string)
| TypeError
| ZeroDivisionError
| NotImplementedError
| RenderError (what : string).

Definition result (A : Type) : Type := (exn + A)%type.

Definition Ok {A} (a : A) : result A := inr a.
Definition Raise {A} (e : exn) : result A := inl e.

Definition rbind {A B} (r : result A) (k : A -> result B) : result B :=
  match r with
  | inl e => inl e
  | inr a => k a
  end.

Declare Scope result_scope.
Delimit Scope result_scope with result.
Notation "'let?' x ':=' r 'in' k" := (rbind r (fun x => k))
  (at level 10, x name, r at level 100, k at level 200) : result_scope.
Local Open Scope result_scope.

Fixpoint rmap {A B} (f : A -> result B) (l : list A) : result (list B) :=
  match l with
  | [] => Ok []
  | a :: t =>
      let? b := f a in
      let? bs := rmap f t in
      Ok (b :: bs)
  end.

(* ===================================================================== *)
(** ** Element-wise operators *)
(* ===================================================================== *)

(** The operators on one pair of scalars, as Python and numpy apply them
    to two values of these types. What pandas does with a whole column (which
    pairs it applies them to, and what it does with missing cells) is in
    [Pandas.series_lt] and [Pandas.series_truediv]. *)

Definition is_str (v : value) : bool :=
  match v with
  | VStr _ => true
  | _ => false
  end.

Definition is_bool (v : value) : bool :=
  match v with
  | VBool _ => true
  | _ => false
  end.

(** A missing cell *)
Definition is_null (v : value) : bool :=
  match v with
  | VFloat f => F64.is_nan f
  | _ => false
  end.

(** A boolean is the integer 0 or 1 in every comparison and division. *)
Definition unbool (v : value) : value :=
  match v with
  | VBool b => VInt (Z.b2z b)
  | _ => v
  end.

Definition to_float (v : value) : result F64.float :=
  match v with
  | VInt z => Ok (F64.of_Z z)
  | VFloat f => Ok f
  | VStr _ => Raise TypeError
  | VBool b => Ok (F64.of_Z (Z.b2z b))
  end.

(** [a < b] on two scalars, as Python evaluates it. Two integers compare
    exactly (int64 against uint64 too, since numpy 1.25); an integer
    against a float64 is promoted to float64; two [str]
    compare lexicographically; a [str] against a number is a [TypeError],
    and so is [nan < 'abc']. pandas does not evaluate [<] on a pair with a
    missing cell when the left column is object: see [Pandas.masked_lt]. *)
Definition val_lt (a b : value) : result bool :=
  match unbool a, unbool b with
  | VInt x, VInt y => Ok (x <? y)%Z
  | VInt x, VFloat g => Ok (F64.ltb (F64.of_Z x) g)
  | VFloat f, VInt y => Ok (F64.ltb f (F64.of_Z y))
  | VFloat f, VFloat g => Ok (F64.ltb f g)
  | VStr s, VStr t => Ok (String.ltb s t)
  | _, _ => Raise TypeError
  end.

(** [a == b]. Never raises: values of unrelated types are unequal. *)
Definition val_eq (a b : value) : bool :=
  match unbool a, unbool b with
  | VInt x, VInt y => (x =? y)%Z
  | VInt x, VFloat g => F64.eqb (F64.of_Z x) g
  | VFloat f, VInt y => F64.eqb f (F64.of_Z y)
  | VFloat f, VFloat g => F64.eqb f g
  | VStr s, VStr t => String.eqb s t
  | _, _ => false
  end.

Arguments val_lt !a !b /.
Arguments val_eq !a !b /.

(** [a / b] in numpy, which pandas uses on two columns of numeric dtype:
    always float64, division by zero gives an infinity or NaN as IEEE 754
    prescribes, no exception. With an object column pandas divides by
    [py_truediv], and leaves out the pairs with a missing cell: see
    [Pandas.series_truediv]. *)
Definition val_truediv (a b : value) : result value :=
  let? x := to_float a in
  let? y := to_float b in
  Ok (VFloat (F64.div x y)).

(** [a / b] in Python, on two objects: a [str] operand is a [TypeError], a
    zero divisor a [ZeroDivisionError] (for a NaN dividend too). *)
Definition py_truediv (a b : value) : result value :=
  let? x := to_float a in
  let? y := to_float b in
  if F64.eqb y F64.zero then Raise ZeroDivisionError
  else Ok (VFloat (F64.div x y)).

(** Key equality of the hash table behind [unique]: like [==] within one
    dtype, except that NaN is one key. *)
Definition same_key (a b : value) : bool :=
  match a, b with
  | VInt x, VInt y => (x =? y)%Z
  | VFloat f, VFloat g => F64.eqb f g || (F64.is_nan f && F64.is_nan g)
  | VStr s, VStr t => String.eqb s t
  | VBool b, VBool c => Bool.eqb b c
  | _, _ => false
  end.

(* ===================================================================== *)
(** ** Python string formatting *)
(* ===================================================================== *)

Module Py.

(** [str(n)] for a non-negative integer *)
Definition str_N (n : N) : string := NilEmpty.string_of_uint (N.to_uint n).

Definition str_nat (n : nat) : string := str_N (N.of_nat n).

Definition pow10 (d : nat) : Z := (10 ^ Z.of_nat d)%Z.

(** [num / den] rounded to the nearest integer, ties to even ([den > 0]). *)
Definition round_half_even (num den : Z) : Z :=
  let q := (num / den)%Z in
  match (2 * (num mod den) ?= den)%Z with
  | Lt => q
  | Gt => (q + 1)%Z
  | Eq => if Z.even q then q else (q + 1)%Z
  end.

(** [m * 2^e * 10^d], rounded to an integer *)
Definition scaled (d : nat) (m : positive) (e : Z) : Z :=
  match e with
  | Zneg p => round_half_even (Zpos m * pow10 d) (2 ^ Zpos p)
  | _ => (Zpos m * 2 ^ e * pow10 d)%Z
  end.

Fixpoint zeros (n : nat) : string :=
  match n with
  | O => ""
  | S k => "0" ++ zeros k
  end.

Definition pad_left (d : nat) (s : string) : string :=
  zeros (d - String.length s) ++ s.

(** The digits of [q / 10^d] with [d] decimals *)
Definition fixed (d : nat) (q : Z) : string :=
  let ip := str_N (Z.to_N (q / pow10 d)) in
  match d with
  | O => ip
  | _ => ip ++ "." ++ pad_left d (str_N (Z.to_N (q mod pow10 d)))
  end.

Definition sign (s : bool) : string := if s then "-" else "".

(** [format(x, '.<d>f')]: the exact binary value rounded half-even to [d]
    decimals. *)
Definition format_f (d : nat) (x : F64.float) : string :=
  match x with
  | S754_nan => "nan"
  | S754_infinity s => sign s ++ "inf"
  | S754_zero s => sign s ++ fixed d 0
  | S754_finite s m e => sign s ++ fixed d (scaled d m e)
  end.

End Py.

(* ===================================================================== *)
(** ** The pandas operations the script calls *)
(* ===================================================================== *)

Fixpoint has_char (c : ascii) (s : string) : bool :=
  match s with
  | EmptyString => false
  | String d t => Ascii.eqb d c || has_char c t
  end.

(** A name that the renaming of repeated and empty header names neither
    produces nor changes at its first occurrence: not empty, without ['.']
    and without [':']. *)
Definition plain_name (c : string) : bool :=
  negb (String.eqb c EmptyString)
  && negb (has_char "."%char c) && negb (has_char ":"%char c).

(** Four things below the script are kept abstract, because their exact
    result is a detail of the installed numpy and pandas builds or of the
    operating system:
    - [fsum], the float64 add-reduction behind [Series.sum] (its association
      order, pairwise or sequential, decides the last bits of the result; that
      it adds up the entries is the law [lawful_sum], below);
    - [infer_scalar], the parser's recognition of one CSV token: [Some (VInt z)]
      for an integer literal, [Some (VFloat f)] for another numeric literal,
      [Some (VFloat nan)] for a missing-value marker (the empty token, "NaN",
      ...), [Some (VBool b)] for a boolean literal ("True", "false", ...),
      [None] for any other text;
    - [dedup_suffix], for a header with repeated or empty names, what is
      appended after a ['.'] to the name at a position to make it a label
      not yet taken ([None]: the name is kept); which names count as taken,
      and which number is appended, differ between pandas versions;
    - [read_error], the class of the exception raised for a path that cannot
      be opened or decoded. *)
Class Platform : Type := {
  fsum : list F64.float -> F64.float;
  infer_scalar : string -> option value;
  dedup_suffix : list string -> nat -> option string;
  read_error : string -> string
}.

(** A DataFrame with a default [RangeIndex]: the column labels and the rows,
    in file order. *)
Record DataFrame : Type := {
  columns : list string;
  rows : list (list value)
}.

Module Pandas.

Fixpoint index_of (name : string) (cols : list string) : option nat :=
  match cols with
  | [] => None
  | c :: t =>
      if String.eqb c name then Some 0
      else option_map S (index_of name t)
  end.

Definition cell (k : nat) (r : list value) : value :=
  nth k r (VFloat F64.nan).

(** [df[name]] *)
Definition getitem (df : DataFrame) (name : string) : result Series :=
  match index_of name (columns df) with
  | Some k => Ok (map (cell k) (rows df))
  | None => Raise (KeyError name)
  end.

(** [len(df)] *)
Definition len (df : DataFrame) : nat := List.length (rows df).

(** Boolean indexing on positions. The masks of the script are computed
    from columns of the frame they index, so mask and frame always have the
    same length. *)
Fixpoint select {A} (mask : list bool) (l : list A) : list A :=
  match mask, l with
  | b :: m, x :: t => if b then x :: select m t else select m t
  | _, _ => []
  end.

(** [df[mask]] *)
Definition loc (df : DataFrame) (mask : list bool) : DataFrame :=
  {| columns := columns df; rows := select mask (rows df) |}.

(** The column has dtype object: it holds text, or booleans together with
    missing cells. (A loaded column without rows is object too, but no
    operator sees a cell of it. And [read_csv] puts no number but NaN in an
    object column.) *)
Definition object_dtype (s : Series) : bool :=
  existsb is_str s || (existsb is_bool s && existsb is_null s).

(** The column has dtype bool. *)
Definition bool_dtype (s : Series) : bool :=
  match s with
  | [] => false
  | _ => forallb is_bool s
  end.

(** [<] on a pair of an object column: a missing cell on either side gives
    [False] without comparing. *)
Definition masked_lt (a b : value) : result bool :=
  if is_null a || is_null b then Ok false else val_lt a b.

(** [/] on a pair, when the division is retried on the pairs without a
    missing cell: the others are NaN. *)
Definition masked_truediv (a b : value) : result value :=
  if is_null a || is_null b then Ok (VFloat F64.nan) else py_truediv a b.

(** [a < b] on two Series. When the left column is object, pandas compares
    pair by pair and skips the pairs with a missing cell; otherwise numpy
    compares every pair, and a [str] on the right is a [TypeError] even
    against NaN. *)
Definition series_lt (a b : Series) : result (list bool) :=
  if object_dtype a
  then rmap (fun p => masked_lt (fst p) (snd p)) (combine a b)
  else rmap (fun p => val_lt (fst p) (snd p)) (combine a b).

(** [a == b] on two Series *)
Definition series_eq (a b : Series) : list bool :=
  map (fun p => val_eq (fst p) (snd p)) (combine a b).

(** [a == v] against a scalar *)
Definition series_eq_scalar (a : Series) (v : value) : list bool :=
  map (fun x => val_eq x v) a.

(** [a / b] on two Series. Two bool columns are refused. On numeric
    columns numpy divides every pair. When one column is object, Python
    divides pair by pair, in order; a [TypeError] makes pandas divide again,
    the pairs without a missing cell only; any other exception, or a second
    [TypeError], ends the division. *)
Definition series_truediv (a b : Series) : result Series :=
  if bool_dtype a && bool_dtype b then Raise NotImplementedError
  else if object_dtype a || object_dtype b then
    match rmap (fun p => py_truediv (fst p) (snd p)) (combine a b) with
    | inl TypeError =>
        rmap (fun p => masked_truediv (fst p) (snd p)) (combine a b)
    | r => r
    end
  else rmap (fun p => val_truediv (fst p) (snd p)) (combine a b).

(** [Series.unique()]: the distinct values, in order of first appearance
    (a hash table of the keys seen so far). *)
Fixpoint unique_from (seen : list value) (s : Series) : Series :=
  match s with
  | [] => []
  | v :: t =>
      if existsb (same_key v) seen then unique_from seen t
      else v :: unique_from (v :: seen) t
  end.

Definition unique (s : Series) : Series := unique_from [] s.

Definition fill0 (x : F64.float) : F64.float :=
  if F64.is_nan x then F64.zero else x.

Definition count_valid (xs : list F64.float) : nat :=
  List.length (filter (fun x => negb (F64.is_nan x)) xs).

(** [Series.mean()], with the default [skipna=True]: NaN entries count as
    zero in the sum and are left out of the count; no entry left gives
    NaN. A [str] entry is a [TypeError]. *)
Definition mean `{Platform} (s : Series) : result F64.float :=
  let? xs := rmap to_float s in
  let n := count_valid xs in
  Ok (if (0 <? n)%nat then F64.div (fsum (map fill0 xs)) (F64.of_nat n)
      else F64.nan).

(** *** [read_csv] *)

Fixpoint all_some {A} (l : list (option A)) : option (list A) :=
  match l with
  | [] => Some []
  | None :: _ => None
  | Some a :: t => option_map (cons a) (all_some t)
  end.

(** **** Column labels *)

Fixpoint distinct (l : list string) : bool :=
  match l with
  | [] => true
  | x :: t => negb (existsb (String.eqb x) t) && distinct t
  end.

(** The label of the name at position [i], [seen] being the names before
    it: the first occurrence of a plain name is kept; otherwise an empty
    name stands as ["Unnamed: i"], and the name is kept or gets a suffix. *)
Definition label `{Platform} (header seen : list string) (i : nat)
    (name : string) : string :=
  let base := if String.eqb name EmptyString
              then ("Unnamed: " ++ Py.str_nat i)%string else name in
  if plain_name name && negb (existsb (String.eqb name) seen) then name
  else match dedup_suffix header i with
       | None => base
       | Some suffix => (base ++ "." ++ suffix)%string
       end.

Fixpoint labels_from `{Platform} (header seen : list string) (i : nat)
    (names : list string) : list string :=
  match names with
  | [] => []
  | name :: t =>
      label header seen i name :: labels_from header (name :: seen) (S i) t
  end.

(** The column labels pandas makes of the header: the header itself when
    its names are distinct and none is empty. *)
Definition mangle `{Platform} (header : list string) : list string :=
  if distinct header && negb (existsb (String.eqb EmptyString) header)
  then header
  else labels_from header [] 0 header.

(** **** Column dtypes *)

Definition int64_min : Z := (- 2 ^ 63)%Z.
Definition int64_max : Z := (2 ^ 63 - 1)%Z.
Definition uint64_max : Z := (2 ^ 64 - 1)%Z.

(** A field absent from a short record is a missing value. *)
Definition infer_cell `{Platform} (tok : option string) : option value :=
  match tok with
  | None => Some (VFloat F64.nan)
  | Some t => infer_scalar t
  end.

(** An integer literal, or a missing value *)
Definition int_or_na (o : option value) : option (option Z) :=
  match o with
  | Some (VInt z) => Some (Some z)
  | Some (VFloat f) => if F64.is_nan f then Some None else None
  | _ => None
  end.

(** A boolean literal, or a missing value *)
Definition bool_or_na (o : option value) : option (option bool) :=
  match o with
  | Some (VBool b) => Some (Some b)
  | Some (VFloat f) => if F64.is_nan f then Some None else None
  | _ => None
  end.

Definition as_number (o : option value) : option F64.float :=
  match o with
  | Some (VInt z) => Some (F64.of_Z z)
  | Some (VFloat f) => Some f
  | _ => None
  end.

Definition as_object `{Platform} (tok : option string) : value :=
  match tok with
  | None => VFloat F64.nan
  | Some t =>
      match infer_scalar t with
      | Some (VFloat f) => if F64.is_nan f then VFloat F64.nan else VStr t
      | _ => VStr t
      end
  end.

Definition in_int64 (oz : option Z) : bool :=
  match oz with
  | Some z => (int64_min <=? z)%Z && (z <=? int64_max)%Z
  | None => true
  end.

(** A uint64 column has no missing value. *)
Definition in_uint64 (oz : option Z) : bool :=
  match oz with
  | Some z => (0 <=? z)%Z && (z <=? uint64_max)%Z
  | None => false
  end.

Definition is_some {A} (o : option A) : bool :=
  match o with
  | Some _ => true
  | None => false
  end.

(** An int64 column stays int64 when no value is missing. Otherwise it
    becomes float64 ([_maybe_upcast]): the parser marks a missing integer by
    the least int64, and every entry equal to that mark becomes NaN. *)
Definition int_column (zs : list (option Z)) : Series :=
  if forallb is_some zs
  then map (fun oz => match oz with
                      | Some z => VInt z
                      | None => VFloat F64.nan
                      end) zs
  else map (fun oz => VFloat match oz with
                             | Some z => if (z =? int64_min)%Z then F64.nan
                                         else F64.of_Z z
                             | None => F64.nan
                             end) zs.

(** A uint64 column: no value is missing. *)
Definition uint_column (zs : list (option Z)) : Series :=
  map (fun oz => match oz with
                 | Some z => VInt z
                 | None => VFloat F64.nan
                 end) zs.

Definition bool_column (bs : list (option bool)) : Series :=
  map (fun ob => match ob with
                 | Some b => VBool b
                 | None => VFloat F64.nan
                 end) bs.

(** Column dtype inference, in the order the parser tries. When every
    token is an integer literal or a missing-value marker: int64 (float64
    when a value is missing); uint64 when a literal is past the int64 range
    and all are in the uint64 range with none missing; text when the
    integers fit neither. Else float64 when every token is a number or a
    missing-value marker; else bool when every token is a boolean literal or
    a missing-value marker (object when one is missing); else object, which
    keeps the text of every token that is not a missing-value marker. *)
Definition infer_column `{Platform} (toks : list (option string)) : Series :=
  let os := map infer_cell toks in
  match all_some (map int_or_na os) with
  | Some zs =>
      if forallb in_int64 zs then int_column zs
      else if forallb in_uint64 zs then uint_column zs
      else map as_object toks
  | None =>
      match all_some (map as_number os) with
      | Some fs => map VFloat fs
      | None =>
          match all_some (map bool_or_na os) with
          | Some bs => bool_column bs
          | None => map as_object toks
          end
      end
  end.

(** The fields the first record has beyond the header: pandas takes that
    many leading fields of every record as the row index, and the header
    names the fields after them. *)
Definition leading_cols (n : nat) (records : list (list string)) : nat :=
  match records with
  | [] => 0
  | r :: _ => List.length r - n
  end.

(** First record, counted from file line [line], with more than [n]
    fields. *)
Fixpoint too_long (n : nat) (line : nat) (records : list (list string))
  : option nat :=
  match records with
  | [] => None
  | r :: t =>
      if (n <? List.length r)%nat then Some line
      else too_long n (S line) t
  end.

(** [pd.read_csv(path)] over a file system that maps a path to the
    tokenised non-blank lines of the file, header first, and to [None] when
    the file cannot be opened or decoded. Cell content never makes the load
    fail: only an unreadable file, a file without a header, or a record
    after the first that is wider than both the header and the first record
    do. The first record is never too wide: the fields it has beyond the
    header make the row index ([leading_cols]), which the script never
    reads and the table here does not keep. The line of a [ParserError] is
    counted in the lines of the file, none of them blank. *)
Definition read_csv `{Platform}
    (fs : string -> option (list (list string))) (path : string)
  : result DataFrame :=
  match fs path with
  | None => Raise (IOError (read_error path) path)
  | Some [] => Raise EmptyDataError
  | Some ([] :: _) => Raise EmptyDataError
  | Some (header :: records) =>
      let lead := leading_cols (List.length header) records in
      match too_long (List.length header + lead) 3 (tl records) with
      | Some line => Raise (ParserError line)
      | None =>
          let cols :=
            map (fun j =>
                   infer_column (map (fun r => nth_error r (lead + j)) records))
                (seq 0 (List.length header)) in
          Ok {| columns := mangle header;
                rows := map (fun i => map (cell i) cols)
                            (seq 0 (List.length records)) |}
      end
  end.

End Pandas.

(* ===================================================================== *)
(** ** The script *)
(* ===================================================================== *)

(** The calls into matplotlib and seaborn, with the data handed over. The
    three labelling calls on one axes ([set_xlabel], [set_ylabel],
    [set_title]) are one [Labels], and [legend] followed by [grid] is one
    [LegendGrid]. *)
Inductive ChartCall : Type :=
| StyleUse (name : string)
| SetPalette (name : string)
| Subplots (nrows ncols : nat)
| Suptitle (title : string)
| Plot (x y : Series)
| Bar (heights : list F64.float)
| SetXTicks (n : nat)
| SetXTickLabels (labels : Series)
| Scatter (x y : Series)
| Axhline
| PlotTheoretical (label : string)
| Labels (xlabel ylabel title : string)
| LegendGrid
| TightLayout
| Savefig (path : string)
| Show.

(** What the run depends on outside the script: the files it can read, and
    whether a call into the charting library raises (taken to depend on the
    call and its arguments only). *)
Record World : Type := {
  files : string -> option (list (list string));
  draw : ChartCall -> option exn
}.

(** Statements run in [M]: standard output so far goes in, standard output
    and either an exception or a value come out. The lines printed before an
    exception stay printed. *)
Definition M (A : Type) : Type := list string -> list string * result A.

Definition mret {A} (a : A) : M A := fun out => (out, Ok a).

Definition mbind {A B} (c : M A) (k : A -> M B) : M B :=
  fun out =>
    match c out with
    | (out', inl e) => (out', inl e)
    | (out', inr a) => k a out'
    end.

Definition lift {A} (r : result A) : M A := fun out => (out, r).

(** [print(s)] *)
Definition print (s : string) : M unit := fun out => (out ++ [s], Ok tt).

Definition chart (w : World) (c : ChartCall) : M unit :=
  fun out =>
    match draw w c with
    | Some e => (out, Raise e)
    | None => (out, Ok tt)
    end.

Declare Scope script_scope.
Delimit Scope script_scope with script.
Notation "x <- c ;; k" := (mbind c (fun x => k))
  (at level 61, c at next level, right associativity) : script_scope.
Notation "c ;; k" := (mbind c (fun _ => k))
  (at level 61, right associativity) : script_scope.

Module Script.
Section WithPlatform.

Context `{Platform}.

Import Pandas.

Definition data_path : string := "results/performance_data.csv".

(** *** The expressions of the script over [df] *)

(** [df['Graph_Type'].unique()] *)
Definition graph_types (df : DataFrame) : result Series :=
  let? g := getitem df "Graph_Type" in
  Ok (unique g).

(** [df[df['Graph_Type'] == gt][col].mean()] *)
Definition group_mean (df : DataFrame) (col : string) (gt : value)
  : result F64.float :=
  let? g := getitem df "Graph_Type" in
  let? s := getitem (loc df (series_eq_scalar g gt)) col in
  mean s.

(** [[df[df['Graph_Type'] == gt]['Prim_Time_ms'].mean() for gt in graph_types]] *)
Definition prim_times (df : DataFrame) (gts : Series)
  : result (list F64.float) :=
  rmap (group_mean df "Prim_Time_ms") gts.

Definition kruskal_times (df : DataFrame) (gts : Series)
  : result (list F64.float) :=
  rmap (group_mean df "Kruskal_Time_ms") gts.

(** [df['Prim_Time_ms'] / df['Kruskal_Time_ms']] *)
Definition performance_ratio (df : DataFrame) : result Series :=
  let? a := getitem df "Prim_Time_ms" in
  let? b := getitem df "Kruskal_Time_ms" in
  series_truediv a b.

(** [len(df[df['Graph_Type'] == label])] *)
Definition label_count (df : DataFrame) (label : string) : result nat :=
  let? g := getitem df "Graph_Type" in
  Ok (len (loc df (series_eq_scalar g (VStr label)))).

(** [df[col].mean()] *)
Definition column_mean (df : DataFrame) (col : string) : result F64.float :=
  let? s := getitem df col in
  mean s.

(** [len(df[df['Prim_Time_ms'] < df['Kruskal_Time_ms']])] *)
Definition prim_faster_count (df : DataFrame) : result nat :=
  let? a := getitem df "Prim_Time_ms" in
  let? b := getitem df "Kruskal_Time_ms" in
  let? m := series_lt a b in
  Ok (len (loc df m)).

(** [len(df[df['Kruskal_Time_ms'] < df['Prim_Time_ms']])] *)
Definition kruskal_faster_count (df : DataFrame) : result nat :=
  let? b := getitem df "Kruskal_Time_ms" in
  let? a := getitem df "Prim_Time_ms" in
  let? m := series_lt b a in
  Ok (len (loc df m)).

(** [len(df[df['Prim_Cost'] == df['Kruskal_Cost']])] *)
Definition cost_matches (df : DataFrame) : result nat :=
  let? a := getitem df "Prim_Cost" in
  let? b := getitem df "Kruskal_Cost" in
  Ok (len (loc df (series_eq a b))).

(** [cost_matches == len(df)] *)
Definition cost_flag (df : DataFrame) : result bool :=
  let? n := cost_matches df in
  Ok (n =? len df)%nat.

(** *** The statements *)

Local Open Scope script_scope.

(** Lines 14-65: the four-panel figure. *)
Definition performance_figure (w : World) (df : DataFrame) : M unit :=
  chart w (Subplots 2 2) ;;
  chart w (Suptitle "Performance Analysis: Prim vs Kruskal MST Algorithms") ;;
  (* panel 1 *)
  v <- lift (getitem df "Vertices") ;;
  pt <- lift (getitem df "Prim_Time_ms") ;;
  chart w (Plot v pt) ;;
  v <- lift (getitem df "Vertices") ;;
  kt <- lift (getitem df "Kruskal_Time_ms") ;;
  chart w (Plot v kt) ;;
  chart w (Labels "Number of Vertices" "Execution Time (ms)"
                  "Execution Time vs Graph Size") ;;
  chart w LegendGrid ;;
  (* panel 2 *)
  v <- lift (getitem df "Vertices") ;;
  po <- lift (getitem df "Prim_Operations") ;;
  chart w (Plot v po) ;;
  v <- lift (getitem df "Vertices") ;;
  ko <- lift (getitem df "Kruskal_Operations") ;;
  chart w (Plot v ko) ;;
  chart w (Labels "Number of Vertices" "Number of Operations"
                  "Operations Count vs Graph Size") ;;
  chart w LegendGrid ;;
  (* panel 3 *)
  gts <- lift (graph_types df) ;;
  pts <- lift (prim_times df gts) ;;
  kts <- lift (kruskal_times df gts) ;;
  chart w (Bar pts) ;;
  chart w (Bar kts) ;;
  chart w (Labels "Graph Type" "Average Execution Time (ms)"
                  "Average Execution Time by Graph Type") ;;
  chart w (SetXTicks (List.length gts)) ;;
  chart w (SetXTickLabels gts) ;;
  chart w LegendGrid ;;
  (* panel 4 *)
  ratio <- lift (performance_ratio df) ;;
  v <- lift (getitem df "Vertices") ;;
  chart w (Scatter v ratio) ;;
  chart w Axhline ;;
  chart w (Labels "Number of Vertices" "Performance Ratio (Prim/Kruskal)"
                  "Performance Ratio: Prim vs Kruskal") ;;
  chart w LegendGrid ;;
  chart w TightLayout ;;
  chart w (Savefig "results/performance_analysis.png") ;;
  chart w Show.

(** Lines 68-90: theoretical against experimental complexity. *)
Definition complexity_figure (w : World) (df : DataFrame) : M unit :=
  chart w (Subplots 1 1) ;;
  chart w (PlotTheoretical "Prim's Theoretical O(V log V)") ;;
  chart w (PlotTheoretical "Kruskal's Theoretical O(E log E)") ;;
  v <- lift (getitem df "Vertices") ;;
  po <- lift (getitem df "Prim_Operations") ;;
  chart w (Scatter v po) ;;
  v <- lift (getitem df "Vertices") ;;
  ko <- lift (getitem df "Kruskal_Operations") ;;
  chart w (Scatter v ko) ;;
  chart w (Labels "Number of Vertices" "Operations Count"
                  "Theoretical vs Experimental Complexity") ;;
  chart w LegendGrid ;;
  chart w TightLayout ;;
  chart w (Savefig "results/complexity_analysis.png") ;;
  chart w Show.

Definition nl : string := String (ascii_of_nat 10) EmptyString.

Definition mark (ok : bool) : string := if ok then "✓" else "✗".

(** Lines 93-98 *)
Definition print_counts (df : DataFrame) : M unit :=
  print "=== Performance Analysis Summary ===" ;;
  print ("Total graphs analyzed: " ++ Py.str_nat (len df)) ;;
  n <- lift (label_count df "Small") ;;
  print ("Small graphs (< 30 vertices): " ++ Py.str_nat n) ;;
  n <- lift (label_count df "Medium") ;;
  print ("Medium graphs (< 300 vertices): " ++ Py.str_nat n) ;;
  n <- lift (label_count df "Large") ;;
  print ("Large graphs (< 1000 vertices): " ++ Py.str_nat n) ;;
  n <- lift (label_count df "Extra") ;;
  print ("Extra graphs (< 2000 vertices): " ++ Py.str_nat n).

(** Lines 100-104 *)
Definition print_averages (df : DataFrame) : M unit :=
  print (nl ++ "=== Average Performance Metrics ===") ;;
  x <- lift (column_mean df "Prim_Time_ms") ;;
  print ("Average Prim's execution time: " ++ Py.format_f 2 x ++ " ms") ;;
  x <- lift (column_mean df "Kruskal_Time_ms") ;;
  print ("Average Kruskal's execution time: " ++ Py.format_f 2 x ++ " ms") ;;
  x <- lift (column_mean df "Prim_Operations") ;;
  print ("Average Prim's operations: " ++ Py.format_f 0 x) ;;
  x <- lift (column_mean df "Kruskal_Operations") ;;
  print ("Average Kruskal's operations: " ++ Py.format_f 0 x).

(** Lines 106-110 *)
Definition print_comparison (df : DataFrame) : M unit :=
  print (nl ++ "=== Performance Comparison ===") ;;
  p <- lift (prim_faster_count df) ;;
  k <- lift (kruskal_faster_count df) ;;
  print ("Prim's algorithm faster in: " ++ Py.str_nat p ++ " cases") ;;
  print ("Kruskal's algorithm faster in: " ++ Py.str_nat k ++ " cases").

(** Lines 112-114 *)
Definition print_costs (df : DataFrame) : M unit :=
  print (nl ++ "=== Cost Verification ===") ;;
  c <- lift (cost_matches df) ;;
  print ("MST costs match in all " ++ Py.str_nat c ++ " cases: "
         ++ mark (c =? len df)%nat).

Definition print_summary (df : DataFrame) : M unit :=
  print_counts df ;;
  print_averages df ;;
  print_comparison df ;;
  print_costs df.

(** The whole script. *)
Definition main (w : World) : M unit :=
  chart w (StyleUse "seaborn-v0_8") ;;
  chart w (SetPalette "husl") ;;
  df <- lift (read_csv (files w) data_path) ;;
  performance_figure w df ;;
  complexity_figure w df ;;
  print_summary df.

(** One run from an empty standard output. *)
Definition run (w : World) : list string * result unit := main w [].

End WithPlatform.
End Script.

(* ===================================================================== *)
(** ** A reference platform and sample runs *)
(* ===================================================================== *)

Module Reference.

(** Left-to-right summation. *)
Definition seq_sum (xs : list F64.float) : F64.float :=
  fold_left F64.add xs F64.zero.

Definition is_digit (c : ascii) : bool :=
  (48 <=? nat_of_ascii c)%nat && (nat_of_ascii c <=? 57)%nat.

(** The value of a non-empty string of decimal digits. *)
Fixpoint digits_from (acc : Z) (s : string) : option Z :=
  match s with
  | EmptyString => Some acc
  | String c t =>
      if is_digit c
      then digits_from (10 * acc + Z.of_nat (nat_of_ascii c - 48)) t
      else None
  end.

Definition digits (s : string) : option Z :=
  match s with
  | EmptyString => None
  | _ => digits_from 0 s
  end.

(** Text before the first ['.'], and the text after it if there is one. *)
Fixpoint split_dot (s : string) : string * option string :=
  match s with
  | EmptyString => (EmptyString, None)
  | String c t =>
      if Ascii.eqb c "."%char then (EmptyString, Some t)
      else let '(a, b) := split_dot t in (String c a, b)
  end.

Definition unsigned (neg : bool) (s : string) : option value :=
  match split_dot s with
  | (ip, None) =>
      option_map (fun z => VInt (if neg then (- z)%Z else z)) (digits ip)
  | (ip, Some fp) =>
      match digits ip, digits fp with
      | Some a, Some b =>
          let k := String.length fp in
          let x := F64.dec (a * 10 ^ Z.of_nat k + b)%Z k in
          Some (VFloat (if neg then F64.opp x else x))
      | _, _ => None
      end
  end.

(** The tokens pandas reads as a missing value, by default. *)
Definition na_values : list string :=
  [""; "#N/A"; "#N/A N/A"; "#NA"; "-1.#IND"; "-1.#QNAN"; "-NaN"; "-nan";
   "1.#IND"; "1.#QNAN"; "<NA>"; "N/A"; "NA"; "NULL"; "NaN"; "None"; "n/a";
   "nan"; "null"].

(** Plain decimal literals, the boolean literals, and the missing-value
    markers. *)
Definition scalar (tok : string) : option value :=
  match tok with
  | EmptyString => Some (VFloat F64.nan)
  | String c t =>
      if existsb (String.eqb tok) na_values then Some (VFloat F64.nan)
      else if existsb (String.eqb tok) ["True"; "TRUE"; "true"]
      then Some (VBool true)
      else if existsb (String.eqb tok) ["False"; "FALSE"; "false"]
      then Some (VBool false)
      else if Ascii.eqb c "-"%char then unsigned true t
      else unsigned false tok
  end.

Fixpoint bases_from (i : nat) (names : list string) : list string :=
  match names with
  | [] => []
  | name :: t =>
      (if String.eqb name EmptyString
       then ("Unnamed: " ++ Py.str_nat i)%string else name)
        :: bases_from (S i) t
  end.

(** A repeated name gets the number of its earlier occurrences. *)
Definition numbered (header : list string) (i : nat) : option string :=
  let names := bases_from 0 header in
  match count_occ string_dec (firstn i names) (nth i names EmptyString) with
  | O => None
  | S k => Some (Py.str_nat (S k))
  end.

(** A file system with regular, readable files only. *)
Definition missing_file (path : string) : string := "FileNotFoundError".

#[export] Instance platform : Platform :=
  {| fsum := seq_sum; infer_scalar := scalar; dedup_suffix := numbered;
     read_error := missing_file |}.

Definition header : list string :=
  ["Vertices"; "Graph_Type"; "Prim_Time_ms"; "Kruskal_Time_ms";
   "Prim_Operations"; "Kruskal_Operations"; "Prim_Cost"; "Kruskal_Cost"].

(** A file system holding one file at the path the script reads. *)
Definition one_file (lines : list (list string))
  : string -> option (list (list string)) :=
  fun path => if String.eqb path Script.data_path then Some lines else None.

(** A charting library that never fails. *)
Definition quiet : ChartCall -> option exn := fun _ => None.

(** The two-row scenario. *)
Definition scenario_csv : list (list string) :=
  [ header;
    ["10"; "Small"; "1.0"; "2.0"; "100"; "80"; "50"; "50"];
    ["20"; "Small"; "3.0"; "1.0"; "150"; "90"; "70"; "71"] ].

Definition scenario_world : World :=
  {| files := one_file scenario_csv; draw := quiet |}.

Definition scenario_df : DataFrame :=
  {| columns := header;
     rows := [ [VInt 10; VStr "Small"; VFloat (F64.dec 10 1);
                VFloat (F64.dec 20 1); VInt 100; VInt 80; VInt 50; VInt 50];
               [VInt 20; VStr "Small"; VFloat (F64.dec 30 1);
                VFloat (F64.dec 10 1); VInt 150; VInt 90; VInt 70; VInt 71] ]
  |}.

End Reference.

(* ===================================================================== *)
(** ** Vocabulary of the properties *)
(* ===================================================================== *)

Definition float_eq_dec (x y : F64.float) : {x = y} + {x <> y}.
Proof.
  decide equality; try apply Bool.bool_dec; try apply Z.eq_dec;
    apply Pos.eq_dec.
Defined.

Definition value_eq_dec (x y : value) : {x = y} + {x <> y}.
Proof.
  decide equality;
    [apply Z.eq_dec | apply float_eq_dec | apply string_dec
     | apply Bool.bool_dec].
Defined.

(** The cell of row [r] under column [name]. *)
Definition field (df : DataFrame) (name : string) (r : list value) : value :=
  match Pandas.index_of name (columns df) with
  | Some k => Pandas.cell k r
  | None => VFloat F64.nan
  end.

(** Number of rows that satisfy [p]. *)
Definition count_rows (p : list value -> bool) (df : DataFrame) : nat :=
  List.length (filter p (rows df)).

Definition has_column (df : DataFrame) (name : string) : bool :=
  match Pandas.index_of name (columns df) with
  | Some _ => true
  | None => false
  end.

(** *** A valid loaded table: the MeasurementRow data model *)

Definition nonneg_int (v : value) : bool :=
  match v with
  | VInt z => (0 <=? z)%Z
  | _ => false
  end.

(** A time: a float64 that is [>= 0] (so not NaN), or a non-negative int64
    when the whole column held integer literals. *)
Definition nonneg_time (v : value) : bool :=
  match v with
  | VInt z => (0 <=? z)%Z
  | VFloat f => F64.leb F64.zero f
  | VStr _ => false
  | VBool _ => false
  end.

Definition numeric (v : value) : bool :=
  match v with
  | VInt _ => true
  | VFloat f => negb (F64.is_nan f)
  | VStr _ => false
  | VBool _ => false
  end.

Definition required_columns : list string :=
  ["Vertices"; "Graph_Type"; "Prim_Time_ms"; "Kruskal_Time_ms";
   "Prim_Operations"; "Kruskal_Operations"; "Prim_Cost"; "Kruskal_Cost"].

Definition valid_row (df : DataFrame) (r : list value) : bool :=
  (List.length r =? List.length (columns df))%nat
  && nonneg_int (field df "Vertices" r)
  && is_str (field df "Graph_Type" r)
  && nonneg_time (field df "Prim_Time_ms" r)
  && nonneg_time (field df "Kruskal_Time_ms" r)
  && nonneg_int (field df "Prim_Operations" r)
  && nonneg_int (field df "Kruskal_Operations" r)
  && numeric (field df "Prim_Cost" r)
  && numeric (field df "Kruskal_Cost" r).

Definition valid_frame (df : DataFrame) : bool :=
  forallb (has_column df) required_columns
  && forallb (valid_row df) (rows df).

(** *** Row predicates *)

Definition truth (r : result bool) : bool :=
  match r with
  | inr b => b
  | inl _ => false
  end.

(** Algorithm A (Prim) strictly faster on row [r] *)
Definition a_faster (df : DataFrame) (r : list value) : bool :=
  truth (val_lt (field df "Prim_Time_ms" r) (field df "Kruskal_Time_ms" r)).

(** Algorithm B (Kruskal) strictly faster on row [r] *)
Definition b_faster (df : DataFrame) (r : list value) : bool :=
  truth (val_lt (field df "Kruskal_Time_ms" r) (field df "Prim_Time_ms" r)).

(** Equal times *)
Definition tie (df : DataFrame) (r : list value) : bool :=
  val_eq (field df "Prim_Time_ms" r) (field df "Kruskal_Time_ms" r).

(** Equal costs *)
Definition cost_match (df : DataFrame) (r : list value) : bool :=
  val_eq (field df "Prim_Cost" r) (field df "Kruskal_Cost" r).

(** Rows of one category *)
Definition in_category (df : DataFrame) (gt : value) (r : list value) : bool :=
  val_eq (field df "Graph_Type" r) gt.

Definition the_labels : list value :=
  [VStr "Small"; VStr "Medium"; VStr "Large"; VStr "Extra"].

(** *** Arithmetic mean *)

(** The float64 a numeric cell stands for. *)
Definition float_of (v : value) : F64.float :=
  match v with
  | VInt z => F64.of_Z z
  | VFloat f => f
  | VStr _ => F64.nan
  | VBool b => F64.of_Z (Z.b2z b)
  end.

(** [total] is a float64 sum of the entries of [xs]: the value of some
    tree of float64 additions whose leaves are the entries, each once, in
    any order and grouping. An empty subtree counts as zero, which is also
    how [Pandas.mean] counts a missing cell. Sequential and pairwise
    summation are two such trees. *)
Inductive sum_of : list F64.float -> F64.float -> Prop :=
| sum_of_nil : sum_of [] F64.zero
| sum_of_one (x : F64.float) : sum_of [x] x
| sum_of_split (l l1 l2 : list F64.float) (v1 v2 : F64.float) :
    Permutation l (l1 ++ l2) ->
    sum_of l1 v1 -> sum_of l2 v2 ->
    sum_of l (F64.add v1 v2).

(** The law of the summation routine: it adds up the entries. *)
Definition lawful_sum `{Platform} : Prop :=
  forall xs, sum_of xs (fsum xs).

(** Sum divided by count. *)
Definition arithmetic_mean `{Platform} (xs : list F64.float) : F64.float :=
  F64.div (fsum xs) (F64.of_nat (List.length xs)).

(** The values of column [col] on the rows of category [gt]. *)
Definition category_values (df : DataFrame) (col : string) (gt : value)
  : list F64.float :=
  map (fun r => float_of (field df col r)) (filter (in_category df gt) (rows df)).

(** *** Order of first appearance *)

(** Position of the first entry of [s] equal to [v]; [length s] if none. *)
Fixpoint first_pos (v : value) (s : Series) : nat :=
  match s with
  | [] => 0
  | x :: t => if value_eq_dec x v then 0 else S (first_pos v t)
  end.

(** *** The printed lines *)

(** What lines 93-98 print, as a function of the [Graph_Type] column. *)
Definition count_lines (g : Series) : list string :=
  [ "=== Performance Analysis Summary ===";
    "Total graphs analyzed: " ++ Py.str_nat (List.length g);
    "Small graphs (< 30 vertices): "
      ++ Py.str_nat (count_occ value_eq_dec g (VStr "Small"));
    "Medium graphs (< 300 vertices): "
      ++ Py.str_nat (count_occ value_eq_dec g (VStr "Medium"));
    "Large graphs (< 1000 vertices): "
      ++ Py.str_nat (count_occ value_eq_dec g (VStr "Large"));
    "Extra graphs (< 2000 vertices): "
      ++ Py.str_nat (count_occ value_eq_dec g (VStr "Extra")) ]%string.

(** *** Statements that print nothing, statements that abort *)

(** [c] leaves standard output as it found it. *)
Definition silent {A} (c : M A) : Prop :=
  forall out, fst (c out) = out.

(** [c] raises without having printed. *)
Definition aborts {A} (c : M A) : Prop :=
  forall out, exists e, c out = (out, inl e).

Definition performance_png : string := "results/performance_analysis.png".
Definition complexity_png : string := "results/complexity_analysis.png".

(** *** The ratio column a marker-producing aggregator would give *)

(** An entry that stands for "ratio undefined": anything that is not a
    float64 (not a finite number, not an infinity, not NaN). *)
Definition undefined_marker (v : value) : Prop :=
  forall f, v <> VFloat f.

(** The entry for a row with times [a] and [b]: the marker when [b == 0],
    the quotient otherwise. *)
Definition marked_ratio (a b v : value) : Prop :=
  if val_eq b (VFloat F64.zero) then undefined_marker v
  else v = VFloat (F64.div (float_of a) (float_of b)).

(** The whole column, aligned with the rows. *)
Definition marked_ratio_column (df : DataFrame) (q : Series) : Prop :=
  Forall2
    (fun r v =>
       marked_ratio (field df "Prim_Time_ms" r) (field df "Kruskal_Time_ms" r) v)
    (rows df) q.

(** *** Exact equality of two costs *)

(** The float64 [f] is the integer [z], exactly. *)
Definition float_is_int (f : F64.float) (z : Z) : bool :=
  match f with
  | S754_zero _ => (z =? 0)%Z
  | S754_finite s m e =>
      let v := if s then Zneg m else Zpos m in
      match e with
      | Zneg p => (z * 2 ^ Zpos p =? v)%Z
      | _ => (z =? v * 2 ^ e)%Z
      end
  | _ => false
  end.

(** The two loaded values are the same number (or the same text). *)
Definition same_number (a b : value) : bool :=
  match unbool a, unbool b with
  | VInt x, VInt y => (x =? y)%Z
  | VInt x, VFloat g => float_is_int g x
  | VFloat f, VInt y => float_is_int f y
  | VFloat f, VFloat g => F64.eqb f g
  | VStr s, VStr t => String.eqb s t
  | _, _ => false
  end.

(** The rows whose two costs are the same number. *)
Definition exact_match (df : DataFrame) (r : list value) : bool :=
  same_number (field df "Prim_Cost" r) (field df "Kruskal_Cost" r).

(** A cross-check by exact equality on the loaded values: on every valid
    table the count is the number of rows whose two costs are the same
    number. *)
Definition counts_exact_matches : Prop :=
  forall df, valid_frame df = true ->
    Script.cost_matches df = Ok (count_rows (exact_match df) df).

(** A file whose costs differ by one: 2^53 + 1 as an integer literal,
    2^53 as a decimal literal. *)
Definition mixed_cost_csv : list (list string) :=
  [ Reference.header;
    ["10"; "Small"; "1.0"; "2.0"; "100"; "80";
     "9007199254740993"; "9007199254740992.0"] ].

Definition mixed_cost_df : DataFrame :=
  {| columns := Reference.header;
     rows := [ [VInt 10; VStr "Small"; VFloat (F64.dec 10 1);
                VFloat (F64.dec 20 1); VInt 100; VInt 80;
                VInt 9007199254740993;
                VFloat (F64.of_Z 9007199254740992)] ] |}.

Definition mixed_cost_world : World :=
  {| files := Reference.one_file mixed_cost_csv; draw := Reference.quiet |}.

(** *** A table with two categories *)

Definition two_groups_df : DataFrame :=
  {| columns := Reference.header;
     rows := [ [VInt 10; VStr "Small"; VFloat (F64.dec 10 1);
                VFloat (F64.dec 20 1); VInt 100; VInt 80; VInt 50; VInt 50];
               [VInt 500; VStr "Large"; VFloat (F64.dec 50 1);
                VFloat (F64.dec 40 1); VInt 900; VInt 700; VInt 90; VInt 90];
               [VInt 20; VStr "Small"; VFloat (F64.dec 30 1);
                VFloat (F64.dec 10 1); VInt 150; VInt 90; VInt 70; VInt 71] ]
  |}.

(** *** Tokens that a validating loader would reject *)




(** *** More sample files *)

(** A row whose B time is zero. *)
Definition zero_time_df : DataFrame :=
  {| columns := Reference.header;
     rows := [ [VInt 10; VStr "Small"; VFloat (F64.dec 10 1);
                VFloat F64.zero; VInt 100; VInt 80; VInt 50; VInt 50] ] |}.



(** The scenario, with a charting library that cannot write the first
    image. *)
Definition disk_full (c : ChartCall) : option exn :=
  match c with
  | Savefig path =>
      if String.eqb path performance_png
      then Some (RenderError "savefig") else None
  | _ => None
  end.

Definition disk_full_world : World :=
  {| files := Reference.one_file Reference.scenario_csv; draw := disk_full |}.

(** The scenario again, in a world that differs from [scenario_world]
    everywhere but in the data file: other files exist, and the charting
    library would refuse a call that the script does not make. *)
Definition other_files (path : string) : option (list (list string)) :=
  if String.eqb path Script.data_path then Some Reference.scenario_csv
  else Some [].

Definition picky (c : ChartCall) : option exn :=
  match c with
  | Subplots 3 3 => Some (RenderError "subplots")
  | _ => None
  end.

Definition other_world : World :=
  {| files := other_files; draw := picky |}.


(** The header-only file. *)
Definition empty_world : World :=
  {| files := Reference.one_file [Reference.header]; draw := Reference.quiet |}.

(** *** Vocabulary of the further properties *)

(** The columns the report reads: all but [Vertices]. *)
Definition report_columns : list string :=
  ["Graph_Type"; "Prim_Time_ms"; "Kruskal_Time_ms";
   "Prim_Operations"; "Kruskal_Operations"; "Prim_Cost"; "Kruskal_Cost"].

(** The columns the figures read: all but the two costs. *)
Definition figure_columns : list string :=
  ["Vertices"; "Graph_Type"; "Prim_Time_ms"; "Kruskal_Time_ms";
   "Prim_Operations"; "Kruskal_Operations"].

(** Row [r] holds text under [col]. *)
Definition text_in (df : DataFrame) (col : string) (r : list value) : bool :=
  is_str (field df col r).




(** A table whose [Prim_Time_ms] column was loaded as text. *)
Definition text_time_df : DataFrame :=
  {| columns := Reference.header;
     rows := [ [VInt 10; VStr "Small"; VStr "fast";
                VFloat (F64.dec 20 1); VInt 100; VInt 80; VInt 50; VInt 50] ]
  |}.

(** A table whose two time columns were loaded as text, each with a missing
    cell where the other has text. *)
Definition text_gap_df : DataFrame :=
  {| columns := Reference.header;
     rows := [ [VInt 10; VStr "Small"; VStr "abc"; VFloat F64.nan;
                VInt 100; VInt 80; VInt 50; VInt 50];
               [VInt 20; VStr "Small"; VFloat F64.nan; VStr "xyz";
                VInt 150; VInt 90; VInt 70; VInt 71];
               [VInt 30; VStr "Small"; VStr "a"; VStr "b";
                VInt 150; VInt 90; VInt 70; VInt 71] ] |}.

(** Text over a missing cell, and a missing cell over a number. *)
Definition text_over_missing_df : DataFrame :=
  {| columns := Reference.header;
     rows := [ [VInt 10; VStr "Small"; VStr "abc"; VFloat F64.nan;
                VInt 100; VInt 80; VInt 50; VInt 50];
               [VInt 20; VStr "Small"; VFloat F64.nan; VFloat (F64.dec 20 1);
                VInt 150; VInt 90; VInt 70; VInt 71] ] |}.

Definition text_gap_csv : list (list string) :=
  [ Reference.header;
    ["10"; "Small"; "abc"; ""; "100"; "80"; "50"; "50"];
    ["20"; "Small"; ""; "xyz"; "150"; "90"; "70"; "71"];
    ["30"; "Small"; "a"; "b"; "150"; "90"; "70"; "71"] ].

(** The scenario with other [Vertices], the columns in another order and
    one column more. *)
Definition shuffled_df : DataFrame :=
  {| columns := ["Kruskal_Cost"; "Prim_Cost"; "Note"; "Graph_Type";
                 "Vertices"; "Kruskal_Operations"; "Prim_Operations";
                 "Kruskal_Time_ms"; "Prim_Time_ms"];
     rows := [ [VInt 50; VInt 50; VStr "first"; VStr "Small"; VInt 999;
                VInt 80; VInt 100; VFloat (F64.dec 20 1);
                VFloat (F64.dec 10 1)];
               [VInt 71; VInt 70; VStr "second"; VStr "Small"; VInt 0;
                VInt 90; VInt 150; VFloat (F64.dec 10 1);
                VFloat (F64.dec 30 1)] ] |}.

(** The scenario without its two cost columns. *)
Definition no_cost_df : DataFrame :=
  {| columns := ["Vertices"; "Graph_Type"; "Prim_Time_ms"; "Kruskal_Time_ms";
                 "Prim_Operations"; "Kruskal_Operations"];
     rows := [ [VInt 10; VStr "Small"; VFloat (F64.dec 10 1);
                VFloat (F64.dec 20 1); VInt 100; VInt 80];
               [VInt 20; VStr "Small"; VFloat (F64.dec 30 1);
                VFloat (F64.dec 10 1); VInt 150; VInt 90] ] |}.

(** Lines 93-110: the report before the cost section. *)
Definition first_sections `{Platform} (df : DataFrame) : M unit :=
  (Script.print_counts df ;;
   Script.print_averages df ;;
   Script.print_comparison df)%script.

(** The order in which the figures first read the columns. *)
Definition reading_order : list string :=
  ["Vertices"; "Prim_Time_ms"; "Kruskal_Time_ms";
   "Prim_Operations"; "Kruskal_Operations"; "Graph_Type"].

(** The first column, in that order, that the table lacks. *)
Definition first_missing (df : DataFrame) : option string :=
  find (fun c => negb (has_column df c)) reading_order.

(** A world whose data file is missing. *)
Definition no_file_world : World :=
  {| files := fun _ => None; draw := Reference.quiet |}.

(** A file whose second record has a field more than the header and the
    first record. *)
Definition wide_record_world : World :=
  {| files := Reference.one_file
                [ Reference.header;
                  ["10"; "Small"; "1.0"; "2.0"; "100"; "80"; "50"; "50"];
                  ["20"; "Small"; "3.0"; "1.0"; "150"; "90"; "70"; "71";
                   "extra"] ];
     draw := Reference.quiet |}.

(** A file that lacks the [Graph_Type] and [Prim_Operations] columns. *)
Definition two_missing_csv : list (list string) :=
  [ ["Vertices"; "Prim_Time_ms"; "Kruskal_Time_ms"; "Kruskal_Operations";
     "Prim_Cost"; "Kruskal_Cost"];
    ["10"; "1.0"; "2.0"; "80"; "50"; "50"] ].

Definition two_missing_world : World :=
  {| files := Reference.one_file two_missing_csv; draw := Reference.quiet |}.

(** What the script prints on a table without rows. *)
Definition empty_report : list string :=
  [ "=== Performance Analysis Summary ===";
    "Total graphs analyzed: 0";
    "Small graphs (< 30 vertices): 0";
    "Medium graphs (< 300 vertices): 0";
    "Large graphs (< 1000 vertices): 0";
    "Extra graphs (< 2000 vertices): 0";
    Script.nl ++ "=== Average Performance Metrics ===";
    "Average Prim's execution time: nan ms";
    "Average Kruskal's execution time: nan ms";
    "Average Prim's operations: nan";
    "Average Kruskal's operations: nan";
    Script.nl ++ "=== Performance Comparison ===";
    "Prim's algorithm faster in: 0 cases";
    "Kruskal's algorithm faster in: 0 cases";
    Script.nl ++ "=== Cost Verification ===";
    "MST costs match in all 0 cases: ✓" ]%string.

(** *** Column dtypes *)



Definition is_float (v : value) : bool :=
  match v with
  | VFloat _ => true
  | _ => false
  end.







(** A file whose first record has a field more than the header, and the
    table pandas loads from it: the first field of every record is the row
    index, the header names the fields after it. *)
Definition indexed_csv : list (list string) :=
  [ ["a"; "b"];
    ["x"; "1"; "2"];
    ["y"; "3"] ].

Definition indexed_df : DataFrame :=
  {| columns := ["a"; "b"];
     rows := [ [VInt 1; VFloat (F64.of_Z 2)];
               [VInt 3; VFloat F64.nan] ] |}.

(** A header with a repeated name and an empty name. *)
Definition repeated_header : list string := ["a"; "b"; "a"; ""; "a"].


(** [<] on one pair of cells, [left] being the column on the left. *)
Definition lt_pair (left : Series) (a b : value) : result bool :=
  if Pandas.object_dtype left then Pandas.masked_lt a b else val_lt a b.

(** Row [r] holds, under columns [a] and [b], cells that [df[a] < df[b]]
    cannot compare. *)
Definition incomparable (df : DataFrame) (a b : string) (r : list value)
  : bool :=
  match lt_pair (map (field df a) (rows df)) (field df a r) (field df b r) with
  | inl _ => true
  | inr _ => false
  end.

(** A table with a missing label, and the same rows in another order. *)
Definition missing_label_df : DataFrame :=
  {| columns := Reference.header;
     rows := [ [VInt 10; VStr "Small"; VFloat (F64.dec 10 1);
                VFloat (F64.dec 20 1); VInt 100; VInt 80; VInt 50; VInt 50];
               [VInt 20; VFloat F64.nan; VFloat (F64.dec 30 1);
                VFloat (F64.dec 10 1); VInt 150; VInt 90; VInt 70; VInt 71];
               [VInt 30; VStr "Large"; VFloat (F64.dec 10 1);
                VFloat (F64.dec 10 1); VInt 150; VInt 90; VInt 70; VInt 70] ]
  |}.

Definition reordered_df : DataFrame :=
  {| columns := Reference.header;
     rows := [ [VInt 30; VStr "Large"; VFloat (F64.dec 10 1);
                VFloat (F64.dec 10 1); VInt 150; VInt 90; VInt 70; VInt 70];
               [VInt 10; VStr "Small"; VFloat (F64.dec 10 1);
                VFloat (F64.dec 20 1); VInt 100; VInt 80; VInt 50; VInt 50];
               [VInt 20; VFloat F64.nan; VFloat (F64.dec 30 1);
                VFloat (F64.dec 10 1); VInt 150; VInt 90; VInt 70; VInt 71] ]
  |}.

(** The float64 values of column [col], row by row. *)
Definition column_values (df : DataFrame) (col : string) : list F64.float :=
  map (fun r => float_of (field df col r)) (rows df).

(** The four columns that are averaged over the whole table. *)
Definition averaged_columns : list string :=
  ["Prim_Time_ms"; "Kruskal_Time_ms"; "Prim_Operations"; "Kruskal_Operations"].

(* ===================================================================== *)
(** ** Lemmas on frames, masks and columns *)
(* ===================================================================== *)

Section Frames.

Import Pandas.

Lemma getitem_has (df : DataFrame) (name : string) :
  has_column df name = true ->
  getitem df name = Ok (map (field df name) (rows df)).
Proof.
  unfold has_column, getitem, field.
  destruct (index_of name (columns df)); [reflexivity | discriminate].
Qed.

Lemma getitem_missing (df : DataFrame) (name : string) :
  has_column df name = false ->
  getitem df name = Raise (KeyError name).
Proof.
  unfold has_column, getitem.
  destruct (index_of name (columns df)); [discriminate | reflexivity].
Qed.

Lemma getitem_Ok (df : DataFrame) (name : string) (s : Series) :
  getitem df name = Ok s ->
  has_column df name = true /\ s = map (field df name) (rows df).
Proof.
  destruct (has_column df name) eqn:E.
  - rewrite (getitem_has _ _ E). intros [= <-]. auto.
  - rewrite (getitem_missing _ _ E). discriminate.
Qed.

(** Columns and [field] of a filtered frame are those of the frame. *)
Lemma field_loc (df : DataFrame) (mask : list bool) (name : string) :
  field (loc df mask) name = field df name.
Proof. reflexivity. Qed.

Lemma has_column_loc (df : DataFrame) (mask : list bool) (name : string) :
  has_column (loc df mask) name = has_column df name.
Proof. reflexivity. Qed.

Lemma select_map {A} (p : A -> bool) (l : list A) :
  select (map p l) l = filter p l.
Proof.
  induction l as [|x t IH]; simpl; [reflexivity|].
  rewrite IH. reflexivity.
Qed.

(** A column of the frame filtered by a row predicate. *)
Lemma getitem_loc_rows (df : DataFrame) (p : list value -> bool)
    (name : string) :
  has_column df name = true ->
  getitem (loc df (map p (rows df))) name
  = Ok (map (field df name) (filter p (rows df))).
Proof.
  intros Hc. rewrite getitem_has by exact Hc.
  unfold loc. cbn [rows]. rewrite select_map. reflexivity.
Qed.

Lemma combine_map {A B C} (g : A -> B) (h : A -> C) (l : list A) :
  combine (map g l) (map h l) = map (fun x => (g x, h x)) l.
Proof.
  induction l as [|x t IH]; simpl; [reflexivity|].
  rewrite IH. reflexivity.
Qed.

Lemma series_eq_rows {A} (g h : A -> value) (l : list A) :
  series_eq (map g l) (map h l) = map (fun r => val_eq (g r) (h r)) l.
Proof.
  unfold series_eq. rewrite combine_map, map_map. reflexivity.
Qed.

Lemma series_eq_scalar_rows {A} (g : A -> value) (v : value) (l : list A) :
  series_eq_scalar (map g l) v = map (fun r => val_eq (g r) v) l.
Proof. unfold series_eq_scalar. rewrite map_map. reflexivity. Qed.

Lemma filter_length_le {A} (p : A -> bool) (l : list A) :
  (List.length (filter p l) <= List.length l)%nat.
Proof.
  induction l as [|x t IH]; simpl; [lia|].
  destruct (p x); simpl; lia.
Qed.

Lemma filter_length_all {A} (p : A -> bool) (l : list A) :
  List.length (filter p l) = List.length l <->
  (forall x, In x l -> p x = true).
Proof.
  induction l as [|x t IH]; simpl.
  - split; [intros _ y [] | reflexivity].
  - destruct (p x) eqn:E; simpl.
    + split.
      * intros Hl y [<- | Hy]; [exact E|].
        apply IH; [lia | exact Hy].
      * intros Hall. f_equal. apply IH. intros y Hy. apply Hall. now right.
    + split.
      * intros Hl. pose proof (filter_length_le p t). lia.
      * intros Hall. specialize (Hall x (or_introl eq_refl)). congruence.
Qed.

End Frames.

(* ===================================================================== *)
(** ** Lemmas on binary64 comparison *)
(* ===================================================================== *)

Section Comparison.

Lemma pos_compare_cont_eq (m n : positive) :
  Pos.compare_cont Eq m n = Eq <-> m = n.
Proof. apply Pos.compare_eq_iff. Qed.

(** Equality of two finite non-zero floats is equality of sign, mantissa
    and exponent. *)
Lemma eqb_finite (s s' : bool) (m m' : positive) (e e' : Z) :
  F64.eqb (S754_finite s m e) (S754_finite s' m' e') = true <->
  s = s' /\ m = m' /\ e = e'.
Proof.
  unfold F64.eqb, SFeqb, SFcompare.
  destruct s, s'; split; try discriminate;
    try (intros (Hs & _); discriminate).
  - destruct (Z.compare_spec e e') as [-> | Hlt | Hgt]; try discriminate.
    destruct (Pos.compare_cont Eq m m') eqn:C; try discriminate.
    apply pos_compare_cont_eq in C. subst. auto.
  - intros (_ & -> & ->). rewrite Z.compare_refl.
    replace (Pos.compare_cont Eq m' m') with Eq;
      [reflexivity | symmetry; now apply pos_compare_cont_eq].
  - destruct (Z.compare_spec e e') as [-> | Hlt | Hgt]; try discriminate.
    destruct (Pos.compare_cont Eq m m') eqn:C; try discriminate.
    apply pos_compare_cont_eq in C. subst. auto.
  - intros (_ & -> & ->). rewrite Z.compare_refl.
    replace (Pos.compare_cont Eq m' m') with Eq;
      [reflexivity | symmetry; now apply pos_compare_cont_eq].
Qed.

Lemma compare_antisym (x y : F64.float) (c : comparison) :
  SFcompare x y = Some c -> SFcompare y x = Some (CompOpp c).
Proof.
  destruct x as [sx | sx | | sx mx ex], y as [sy | sy | | sy my ey];
    simpl; try discriminate;
    try (intros [= <-]; destruct sx; try destruct sy; reflexivity).
  intros [= <-]. f_equal.
  destruct sx, sy; try reflexivity;
    rewrite (Z.compare_antisym ex ey);
    destruct (ex ?= ey)%Z; simpl; try reflexivity;
    rewrite ?CompOpp_involutive;
    first [ rewrite (Pos.compare_cont_antisym mx my Eq)
          | rewrite (Pos.compare_cont_antisym my mx Eq) ];
    reflexivity.
Qed.

Lemma compare_defined (x y : F64.float) :
  F64.is_nan x = false -> F64.is_nan y = false ->
  exists c, SFcompare x y = Some c.
Proof.
  destruct x, y; simpl; try discriminate; intros _ _; eexists; reflexivity.
Qed.

(** Among numbers that are not NaN, exactly one of [x < y], [y < x] and
    [x == y] holds. *)
Lemma float_trichotomy (x y : F64.float) :
  F64.is_nan x = false -> F64.is_nan y = false ->
  (F64.ltb x y, F64.ltb y x, F64.eqb x y) = (true, false, false)
  \/ (F64.ltb x y, F64.ltb y x, F64.eqb x y) = (false, true, false)
  \/ (F64.ltb x y, F64.ltb y x, F64.eqb x y) = (false, false, true).
Proof.
  intros Hx Hy. destruct (compare_defined x y Hx Hy) as [c Hc].
  pose proof (compare_antisym x y c Hc) as Hc'.
  unfold F64.ltb, F64.eqb, SFltb, SFeqb. rewrite Hc, Hc'.
  destruct c; simpl; auto.
Qed.

Lemma leb_zero_not_nan (f : F64.float) :
  F64.leb F64.zero f = true -> F64.is_nan f = false.
Proof. destruct f; simpl; auto; discriminate. Qed.

(** *** Conversion from integers never gives NaN *)

Lemma iter_pos_invariant {A} (P : A -> Prop) (f : A -> A) :
  (forall x, P x -> P (f x)) ->
  forall p x, P x -> P (iter_pos f p x).
Proof.
  intros Hf. induction p as [p IH | p IH |]; simpl; intros x Hx; auto.
Qed.

Lemma shr_1_nonneg (mrs : shr_record) :
  (0 <= shr_m mrs)%Z -> (0 <= shr_m (shr_1 mrs))%Z.
Proof.
  destruct mrs as [m r s]. simpl.
  destruct m as [| [p | p |] | [p | p |]]; simpl; lia.
Qed.

Lemma shr_record_of_loc_m (m : Z) (l : location) :
  shr_m (shr_record_of_loc m l) = m.
Proof. destruct l as [| []]; reflexivity. Qed.

Lemma shr_fexp_nonneg (pr em m e : Z) (l : location) :
  (0 <= m)%Z -> (0 <= shr_m (fst (shr_fexp pr em m e l)))%Z.
Proof.
  intros Hm. unfold shr_fexp, shr.
  destruct (fexp pr em (Zdigits2 m + e) - e)%Z; simpl;
    try (rewrite shr_record_of_loc_m; exact Hm).
  apply (iter_pos_invariant (fun x => (0 <= shr_m x)%Z)).
  - apply shr_1_nonneg.
  - rewrite shr_record_of_loc_m. exact Hm.
Qed.

Lemma round_nearest_even_nonneg (m : Z) (l : location) :
  (0 <= m)%Z -> (0 <= round_nearest_even m l)%Z.
Proof.
  intros Hm. destruct l as [| []]; simpl; try lia.
  destruct (Z.even m); lia.
Qed.

Lemma binary_round_aux_not_nan (pr em : Z) (sx : bool) (mx ex : Z)
    (lx : location) :
  (0 <= mx)%Z -> F64.is_nan (binary_round_aux pr em sx mx ex lx) = false.
Proof.
  intros Hm. unfold binary_round_aux.
  pose proof (shr_fexp_nonneg pr em mx ex lx Hm) as H1.
  destruct (shr_fexp pr em mx ex lx) as [mrs' e']. simpl in H1.
  pose proof (shr_fexp_nonneg pr em
                (round_nearest_even (shr_m mrs') (loc_of_shr_record mrs'))
                e' loc_Exact
                (round_nearest_even_nonneg _ _ H1)) as H2.
  destruct (shr_fexp pr em _ e' loc_Exact) as [mrs'' e'']. simpl in H2.
  destruct (shr_m mrs'') as [| p | p]; simpl.
  - reflexivity.
  - destruct (e'' <=? em - pr)%Z; reflexivity.
  - lia.
Qed.

Lemma of_Z_not_nan (z : Z) : F64.is_nan (F64.of_Z z) = false.
Proof.
  unfold F64.of_Z, binary_normalize, binary_round.
  destruct z as [| m | m]; [reflexivity | |];
    destruct (shl_align m 0 _) as [mz ez];
    apply binary_round_aux_not_nan; lia.
Qed.

End Comparison.

(* ===================================================================== *)
(** ** The cost cross-check *)
(* ===================================================================== *)

Section CostCheck.

Context `{Platform}.
Import Pandas Script.

Lemma cost_matches_count (df : DataFrame) :
  has_column df "Prim_Cost" = true ->
  has_column df "Kruskal_Cost" = true ->
  cost_matches df = Ok (count_rows (cost_match df) df).
Proof.
  intros Ha Hb. unfold cost_matches.
  rewrite (getitem_has _ _ Ha), (getitem_has _ _ Hb). simpl.
  rewrite series_eq_rows. unfold len, loc. simpl.
  rewrite select_map. reflexivity.
Qed.

(** Two cells of the same dtype are equal under [==] exactly when they are
    the same number. *)
Lemma same_dtype_exact (a b : value) :
  is_float a = is_float b -> val_eq a b = same_number a b.
Proof.
  destruct a as [x | f | s | c], b as [y | g | t | d]; simpl;
    try reflexivity; discriminate.
Qed.

(** C1, as the code has it. On a frame that has both cost columns,
    [cost_matches] is the number of rows whose two costs are equal under
    [==]. That equality has no tolerance: two integers are equal only when
    the same integer, two finite non-zero float64 only when they have the
    same sign, mantissa and exponent, and two cells of the same dtype only
    when they are the same number. But an integer against a float64 is
    first rounded to float64, and it is the rounded value that is compared.
    The count never exceeds the number of rows; the flag is true if and
    only if every row matches; and the cost line ends with the check mark
    when the count equals the number of rows, with the cross otherwise. *)
Theorem cost_check_exact (df : DataFrame) :
  has_column df "Prim_Cost" = true ->
  has_column df "Kruskal_Cost" = true ->
  let n := count_rows (cost_match df) df in
  cost_matches df = Ok n
  /\ (forall x y : Z, val_eq (VInt x) (VInt y) = true <-> x = y)
  /\ (forall s s' m m' e e',
        val_eq (VFloat (S754_finite s m e)) (VFloat (S754_finite s' m' e'))
          = true <-> s = s' /\ m = m' /\ e = e')
  /\ (forall r,
        is_float (field df "Prim_Cost" r) = is_float (field df "Kruskal_Cost" r) ->
        cost_match df r = exact_match df r)
  /\ (forall x g,
        val_eq (VInt x) (VFloat g) = F64.eqb (F64.of_Z x) g
        /\ val_eq (VFloat g) (VInt x) = F64.eqb g (F64.of_Z x))
  /\ (n <= len df)%nat
  /\ cost_flag df = Ok (n =? len df)%nat
  /\ ((n =? len df)%nat = true <->
      forall r, In r (rows df) -> cost_match df r = true)
  /\ (n = len df ->
      print_costs df [] =
        ([(nl ++ "=== Cost Verification ===")%string;
          ("MST costs match in all " ++ Py.str_nat n ++ " cases: ✓")%string],
         Ok tt))
  /\ (n <> len df ->
      print_costs df [] =
        ([(nl ++ "=== Cost Verification ===")%string;
          ("MST costs match in all " ++ Py.str_nat n ++ " cases: ✗")%string],
         Ok tt)).
Proof.
  intros Ha Hb n.
  pose proof (cost_matches_count df Ha Hb) as Hc. fold n in Hc.
  split; [exact Hc|].
  split; [intros x y; apply Z.eqb_eq|].
  split; [intros; apply eqb_finite|].
  split; [intros r; apply same_dtype_exact|].
  split; [intros x g; split; reflexivity|].
  split; [apply filter_length_le|].
  split; [unfold cost_flag; rewrite Hc; reflexivity|].
  split; [rewrite Nat.eqb_eq; apply filter_length_all|].
  assert (Hline : print_costs df [] =
            ([(nl ++ "=== Cost Verification ===")%string;
              ("MST costs match in all " ++ Py.str_nat n ++ " cases: "
                 ++ mark (n =? len df)%nat)%string],
             Ok tt)).
  { unfold print_costs, mbind, print, lift. rewrite Hc. reflexivity. }
  split.
  - intros E. rewrite (proj2 (Nat.eqb_eq _ _) E) in Hline. exact Hline.
  - intros N. rewrite (proj2 (Nat.eqb_neq _ _) N) in Hline. exact Hline.
Qed.

End CostCheck.

Lemma cost_check_exact_witness :
  has_column Reference.scenario_df "Prim_Cost" = true
  /\ Script.cost_matches Reference.scenario_df = Ok 1%nat
  /\ Script.cost_flag Reference.scenario_df = Ok false
  /\ Script.print_costs Reference.scenario_df [] =
       ([(Script.nl ++ "=== Cost Verification ===")%string;
         "MST costs match in all 1 cases: ✗"], Ok tt).
Proof.
  destruct (cost_check_exact Reference.scenario_df eq_refl eq_refl)
    as (Hc & _ & _ & _ & _ & _ & Hf & _ & _ & Hx).
  split; [reflexivity|]. split; [exact Hc|]. split; [exact Hf|].
  apply Hx. discriminate.
Defined.

(** C1, as the spec has it, fails. The file whose costs are the integer
    2^53 + 1 and the decimal 2^53 loads as a valid table with an int64 and a
    float64 cost column; the two loaded costs differ by one, yet the row is
    counted as a match and the flag is true. *)
Lemma cost_exact_counterexample :
  Pandas.read_csv (H := Reference.platform)
    (files mixed_cost_world) Script.data_path = Ok mixed_cost_df
  /\ valid_frame mixed_cost_df = true
  /\ count_rows (exact_match mixed_cost_df) mixed_cost_df = 0%nat
  /\ Script.cost_matches mixed_cost_df = Ok 1%nat
  /\ Script.cost_flag mixed_cost_df = Ok true
  /\ ~ counts_exact_matches.
Proof.
  split; [vm_compute; reflexivity|].
  split; [vm_compute; reflexivity|].
  split; [vm_compute; reflexivity|].
  split; [vm_compute; reflexivity|].
  split; [vm_compute; reflexivity|].
  intros Hclaim.
  specialize (Hclaim mixed_cost_df ltac:(vm_compute; reflexivity)).
  vm_compute in Hclaim. discriminate.
Qed.

(* ===================================================================== *)
(** ** Valid tables *)
(* ===================================================================== *)

Section ValidTables.

Import Pandas.

Lemma rmap_Ok {A B} (f : A -> result B) (g : A -> B) (l : list A) :
  (forall x, In x l -> f x = Ok (g x)) ->
  rmap f l = Ok (map g l).
Proof.
  induction l as [|x t IH]; simpl; intros Hf; [reflexivity|].
  rewrite (Hf x (or_introl eq_refl)). simpl.
  rewrite IH by (intros y Hy; apply Hf; now right). reflexivity.
Qed.

Lemma valid_frame_columns (df : DataFrame) (c : string) :
  valid_frame df = true -> In c required_columns -> has_column df c = true.
Proof.
  unfold valid_frame. rewrite andb_true_iff. intros [Hc _] Hin.
  rewrite forallb_forall in Hc. auto.
Qed.

Lemma valid_frame_rows (df : DataFrame) (r : list value) :
  valid_frame df = true -> In r (rows df) -> valid_row df r = true.
Proof.
  unfold valid_frame. rewrite andb_true_iff. intros [_ Hr] Hin.
  rewrite forallb_forall in Hr. auto.
Qed.

Lemma valid_row_times (df : DataFrame) (r : list value) :
  valid_row df r = true ->
  nonneg_time (field df "Prim_Time_ms" r) = true
  /\ nonneg_time (field df "Kruskal_Time_ms" r) = true.
Proof.
  unfold valid_row. rewrite !andb_true_iff. tauto.
Qed.

Lemma valid_row_label (df : DataFrame) (r : list value) :
  valid_row df r = true -> is_str (field df "Graph_Type" r) = true.
Proof.
  unfold valid_row. rewrite !andb_true_iff. tauto.
Qed.

Lemma time_to_float (v : value) :
  nonneg_time v = true ->
  to_float v = Ok (float_of v) /\ F64.is_nan (float_of v) = false.
Proof.
  destruct v as [z | f | s | b]; simpl; intros Hv.
  - split; [reflexivity | apply of_Z_not_nan].
  - split; [reflexivity | now apply leb_zero_not_nan].
  - discriminate.
  - discriminate.
Qed.

Lemma time_is_number (v : value) :
  nonneg_time v = true ->
  is_str v = false /\ is_bool v = false /\ is_null v = false.
Proof.
  destruct v as [z | f | s | b]; simpl; try discriminate; auto.
  intros Hv. repeat split. now apply leb_zero_not_nan.
Qed.

Lemma existsb_false {A} (p : A -> bool) (l : list A) :
  (forall x, In x l -> p x = false) -> existsb p l = false.
Proof.
  induction l as [|x t IH]; simpl; intros Hp; [reflexivity|].
  rewrite (Hp x (or_introl eq_refl)). simpl.
  apply IH. intros y Hy. apply Hp. now right.
Qed.

(** A column without text and without booleans is neither object nor
    bool. *)
Lemma numbers_dtype (s : Series) :
  (forall v, In v s -> is_str v = false /\ is_bool v = false) ->
  object_dtype s = false /\ bool_dtype s = false.
Proof.
  intros Hs. unfold object_dtype.
  rewrite (existsb_false is_str) by (intros v Hv; apply (Hs v Hv)).
  rewrite (existsb_false is_bool) by (intros v Hv; apply (Hs v Hv)).
  split; [reflexivity|].
  destruct s as [|v t]; [reflexivity|]. simpl.
  now rewrite (proj2 (Hs v (or_introl eq_refl))).
Qed.

Lemma to_float_number (v : value) :
  is_str v = false -> to_float v = Ok (float_of v).
Proof. destruct v; try discriminate; reflexivity. Qed.

(** On two columns of numbers, [/] is the float64 quotient of every pair. *)
Lemma series_truediv_numbers {A} (g h : A -> value) (l : list A) :
  (forall r, In r l -> is_str (g r) = false /\ is_bool (g r) = false) ->
  (forall r, In r l -> is_str (h r) = false /\ is_bool (h r) = false) ->
  series_truediv (map g l) (map h l)
  = Ok (map (fun r => VFloat (F64.div (float_of (g r)) (float_of (h r)))) l).
Proof.
  intros Hg Hh. unfold series_truediv.
  destruct (numbers_dtype (map g l)) as [-> ->].
  { intros v Hv. apply in_map_iff in Hv. destruct Hv as (r & <- & Hr). auto. }
  destruct (numbers_dtype (map h l)) as [-> _].
  { intros v Hv. apply in_map_iff in Hv. destruct Hv as (r & <- & Hr). auto. }
  cbn [andb orb]. rewrite combine_map.
  rewrite (rmap_Ok _ (fun p : value * value =>
                        VFloat (F64.div (float_of (fst p)) (float_of (snd p))))).
  - rewrite map_map. reflexivity.
  - intros [a b] Hin. apply in_map_iff in Hin.
    destruct Hin as (r & [= <- <-] & Hr). cbn [fst snd].
    unfold val_truediv.
    rewrite (to_float_number _ (proj1 (Hg r Hr))),
            (to_float_number _ (proj1 (Hh r Hr))).
    reflexivity.
Qed.

Lemma times_dtype (s : Series) :
  (forall v, In v s -> nonneg_time v = true) ->
  object_dtype s = false /\ bool_dtype s = false.
Proof.
  intros Hs. apply numbers_dtype. intros v Hv.
  destruct (time_is_number v (Hs v Hv)) as (A & B & _). auto.
Qed.

(** A valid time is below, above or equal to another, and only one of the
    three. *)
Lemma time_trichotomy (a b : value) :
  nonneg_time a = true -> nonneg_time b = true ->
  exists p q,
    val_lt a b = Ok p /\ val_lt b a = Ok q
    /\ ((p, q, val_eq a b) = (true, false, false)
        \/ (p, q, val_eq a b) = (false, true, false)
        \/ (p, q, val_eq a b) = (false, false, true)).
Proof.
  intros Ha Hb.
  destruct (time_to_float a Ha) as [_ Na], (time_to_float b Hb) as [_ Nb].
  destruct a as [x | f | s | c], b as [y | g | t | d]; try discriminate;
    simpl in Na, Nb; simpl; do 2 eexists;
    (split; [reflexivity | split; [reflexivity|]]).
  - destruct (Z.ltb_spec x y), (Z.ltb_spec y x), (Z.eqb_spec x y);
      auto; lia.
  - apply float_trichotomy; assumption.
  - apply float_trichotomy; assumption.
  - apply float_trichotomy; assumption.
Qed.

Lemma filter_three {A} (p q t : A -> bool) (l : list A) :
  (forall x, In x l ->
     (p x, q x, t x) = (true, false, false)
     \/ (p x, q x, t x) = (false, true, false)
     \/ (p x, q x, t x) = (false, false, true)) ->
  (List.length (filter p l) + List.length (filter q l)
   + List.length (filter t l) = List.length l)%nat.
Proof.
  induction l as [|x r IH]; simpl; intros Hx; [reflexivity|].
  assert (IH' := IH (fun y Hy => Hx y (or_intror Hy))).
  destruct (Hx x (or_introl eq_refl)) as [E | [E | E]];
    injection E as -> -> ->; simpl; lia.
Qed.

End ValidTables.

(* ===================================================================== *)
(** ** Head-to-head counts *)
(* ===================================================================== *)

Section HeadToHead.

Import Pandas Script.

Lemma row_trichotomy (df : DataFrame) (r : list value) :
  valid_frame df = true -> In r (rows df) ->
  val_lt (field df "Prim_Time_ms" r) (field df "Kruskal_Time_ms" r)
    = Ok (a_faster df r)
  /\ val_lt (field df "Kruskal_Time_ms" r) (field df "Prim_Time_ms" r)
    = Ok (b_faster df r)
  /\ ((a_faster df r, b_faster df r, tie df r) = (true, false, false)
      \/ (a_faster df r, b_faster df r, tie df r) = (false, true, false)
      \/ (a_faster df r, b_faster df r, tie df r) = (false, false, true)).
Proof.
  intros Hv Hr.
  destruct (valid_row_times df r (valid_frame_rows df r Hv Hr)) as [Ha Hb].
  destruct (time_trichotomy _ _ Ha Hb) as (p & q & Hp & Hq & Ht).
  unfold a_faster, b_faster, tie. rewrite Hp, Hq. simpl. auto.
Qed.

Lemma valid_times_dtype (df : DataFrame) (col : string) :
  valid_frame df = true ->
  col = "Prim_Time_ms" \/ col = "Kruskal_Time_ms" ->
  object_dtype (map (field df col) (rows df)) = false
  /\ bool_dtype (map (field df col) (rows df)) = false.
Proof.
  intros Hv Hcol. apply times_dtype. intros v Hin.
  apply in_map_iff in Hin. destruct Hin as (r & <- & Hr).
  destruct (valid_row_times df r (valid_frame_rows df r Hv Hr)) as [Ha Hb].
  destruct Hcol as [-> | ->]; assumption.
Qed.

Lemma prim_faster_count_rows (df : DataFrame) :
  valid_frame df = true ->
  prim_faster_count df = Ok (count_rows (a_faster df) df).
Proof.
  intros Hv. unfold prim_faster_count.
  rewrite (getitem_has df "Prim_Time_ms"),
          (getitem_has df "Kruskal_Time_ms")
    by (apply valid_frame_columns; simpl; auto 10).
  simpl. unfold series_lt.
  rewrite (proj1 (valid_times_dtype df "Prim_Time_ms" Hv (or_introl eq_refl))).
  rewrite combine_map.
  rewrite (rmap_Ok _ (fun p : value * value => truth (val_lt (fst p) (snd p)))).
  - simpl. rewrite map_map. simpl. unfold len, loc. simpl.
    rewrite select_map. reflexivity.
  - intros [a b] Hin. apply in_map_iff in Hin.
    destruct Hin as (r & [= <- <-] & Hr).
    simpl. destruct (row_trichotomy df r Hv Hr) as (-> & _). reflexivity.
Qed.

Lemma kruskal_faster_count_rows (df : DataFrame) :
  valid_frame df = true ->
  kruskal_faster_count df = Ok (count_rows (b_faster df) df).
Proof.
  intros Hv. unfold kruskal_faster_count.
  rewrite (getitem_has df "Prim_Time_ms"),
          (getitem_has df "Kruskal_Time_ms")
    by (apply valid_frame_columns; simpl; auto 10).
  simpl. unfold series_lt.
  rewrite (proj1 (valid_times_dtype df "Kruskal_Time_ms" Hv
                    (or_intror eq_refl))).
  rewrite combine_map.
  rewrite (rmap_Ok _ (fun p : value * value => truth (val_lt (fst p) (snd p)))).
  - simpl. rewrite map_map. simpl. unfold len, loc. simpl.
    rewrite select_map. reflexivity.
  - intros [a b] Hin. apply in_map_iff in Hin.
    destruct Hin as (r & [= <- <-] & Hr).
    simpl. destruct (row_trichotomy df r Hv Hr) as (_ & -> & _). reflexivity.
Qed.

(** C2. On a valid table both head-to-head counts are defined; they count
    the rows where A is strictly faster and the rows where B is strictly
    faster; together with the rows of equal times they add up to the number
    of rows; and a row of equal times is in neither count. *)
Theorem head_to_head_partition (df : DataFrame) :
  valid_frame df = true ->
  prim_faster_count df = Ok (count_rows (a_faster df) df)
  /\ kruskal_faster_count df = Ok (count_rows (b_faster df) df)
  /\ (count_rows (a_faster df) df + count_rows (b_faster df) df
      + count_rows (tie df) df = len df)%nat
  /\ (forall r, In r (rows df) -> tie df r = true ->
        a_faster df r = false /\ b_faster df r = false).
Proof.
  intros Hv.
  split; [now apply prim_faster_count_rows|].
  split; [now apply kruskal_faster_count_rows|].
  split.
  - apply filter_three. intros r Hr.
    apply (row_trichotomy df r Hv Hr).
  - intros r Hr Ht.
    destruct (row_trichotomy df r Hv Hr) as (_ & _ & [E | [E | E]]);
      injection E as Ea Eb Et; split; congruence.
Qed.

End HeadToHead.

Lemma head_to_head_partition_witness :
  valid_frame Reference.scenario_df = true
  /\ Script.prim_faster_count Reference.scenario_df = Ok 1%nat
  /\ Script.kruskal_faster_count Reference.scenario_df = Ok 1%nat
  /\ count_rows (tie Reference.scenario_df) Reference.scenario_df = 0%nat.
Proof.
  destruct (head_to_head_partition Reference.scenario_df eq_refl)
    as (Ha & Hb & _ & _).
  split; [reflexivity|].
  split; [exact Ha|].
  split; [exact Hb | reflexivity].
Defined.

(* ===================================================================== *)
(** ** Category counts *)
(* ===================================================================== *)

Section CategoryCounts.

Import Pandas Script.

Lemma val_eq_label (v : value) (label : string) :
  val_eq v (VStr label) = true <-> v = VStr label.
Proof.
  destruct v as [z | f | s | b]; simpl; split; try discriminate.
  - intros E. apply String.eqb_eq in E. now subst.
  - intros [= ->]. apply String.eqb_refl.
Qed.

Lemma count_label_occ {A} (f : A -> value) (label : string) (l : list A) :
  List.length (filter (fun r => val_eq (f r) (VStr label)) l)
  = count_occ value_eq_dec (map f l) (VStr label).
Proof.
  induction l as [|x t IH]; simpl; [reflexivity|].
  destruct (value_eq_dec (f x) (VStr label)) as [E | E].
  - rewrite (proj2 (val_eq_label _ _) E). simpl. now rewrite IH.
  - destruct (val_eq (f x) (VStr label)) eqn:V; [|exact IH].
    apply val_eq_label in V. contradiction.
Qed.

(** The label count is the number of occurrences of the label in the
    [Graph_Type] column. *)
Lemma label_count_occ (df : DataFrame) (g : Series) (label : string) :
  getitem df "Graph_Type" = Ok g ->
  label_count df label = Ok (count_occ value_eq_dec g (VStr label)).
Proof.
  intros Hg. unfold label_count. rewrite Hg. simpl.
  apply getitem_Ok in Hg. destruct Hg as [_ ->].
  rewrite series_eq_scalar_rows. unfold len, loc. simpl.
  rewrite select_map, count_label_occ. reflexivity.
Qed.

Lemma column_length (df : DataFrame) (name : string) (s : Series) :
  getitem df name = Ok s -> List.length s = len df.
Proof.
  intros Hs. apply getitem_Ok in Hs. destruct Hs as [_ ->].
  apply length_map.
Qed.

Lemma print_counts_lines (df : DataFrame) (g : Series) (out : list string) :
  getitem df "Graph_Type" = Ok g ->
  print_counts df out = (out ++ count_lines g, Ok tt).
Proof.
  intros Hg. unfold print_counts, mbind, print, lift.
  rewrite !(label_count_occ df g _ Hg), <- (column_length _ _ _ Hg).
  unfold count_lines, Ok. cbn. rewrite <- !app_assoc. reflexivity.
Qed.

(** C4. Each of the four counts printed under the vertex-threshold wording is
    the number of entries of the [Graph_Type] column that are exactly the
    label "Small", "Medium", "Large" or "Extra"; two tables with the same
    [Graph_Type] column print the same six lines, whatever their [Vertices]
    (or any other) column holds. *)
Theorem label_counts_by_label (df : DataFrame) (g : Series) :
  getitem df "Graph_Type" = Ok g ->
  label_count df "Small" = Ok (count_occ value_eq_dec g (VStr "Small"))
  /\ label_count df "Medium" = Ok (count_occ value_eq_dec g (VStr "Medium"))
  /\ label_count df "Large" = Ok (count_occ value_eq_dec g (VStr "Large"))
  /\ label_count df "Extra" = Ok (count_occ value_eq_dec g (VStr "Extra"))
  /\ print_counts df [] = (count_lines g, Ok tt)
  /\ (forall df', getitem df' "Graph_Type" = Ok g ->
        print_counts df' [] = print_counts df []).
Proof.
  intros Hg.
  repeat (split; [now apply label_count_occ|]).
  split; [now apply (print_counts_lines df g [])|].
  intros df' Hg'.
  rewrite (print_counts_lines df g [] Hg), (print_counts_lines df' g [] Hg').
  reflexivity.
Qed.

(** The four labels are distinct, so an entry is counted at most once. *)
Lemma label_occ_bound (g : Series) :
  let n label := count_occ value_eq_dec g (VStr label) in
  (n "Small" + n "Medium" + n "Large" + n "Extra" <= List.length g)%nat
  /\ ((n "Small" + n "Medium" + n "Large" + n "Extra" = List.length g)%nat
      <-> forall v, In v g -> In v the_labels).
Proof.
  induction g as [|v t [IHle IHeq]]; simpl.
  - split; [lia|]. split; [intros _ v [] | reflexivity].
  - simpl in IHle, IHeq.
    destruct (value_eq_dec v (VStr "Small")) as [-> | N1];
    [| destruct (value_eq_dec v (VStr "Medium")) as [-> | N2];
       [| destruct (value_eq_dec v (VStr "Large")) as [-> | N3];
          [| destruct (value_eq_dec v (VStr "Extra")) as [-> | N4]]]];
    simpl.
    1-4: split; [lia|]; split;
      [ intros E w [<- | Hw];
        [ unfold the_labels; simpl; tauto
        | apply IHeq; [lia | exact Hw] ]
      | intros Hall;
        assert (Ht : forall w, In w t -> In w the_labels)
          by (intros w Hw; apply Hall; now right);
        apply IHeq in Ht; lia ].
    split; [lia|]. split.
    + intros E. lia.
    + intros Hall. specialize (Hall v (or_introl eq_refl)).
      unfold the_labels in Hall. simpl in Hall.
      destruct Hall as [E | [E | [E | [E | []]]]]; symmetry in E;
        contradiction.
Qed.

(** C10. The four label counts add up to at most the number of rows, with
    equality exactly when every row carries one of the four labels; a row
    with any other [Graph_Type] is selected by none of the four filters. *)
Theorem label_counts_sum (df : DataFrame) (g : Series) :
  getitem df "Graph_Type" = Ok g ->
  exists s m l e : nat,
    label_count df "Small" = Ok s
    /\ label_count df "Medium" = Ok m
    /\ label_count df "Large" = Ok l
    /\ label_count df "Extra" = Ok e
    /\ (s + m + l + e <= len df)%nat
    /\ ((s + m + l + e = len df)%nat <->
        forall r, In r (rows df) -> In (field df "Graph_Type" r) the_labels)
    /\ (forall r, In r (rows df) ->
          ~ In (field df "Graph_Type" r) the_labels ->
          forall label, In (VStr label) the_labels ->
            in_category df (VStr label) r = false).
Proof.
  intros Hg.
  exists (count_occ value_eq_dec g (VStr "Small")),
         (count_occ value_eq_dec g (VStr "Medium")),
         (count_occ value_eq_dec g (VStr "Large")),
         (count_occ value_eq_dec g (VStr "Extra")).
  repeat (split; [now apply label_count_occ|]).
  destruct (label_occ_bound g) as [Hle Heq]. simpl in Hle, Heq.
  rewrite <- (column_length _ _ _ Hg).
  split; [exact Hle|].
  apply getitem_Ok in Hg. destruct Hg as [_ Hg].
  split.
  - rewrite Heq. subst g. split.
    + intros Hall r Hr. apply Hall. now apply in_map.
    + intros Hall v Hv. apply in_map_iff in Hv.
      destruct Hv as (r & <- & Hr). now apply Hall.
  - intros r Hr Hother label Hl. unfold in_category.
    destruct (val_eq (field df "Graph_Type" r) (VStr label)) eqn:E;
      [|reflexivity].
    apply val_eq_label in E. rewrite E in Hother. contradiction.
Qed.

End CategoryCounts.

Lemma label_counts_by_label_witness :
  Pandas.getitem Reference.scenario_df "Graph_Type"
    = Ok [VStr "Small"; VStr "Small"]
  /\ Script.label_count Reference.scenario_df "Small" = Ok 2%nat
  /\ Script.label_count Reference.scenario_df "Extra" = Ok 0%nat.
Proof.
  destruct (label_counts_by_label Reference.scenario_df
              [VStr "Small"; VStr "Small"] eq_refl)
    as (Hs & _ & _ & He & _).
  split; [reflexivity | split; [exact Hs | exact He]].
Defined.

Lemma label_counts_sum_witness :
  Pandas.getitem Reference.scenario_df "Graph_Type"
    = Ok [VStr "Small"; VStr "Small"]
  /\ exists s m l e : nat,
       Script.label_count Reference.scenario_df "Small" = Ok s
       /\ Script.label_count Reference.scenario_df "Medium" = Ok m
       /\ Script.label_count Reference.scenario_df "Large" = Ok l
       /\ Script.label_count Reference.scenario_df "Extra" = Ok e
       /\ (s + m + l + e <= 2)%nat.
Proof.
  split; [reflexivity|].
  destruct (label_counts_sum Reference.scenario_df
              [VStr "Small"; VStr "Small"] eq_refl)
    as (s & m & l & e & Hs & Hm & Hl & He & Hle & _).
  exists s, m, l, e. repeat (split; [assumption|]). exact Hle.
Defined.

(* ===================================================================== *)
(** ** Column labels *)
(* ===================================================================== *)

Section ColumnLabels.

Context `{Platform}.
Import Pandas.

Lemma index_of_In (name : string) (cols : list string) :
  In name cols -> exists k, index_of name cols = Some k.
Proof.
  induction cols as [|c t IH]; simpl; [intros []|].
  intros Hin. destruct (String.eqb_spec c name) as [E | N].
  - now exists 0%nat.
  - destruct Hin as [E | Hin]; [contradiction|].
    destruct (IH Hin) as [k ->]. now exists (S k).
Qed.

Lemma has_column_In (df : DataFrame) (name : string) :
  In name (columns df) -> has_column df name = true.
Proof.
  intros Hin. unfold has_column.
  destruct (index_of_In _ _ Hin) as [k ->]. reflexivity.
Qed.

Lemma has_char_app (c : ascii) (s t : string) :
  has_char c (s ++ t)%string = has_char c s || has_char c t.
Proof.
  induction s as [|d s IH]; simpl; [reflexivity|].
  rewrite IH. apply orb_assoc.
Qed.

Lemma suffixed_has_dot (col k : string) :
  has_char "."%char (col ++ "." ++ k)%string = true.
Proof. rewrite has_char_app. simpl. apply orb_true_r. Qed.

Lemma plain_name_spec (c : string) :
  plain_name c = true ->
  c <> EmptyString
  /\ has_char "."%char c = false /\ has_char ":"%char c = false.
Proof.
  unfold plain_name. rewrite !andb_true_iff, !negb_true_iff.
  intros [[Hc Hd] Hn]. repeat split; try assumption.
  intros ->. discriminate.
Qed.

Lemma eqb_other_char (ch : ascii) (s c : string) :
  has_char ch s = true -> has_char ch c = false -> String.eqb s c = false.
Proof.
  intros Hs Hc. destruct (String.eqb_spec s c) as [-> | N];
    [congruence | reflexivity].
Qed.

Lemma label_other (header seen : list string) (i : nat) (name c : string) :
  plain_name c = true -> name <> c ->
  String.eqb (label header seen i name) c = false.
Proof.
  intros Hc N. destruct (plain_name_spec c Hc) as (Hne & Hdot & Hcolon).
  assert (Hbase : String.eqb
                    (if String.eqb name EmptyString
                     then ("Unnamed: " ++ Py.str_nat i)%string else name) c
                  = false).
  { destruct (String.eqb name EmptyString).
    - apply (eqb_other_char ":"%char); [reflexivity | exact Hcolon].
    - now apply String.eqb_neq. }
  unfold label.
  destruct (plain_name name && negb (existsb (String.eqb name) seen)).
  - now apply String.eqb_neq.
  - destruct (dedup_suffix header i) as [suffix|]; [|exact Hbase].
    apply (eqb_other_char "."%char); [apply suffixed_has_dot | exact Hdot].
Qed.

Lemma existsb_eqb_In (c : string) (l : list string) :
  existsb (String.eqb c) l = true <-> In c l.
Proof.
  rewrite existsb_exists. split.
  - intros (x & Hx & E). apply String.eqb_eq in E. now subst.
  - intros Hin. exists c. split; [exact Hin | apply String.eqb_refl].
Qed.

Lemma index_of_labels (c : string) (header names : list string) :
  plain_name c = true ->
  forall seen i,
    ~ In c seen ->
    index_of c (labels_from header seen i names) = index_of c names.
Proof.
  intros Hc. induction names as [|name t IH]; intros seen i Hseen;
    cbn [labels_from index_of]; [reflexivity|].
  destruct (String.eqb_spec name c) as [-> | N].
  - unfold label. rewrite Hc.
    destruct (existsb (String.eqb c) seen) eqn:E;
      [apply existsb_eqb_In in E; contradiction|].
    cbn [andb negb]. now rewrite String.eqb_refl.
  - rewrite (label_other header seen i name c Hc N).
    rewrite IH; [reflexivity|].
    intros [E | Hin]; [contradiction | now apply Hseen].
Qed.

(** A column name that is not empty and holds neither ['.'] nor [':'] is
    found in the labels where it is found in the header. *)
Lemma index_of_mangle (c : string) (header : list string) :
  plain_name c = true ->
  index_of c (mangle header) = index_of c header.
Proof.
  intros Hc. unfold mangle.
  destruct (distinct header && _); [reflexivity|].
  apply index_of_labels; [exact Hc | intros []].
Qed.

Lemma has_column_mangle (header : list string) (rws : list (list value))
    (c : string) :
  In c header -> plain_name c = true ->
  has_column {| columns := mangle header; rows := rws |} c = true.
Proof.
  intros Hin Hc. unfold has_column. cbn [columns].
  rewrite (index_of_mangle c header Hc).
  destruct (index_of_In _ _ Hin) as [k ->]. reflexivity.
Qed.

Lemma required_plain (c : string) :
  In c required_columns -> plain_name c = true.
Proof.
  simpl. intros [<- | [<- | [<- | [<- | [<- | [<- | [<- | [<- | []]]]]]]]];
    reflexivity.
Qed.





End ColumnLabels.

(** The labels of a header with a name used three times and an empty name,
    on the reference platform. *)
Example mangle_repeated :
  Pandas.mangle (H := Reference.platform) repeated_header
  = ["a"; "b"; "a.1"; "Unnamed: 3"; "a.2"].
Proof. reflexivity. Qed.

(* ===================================================================== *)
(** ** Global averages on the empty table *)
(* ===================================================================== *)

Section EmptyTable.

Context `{Platform}.
Import Pandas Script.

Lemma read_csv_header_only fs (path : string) (hdr : list string) :
  fs path = Some [hdr] -> hdr <> [] ->
  read_csv fs path = Ok {| columns := mangle hdr; rows := [] |}.
Proof.
  intros Hf Hne. unfold read_csv. rewrite Hf.
  destruct hdr as [|c t]; [contradiction | reflexivity].
Qed.

(** The mean of a column without entries is NaN, not an exception. *)
Lemma column_mean_empty (df : DataFrame) (name : string) :
  rows df = [] -> has_column df name = true ->
  column_mean df name = Ok F64.nan.
Proof.
  intros Hr Hc. unfold column_mean.
  rewrite (getitem_has _ _ Hc), Hr. reflexivity.
Qed.

(** C6. Loading a file that holds only the header gives a table without
    rows, and on it each of the four global averages is computed without an
    exception and is NaN; the four lines of the report are printed with
    "nan" in place of the number. *)
Theorem empty_table_averages fs (hdr : list string) :
  fs data_path = Some [hdr] ->
  (forall c,
     In c ["Prim_Time_ms"; "Kruskal_Time_ms";
           "Prim_Operations"; "Kruskal_Operations"] -> In c hdr) ->
  exists df,
    read_csv fs data_path = Ok df
    /\ len df = 0%nat
    /\ column_mean df "Prim_Time_ms" = Ok F64.nan
    /\ column_mean df "Kruskal_Time_ms" = Ok F64.nan
    /\ column_mean df "Prim_Operations" = Ok F64.nan
    /\ column_mean df "Kruskal_Operations" = Ok F64.nan
    /\ print_averages df [] =
         ([(nl ++ "=== Average Performance Metrics ===")%string;
           "Average Prim's execution time: nan ms";
           "Average Kruskal's execution time: nan ms";
           "Average Prim's operations: nan";
           "Average Kruskal's operations: nan"],
          Ok tt).
Proof.
  intros Hf Hcols.
  assert (Hne : hdr <> []).
  { intros ->. apply (Hcols "Prim_Time_ms"). simpl. auto. }
  exists {| columns := mangle hdr; rows := [] |}.
  split; [now apply read_csv_header_only|].
  split; [reflexivity|].
  assert (Hm : forall c,
             In c ["Prim_Time_ms"; "Kruskal_Time_ms";
                   "Prim_Operations"; "Kruskal_Operations"] ->
             column_mean {| columns := mangle hdr; rows := [] |} c
             = Ok F64.nan).
  { intros c Hc. apply column_mean_empty; [reflexivity|].
    apply has_column_mangle; [now apply Hcols|].
    apply required_plain. simpl in Hc. simpl.
    destruct Hc as [<- | [<- | [<- | [<- | []]]]]; auto 10. }
  assert (H1 := Hm "Prim_Time_ms"). assert (H2 := Hm "Kruskal_Time_ms").
  assert (H3 := Hm "Prim_Operations").
  assert (H4 := Hm "Kruskal_Operations").
  simpl in H1, H2, H3, H4.
  rewrite H1, H2, H3, H4 by auto 6.
  repeat (split; [reflexivity|]).
  unfold print_averages, mbind, print, lift.
  rewrite H1, H2, H3, H4 by auto 6. reflexivity.
Qed.

End EmptyTable.

Lemma empty_table_averages_witness :
  files empty_world Script.data_path = Some [Reference.header]
  /\ exists df,
       Pandas.read_csv (H := Reference.platform) (files empty_world)
         Script.data_path = Ok df
       /\ Script.column_mean (H := Reference.platform) df "Prim_Time_ms"
          = Ok F64.nan
       /\ Script.column_mean (H := Reference.platform) df "Kruskal_Operations"
          = Ok F64.nan.
Proof.
  split; [reflexivity|].
  destruct (empty_table_averages (H := Reference.platform)
              (files empty_world) Reference.header eq_refl)
    as (df & Hl & _ & Ha & _ & _ & Hd & _).
  - intros c Hc. simpl in Hc. simpl.
    destruct Hc as [<- | [<- | [<- | [<- | []]]]]; auto 10.
  - exists df. split; [exact Hl | split; [exact Ha | exact Hd]].
Defined.

(* ===================================================================== *)
(** ** The performance ratio *)
(* ===================================================================== *)

Section Ratio.

Import Pandas Script.

Lemma val_eq_zero (v : value) :
  val_eq v (VFloat F64.zero) = F64.eqb (float_of v) F64.zero.
Proof. destruct v; reflexivity. Qed.

(** Division by a zero: an infinity, or NaN when the dividend is a zero
    too. *)
Lemma div_by_zero (x y : F64.float) :
  F64.is_nan x = false -> F64.eqb y F64.zero = true ->
  F64.is_infinite (F64.div x y) || F64.is_nan (F64.div x y) = true
  /\ F64.is_nan (F64.div x y) = F64.eqb x F64.zero.
Proof.
  destruct x as [sx | sx | | sx mx ex], y as [sy | sy | | sy my ey];
    simpl; try discriminate; intros _ Hy; try (split; reflexivity);
    try (destruct sy; discriminate).
  - destruct sx; split; reflexivity.
  - destruct sx; split; reflexivity.
Qed.

Lemma performance_ratio_rows (df : DataFrame) :
  valid_frame df = true ->
  performance_ratio df =
    Ok (map (fun r => VFloat (F64.div (float_of (field df "Prim_Time_ms" r))
                                      (float_of (field df "Kruskal_Time_ms" r))))
            (rows df)).
Proof.
  intros Hv. unfold performance_ratio.
  rewrite (getitem_has df "Prim_Time_ms"),
          (getitem_has df "Kruskal_Time_ms")
    by (apply valid_frame_columns; simpl; auto 10).
  unfold Ok at 1 2. cbn [rbind].
  apply series_truediv_numbers; intros r Hr;
    destruct (valid_row_times df r (valid_frame_rows df r Hv Hr)) as [Ha Hb].
  - destruct (time_is_number _ Ha) as (A & B & _). auto.
  - destruct (time_is_number _ Hb) as (A & B & _). auto.
Qed.

(** C3, as the code has it. On a valid table the ratio column is defined, is
    aligned with the rows, and holds for every row the float64 quotient of
    the two times. Where the B time is zero the quotient is still computed:
    it is an infinity, or NaN when the A time is zero as well. *)
Theorem performance_ratio_ieee (df : DataFrame) :
  valid_frame df = true ->
  performance_ratio df =
    Ok (map (fun r => VFloat (F64.div (float_of (field df "Prim_Time_ms" r))
                                      (float_of (field df "Kruskal_Time_ms" r))))
            (rows df))
  /\ (forall r, In r (rows df) ->
        val_eq (field df "Kruskal_Time_ms" r) (VFloat F64.zero) = true ->
        let q := F64.div (float_of (field df "Prim_Time_ms" r))
                         (float_of (field df "Kruskal_Time_ms" r)) in
        F64.is_infinite q || F64.is_nan q = true
        /\ F64.is_nan q = val_eq (field df "Prim_Time_ms" r) (VFloat F64.zero)).
Proof.
  intros Hv. split; [now apply performance_ratio_rows|].
  intros r Hr Hz q. subst q. rewrite val_eq_zero in Hz. rewrite val_eq_zero.
  destruct (valid_row_times df r (valid_frame_rows df r Hv Hr)) as [Ha _].
  apply div_by_zero; [apply (time_to_float _ Ha) | exact Hz].
Qed.

End Ratio.

Lemma performance_ratio_ieee_witness :
  valid_frame zero_time_df = true
  /\ Script.performance_ratio zero_time_df = Ok [VFloat F64.infinity].
Proof.
  split; [reflexivity|].
  exact (proj1 (performance_ratio_ieee zero_time_df eq_refl)).
Defined.

(** C3, as the spec has it, fails: on a valid one-row table whose B time is
    zero the ratio column holds the float64 value [+inf], which is not a
    marker. *)
Lemma ratio_marker_counterexample :
  valid_frame zero_time_df = true
  /\ exists q,
       Script.performance_ratio zero_time_df = Ok q
       /\ q = [VFloat F64.infinity]
       /\ ~ marked_ratio_column zero_time_df q.
Proof.
  split; [reflexivity|].
  exists [VFloat F64.infinity].
  split; [reflexivity | split; [reflexivity|]].
  intros Hc. inversion Hc as [| r v rs vs Hm _]; subst.
  unfold marked_ratio in Hm. simpl in Hm.
  exact (Hm F64.infinity eq_refl).
Qed.

(* ===================================================================== *)
(** ** Distinct categories, in order of first appearance *)
(* ===================================================================== *)

Section Unique.

Import Pandas.

Lemma same_key_str (v x : value) :
  is_str v = true -> (same_key v x = true <-> v = x).
Proof.
  destruct v as [z | f | s | b]; try discriminate. intros _.
  destruct x as [z | f | t | b]; simpl; split; try discriminate.
  - intros E. apply String.eqb_eq in E. now subst.
  - intros [= ->]. apply String.eqb_refl.
Qed.

Lemma seen_In (v : value) (seen : list value) :
  is_str v = true -> (existsb (same_key v) seen = true <-> In v seen).
Proof.
  intros Hv. rewrite existsb_exists. split.
  - intros (x & Hx & Hk). apply (same_key_str v x Hv) in Hk. now subst.
  - intros Hin. exists v. split; [exact Hin|]. now apply same_key_str.
Qed.

Lemma unique_from_In (seen : list value) (s : Series) (v : value) :
  Forall (fun x => is_str x = true) s ->
  In v (unique_from seen s) <-> In v s /\ ~ In v seen.
Proof.
  intros Hs. revert seen.
  induction Hs as [|a t Ha Ht IH]; intros seen; simpl; [tauto|].
  destruct (existsb (same_key a) seen) eqn:E.
  - apply (seen_In a seen Ha) in E. rewrite IH. split.
    + intros [Hv Hn]. auto.
    + intros [[<- | Hv] Hn]; [contradiction | auto].
  - assert (Hna : ~ In a seen).
    { intros Hin. apply (seen_In a seen Ha) in Hin. congruence. }
    simpl. rewrite IH. simpl. split.
    + intros [<- | [Hv Hn]]; [auto | tauto].
    + intros [Hv Hn]. destruct (value_eq_dec a v) as [E' | N]; [auto|].
      right. split; [tauto|]. intros [E' | Hin]; contradiction.
Qed.

Lemma unique_from_NoDup (seen : list value) (s : Series) :
  Forall (fun x => is_str x = true) s -> NoDup (unique_from seen s).
Proof.
  intros Hs. revert seen.
  induction Hs as [|a t Ha Ht IH]; intros seen; simpl; [constructor|].
  destruct (existsb (same_key a) seen); [apply IH|].
  constructor; [|apply IH].
  rewrite (unique_from_In _ _ _ Ht). simpl. tauto.
Qed.

Lemma first_pos_head (v : value) (t : Series) : first_pos v (v :: t) = 0%nat.
Proof. simpl. destruct (value_eq_dec v v); [reflexivity | contradiction]. Qed.

Lemma first_pos_later (x v : value) (t : Series) :
  x <> v -> first_pos v (x :: t) = S (first_pos v t).
Proof.
  intros N. simpl. destruct (value_eq_dec x v); [contradiction | reflexivity].
Qed.

Lemma StronglySorted_map_S (l : list nat) :
  StronglySorted lt l -> StronglySorted lt (map S l).
Proof.
  induction 1 as [|a l Hs IH Hf]; simpl; constructor; [exact IH|].
  rewrite Forall_map. revert Hf. apply Forall_impl. intros b. lia.
Qed.

Lemma unique_from_sorted (seen : list value) (s : Series) :
  Forall (fun x => is_str x = true) s ->
  StronglySorted lt
    (map (fun u => first_pos u s) (unique_from seen s)).
Proof.
  intros Hs. revert seen.
  induction Hs as [|a t Ha Ht IH]; intros seen; simpl unique_from;
    [constructor|].
  assert (Hshift : forall seen',
             (forall u, In u (unique_from seen' t) -> a <> u) ->
             map (fun u => first_pos u (a :: t)) (unique_from seen' t)
             = map S (map (fun u => first_pos u t) (unique_from seen' t))).
  { intros seen' Hne. rewrite map_map. apply map_ext_in.
    intros u Hu. apply first_pos_later. now apply Hne. }
  destruct (existsb (same_key a) seen) eqn:E.
  - apply (seen_In a seen Ha) in E. rewrite Hshift.
    + apply StronglySorted_map_S, IH.
    + intros u Hu ->. apply (unique_from_In _ _ _ Ht) in Hu. tauto.
  - cbn [map]. rewrite first_pos_head, Hshift.
    + constructor; [apply StronglySorted_map_S, IH|].
      rewrite Forall_map. apply Forall_forall. intros n _. lia.
    + intros u Hu ->. apply (unique_from_In _ _ _ Ht) in Hu.
      simpl in Hu. tauto.
Qed.

End Unique.

(* ===================================================================== *)
(** ** Per-category means *)
(* ===================================================================== *)

Section GroupMeans.

Context `{Platform}.
Import Pandas Script.

Lemma count_valid_all (xs : list F64.float) :
  (forall x, In x xs -> F64.is_nan x = false) ->
  count_valid xs = List.length xs /\ map fill0 xs = xs.
Proof.
  intros Hx. split.
  - unfold count_valid. apply filter_length_all.
    intros x Hin. now rewrite (Hx x Hin).
  - rewrite <- (map_id xs) at 2. apply map_ext_in.
    intros x Hin. unfold fill0. now rewrite (Hx x Hin).
Qed.

(** On a non-empty series of valid times, [mean] is sum over count. *)
Lemma mean_of_times (s : Series) :
  s <> [] ->
  (forall v, In v s -> nonneg_time v = true) ->
  mean s = Ok (arithmetic_mean (map float_of s)).
Proof.
  intros Hne Hs. unfold mean.
  rewrite (rmap_Ok to_float float_of)
    by (intros v Hv; apply (time_to_float v (Hs v Hv))).
  unfold Ok. cbn [rbind].
  assert (Hx : forall x, In x (map float_of s) -> F64.is_nan x = false).
  { intros x Hx. apply in_map_iff in Hx. destruct Hx as (v & <- & Hv).
    apply (time_to_float v (Hs v Hv)). }
  destruct (count_valid_all _ Hx) as [-> ->].
  unfold arithmetic_mean.
  destruct s as [|v t]; [contradiction | reflexivity].
Qed.

Lemma group_mean_arithmetic (df : DataFrame) (col : string) (gt : value) :
  valid_frame df = true ->
  col = "Prim_Time_ms" \/ col = "Kruskal_Time_ms" ->
  (exists r, In r (rows df) /\ field df "Graph_Type" r = gt) ->
  group_mean df col gt = Ok (arithmetic_mean (category_values df col gt)).
Proof.
  intros Hv Hcol (r0 & Hr0 & Hgt). unfold group_mean.
  rewrite (getitem_has df "Graph_Type")
    by (apply valid_frame_columns; simpl; auto 10).
  simpl. rewrite series_eq_scalar_rows.
  assert (Hc : has_column df col = true).
  { apply valid_frame_columns; [exact Hv|].
    destruct Hcol as [-> | ->]; simpl; auto 10. }
  rewrite (getitem_loc_rows df _ col Hc). unfold Ok at 1. cbn [rbind].
  change (fun r => val_eq (field df "Graph_Type" r) gt) with (in_category df gt).
  unfold category_values. rewrite <- (map_map (field df col) float_of).
  apply mean_of_times.
  - assert (Hin : In r0 (filter (in_category df gt) (rows df))).
    { apply filter_In. split; [exact Hr0|]. unfold in_category.
      pose proof (valid_row_label df r0 (valid_frame_rows df r0 Hv Hr0)) as Hl.
      rewrite Hgt in *. destruct gt; try discriminate. apply String.eqb_refl. }
    intros E. apply (f_equal (@List.length _)) in E.
    rewrite length_map in E.
    destruct (filter (in_category df gt) (rows df)); [contradiction|].
    discriminate.
  - intros v Hin. apply in_map_iff in Hin. destruct Hin as (r & <- & Hr).
    apply filter_In in Hr. destruct Hr as [Hr _].
    pose proof (valid_row_times df r (valid_frame_rows df r Hv Hr)) as [Ha Hb].
    destruct Hcol as [-> | ->]; assumption.
Qed.

Lemma labels_are_str (df : DataFrame) :
  valid_frame df = true ->
  Forall (fun x => is_str x = true) (map (field df "Graph_Type") (rows df)).
Proof.
  intros Hv. apply Forall_forall. intros v Hin. apply in_map_iff in Hin.
  destruct Hin as (r & <- & Hr).
  apply (valid_row_label df r (valid_frame_rows df r Hv Hr)).
Qed.

Lemma unique_labels_In (df : DataFrame) (v : value) :
  valid_frame df = true ->
  In v (unique (map (field df "Graph_Type") (rows df)))
  <-> In v (map (field df "Graph_Type") (rows df)).
Proof.
  intros Hv. unfold unique.
  rewrite (unique_from_In _ _ _ (labels_are_str df Hv)). simpl. tauto.
Qed.

Lemma graph_types_unique (df : DataFrame) :
  valid_frame df = true ->
  graph_types df = Ok (unique (map (field df "Graph_Type") (rows df))).
Proof.
  intros Hv. unfold graph_types.
  rewrite (getitem_has df "Graph_Type")
    by (apply valid_frame_columns; simpl; auto 10).
  reflexivity.
Qed.

(** The list comprehension over the categories never raises on a valid
    table. *)
Lemma group_means_Ok (df : DataFrame) (col : string) :
  valid_frame df = true ->
  col = "Prim_Time_ms" \/ col = "Kruskal_Time_ms" ->
  rmap (group_mean df col)
       (unique (map (field df "Graph_Type") (rows df)))
  = Ok (map (fun gt => arithmetic_mean (category_values df col gt))
            (unique (map (field df "Graph_Type") (rows df)))).
Proof.
  intros Hv Hcol. apply rmap_Ok. intros gt Hin.
  apply group_mean_arithmetic; [exact Hv | exact Hcol |].
  apply (unique_labels_In df gt Hv), in_map_iff in Hin.
  destruct Hin as (r & E & Hr). eauto.
Qed.

(** The arithmetic mean is a sum of the entries over their number. *)
Lemma arithmetic_mean_sum (xs : list F64.float) :
  lawful_sum ->
  exists total,
    sum_of xs total
    /\ arithmetic_mean xs = F64.div total (F64.of_nat (List.length xs)).
Proof. intros Hsum. exists (fsum xs). split; [apply Hsum | reflexivity]. Qed.

Lemma category_values_nonempty (df : DataFrame) (col : string) (gt : value) :
  valid_frame df = true ->
  In gt (map (field df "Graph_Type") (rows df)) ->
  category_values df col gt <> [].
Proof.
  intros Hv Hin. apply in_map_iff in Hin. destruct Hin as (r & Hgt & Hr).
  assert (Hf : In r (filter (in_category df gt) (rows df))).
  { apply filter_In. split; [exact Hr|]. unfold in_category.
    pose proof (valid_row_label df r (valid_frame_rows df r Hv Hr)) as Hl.
    rewrite Hgt in *. destruct gt; try discriminate. apply String.eqb_refl. }
  unfold category_values.
  destruct (filter (in_category df gt) (rows df)); [contradiction|].
  discriminate.
Qed.

(** C5. With a summation routine that adds up its entries, on a valid table
    the categories are the distinct values of the [Graph_Type] column,
    without repetition and in order of first appearance; the two lists of
    means are aligned with them; and the mean of a category is a float64
    sum, divided by their number, of the times of exactly the rows whose
    [Graph_Type] is that category, of which there is at least one. *)
Theorem group_summary_means (df : DataFrame) :
  lawful_sum ->
  valid_frame df = true ->
  exists g gts,
    getitem df "Graph_Type" = Ok g
    /\ graph_types df = Ok gts
    /\ NoDup gts
    /\ (forall v, In v gts <-> In v g)
    /\ StronglySorted lt (map (fun v => first_pos v g) gts)
    /\ prim_times df gts =
         Ok (map (fun gt =>
                    arithmetic_mean (category_values df "Prim_Time_ms" gt))
                 gts)
    /\ kruskal_times df gts =
         Ok (map (fun gt =>
                    arithmetic_mean (category_values df "Kruskal_Time_ms" gt))
                 gts)
    /\ (forall gt col, In gt gts ->
          category_values df col gt <> []
          /\ exists total,
               sum_of (category_values df col gt) total
               /\ arithmetic_mean (category_values df col gt)
                  = F64.div total
                      (F64.of_nat (List.length (category_values df col gt))))
    /\ (forall gt r, In gt gts -> In r (rows df) ->
          (in_category df gt r = true <-> field df "Graph_Type" r = gt)).
Proof.
  intros Hsum Hv.
  pose proof (labels_are_str df Hv) as Hstr.
  exists (map (field df "Graph_Type") (rows df)),
         (unique (map (field df "Graph_Type") (rows df))).
  split; [apply getitem_has, valid_frame_columns; simpl; auto 10|].
  split; [now apply graph_types_unique|].
  split; [apply unique_from_NoDup, Hstr|].
  split; [intros v; now apply unique_labels_In|].
  split; [apply unique_from_sorted, Hstr|].
  split; [apply group_means_Ok; auto|].
  split; [apply group_means_Ok; auto|].
  split.
  { intros gt col Hin. split.
    - apply category_values_nonempty; [exact Hv|].
      now apply (unique_labels_In df gt Hv).
    - now apply arithmetic_mean_sum. }
  intros gt r Hin Hr. unfold in_category.
  pose proof (valid_row_label df r (valid_frame_rows df r Hv Hr)) as Hl.
  apply (unique_labels_In df gt Hv) in Hin. rewrite Forall_forall in Hstr.
  specialize (Hstr gt Hin).
  destruct (field df "Graph_Type" r) as [| | s |]; try discriminate.
  destruct gt as [| | t |]; try discriminate. simpl.
  rewrite String.eqb_eq. split; [now intros -> | now intros [= ->]].
Qed.

End GroupMeans.

(** Left-to-right summation adds up its entries. *)
Lemma seq_sum_from (xs : list F64.float) :
  forall (done : list F64.float) (acc : F64.float),
    sum_of done acc -> sum_of (done ++ xs) (fold_left F64.add xs acc).
Proof.
  induction xs as [|x t IH]; intros done acc Hacc; simpl.
  - now rewrite app_nil_r.
  - replace (done ++ x :: t) with ((done ++ [x]) ++ t)
      by (now rewrite <- app_assoc).
    apply IH. apply (sum_of_split _ done [x] acc x);
      [apply Permutation_refl | exact Hacc | apply sum_of_one].
Qed.

Lemma seq_sum_lawful : lawful_sum (H := Reference.platform).
Proof.
  intros xs. apply (seq_sum_from xs [] F64.zero). apply sum_of_nil.
Qed.

(** A summation routine that returns zero whatever it is given is not
    lawful. *)
Lemma zero_sum_unlawful :
  ~ lawful_sum (H := {| fsum := fun _ => F64.zero;
                        infer_scalar := Reference.scalar;
                        dedup_suffix := Reference.numbered;
                        read_error := Reference.missing_file |}).
Proof.
  intros Hsum. specialize (Hsum [F64.dec 20 1]). cbn [fsum] in Hsum.
  assert (Hone : forall l v, sum_of l v ->
            l = [F64.dec 20 1] \/ l = [] ->
            (l = [] -> v = F64.zero) /\ (l = [F64.dec 20 1] -> v = F64.dec 20 1)).
  { clear Hsum. induction 1 as [| x | l l1 l2 v1 v2 Hp H1 IH1 H2 IH2].
    - intros _. split; [reflexivity | discriminate].
    - intros _. split; [discriminate | now intros [= ->]].
    - intros Hl.
      assert (Hparts : (l1 = [] /\ l2 = l) \/ (l2 = [] /\ l1 = l)).
      { destruct Hl as [-> | ->].
        - apply Permutation_length_1_inv in Hp.
          destruct l1 as [|a [|b l1]]; simpl in Hp.
          + left. auto.
          + destruct l2; [|discriminate]. right. now rewrite <- Hp.
          + discriminate.
        - apply Permutation_nil in Hp.
          apply app_eq_nil in Hp. destruct Hp as [-> ->]. left. auto. }
      destruct Hparts as [[-> ->] | [-> ->]].
      + destruct (IH1 (or_intror eq_refl)) as [Z1 _].
        destruct (IH2 Hl) as [Z2 O2]. rewrite (Z1 eq_refl). split.
        * intros E. rewrite (Z2 E). reflexivity.
        * intros E. rewrite (O2 E). reflexivity.
      + destruct (IH2 (or_intror eq_refl)) as [Z2 _].
        destruct (IH1 Hl) as [Z1 O1]. rewrite (Z2 eq_refl). split.
        * intros E. rewrite (Z1 E). reflexivity.
        * intros E. rewrite (O1 E). reflexivity. }
  destruct (Hone _ _ Hsum (or_introl eq_refl)) as [_ Hv].
  specialize (Hv eq_refl). discriminate.
Qed.

Lemma group_summary_means_witness :
  valid_frame two_groups_df = true
  /\ Script.graph_types two_groups_df = Ok [VStr "Small"; VStr "Large"]
  /\ Script.prim_times (H := Reference.platform) two_groups_df
       [VStr "Small"; VStr "Large"]
     = Ok [F64.dec 20 1; F64.dec 50 1]
  /\ Script.kruskal_times (H := Reference.platform) two_groups_df
       [VStr "Small"; VStr "Large"]
     = Ok [F64.dec 15 1; F64.dec 40 1].
Proof.
  split; [reflexivity|].
  destruct (group_summary_means (H := Reference.platform)
              two_groups_df seq_sum_lawful eq_refl)
    as (g & gts & _ & Hgt & _ & _ & _ & Hp & Hk & _).
  assert (E : gts = [VStr "Small"; VStr "Large"])
    by (vm_compute in Hgt; now injection Hgt).
  subst gts.
  split; [exact Hgt|].
  split; [rewrite Hp | rewrite Hk]; vm_compute; reflexivity.
Defined.

(* ===================================================================== *)
(** ** Loading *)
(* ===================================================================== *)

Section Loading.

Context `{Platform}.
Import Pandas Script.









(** [read_csv] reads only the file at the path it is given. *)
Lemma read_csv_ext fs fs' (path : string) :
  fs path = fs' path -> read_csv fs path = read_csv fs' path.
Proof. intros E. unfold read_csv. rewrite E. reflexivity. Qed.


End Loading.



(* ===================================================================== *)
(** ** Sequencing: what prints, what aborts *)
(* ===================================================================== *)

Section Control.

Lemma silent_lift {A} (r : result A) : silent (lift r).
Proof. intros out. reflexivity. Qed.

Lemma silent_chart (w : World) (c : ChartCall) : silent (chart w c).
Proof. intros out. unfold chart. destruct (draw w c); reflexivity. Qed.

Lemma silent_bind {A B} (c : M A) (k : A -> M B) :
  silent c -> (forall a, silent (k a)) -> silent (mbind c k).
Proof.
  intros Hc Hk out. unfold mbind. specialize (Hc out).
  destruct (c out) as [out' [e | a]]; simpl in *; subst; [reflexivity|].
  apply Hk.
Qed.

Lemma chart_aborts (w : World) (c : ChartCall) (e : exn) :
  draw w c = Some e -> aborts (chart w c).
Proof. intros Hd out. exists e. unfold chart. rewrite Hd. reflexivity. Qed.

Lemma aborts_bind_left {A B} (c : M A) (k : A -> M B) :
  aborts c -> aborts (mbind c k).
Proof.
  intros Hc out. destruct (Hc out) as [e He]. exists e.
  unfold mbind. rewrite He. reflexivity.
Qed.

Lemma aborts_bind_right {A B} (c : M A) (k : A -> M B) :
  silent c -> (forall a, aborts (k a)) -> aborts (mbind c k).
Proof.
  intros Hc Hk out. unfold mbind. specialize (Hc out).
  destruct (c out) as [out' [e | a]]; simpl in Hc; subst.
  - now exists e.
  - apply Hk.
Qed.

(** A silent statement followed by [k] ends well only if it ended well
    itself, and then [k] ran on the same output. *)
Lemma bind_Ok_inv {A B} (c : M A) (k : A -> M B)
    (out out' : list string) (b : B) :
  silent c ->
  mbind c k out = (out', Ok b) ->
  exists a, c out = (out, Ok a) /\ k a out = (out', Ok b).
Proof.
  intros Hc. unfold mbind. specialize (Hc out).
  destruct (c out) as [o [e | a]]; simpl in Hc; subst.
  - discriminate.
  - intros Hk. exists a. split; [reflexivity | exact Hk].
Qed.

Lemma chart_quiet (w : World) (c : ChartCall) (out : list string) :
  draw w c = None -> chart w c out = (out, Ok tt).
Proof. intros Hd. unfold chart. rewrite Hd. reflexivity. Qed.

Lemma mbind_Ok {A B} (c : M A) (k : A -> M B) (out out' : list string)
    (a : A) :
  c out = (out', Ok a) -> mbind c k out = k a out'.
Proof. intros Hc. unfold mbind. rewrite Hc. reflexivity. Qed.

Lemma mbind_raise {A B} (c : M A) (k : A -> M B) (out out' : list string)
    (e : exn) :
  c out = (out', inl e) -> mbind c k out = (out', inl e).
Proof. intros Hc. unfold mbind. rewrite Hc. reflexivity. Qed.

Lemma mbind_chart_quiet {B} (w : World) (c : ChartCall) (k : unit -> M B)
    (out : list string) :
  draw w c = None -> mbind (chart w c) k out = k tt out.
Proof. intros Hd. apply mbind_Ok. now apply chart_quiet. Qed.

Lemma mbind_chart_raise {B} (w : World) (c : ChartCall) (k : unit -> M B)
    (out : list string) (e : exn) :
  draw w c = Some e -> mbind (chart w c) k out = (out, inl e).
Proof.
  intros Hd. apply mbind_raise. unfold chart. rewrite Hd. reflexivity.
Qed.

Lemma mbind_lift_Ok {A B} (r : result A) (a : A) (k : A -> M B)
    (out : list string) :
  r = Ok a -> mbind (lift r) k out = k a out.
Proof. intros ->. reflexivity. Qed.

End Control.

Ltac silence :=
  repeat first
    [ apply silent_chart
    | apply silent_lift
    | apply silent_bind; [|intros ?] ].

Ltac abort_at H :=
  repeat first
    [ solve [ apply aborts_bind_left; apply (chart_aborts _ _ _ H) ]
    | apply aborts_bind_right; [solve [silence] | intros ?] ].

(* ===================================================================== *)
(** ** Rendering and the report *)
(* ===================================================================== *)

Section Rendering.

Context `{Platform}.
Import Pandas Script.

Lemma performance_figure_silent (w : World) (df : DataFrame) :
  silent (performance_figure w df).
Proof. unfold performance_figure. silence. Qed.

Lemma complexity_figure_silent (w : World) (df : DataFrame) :
  silent (complexity_figure w df).
Proof. unfold complexity_figure. silence. Qed.

Lemma performance_figure_aborts (w : World) (df : DataFrame) (e : exn) :
  draw w (Savefig performance_png) = Some e ->
  aborts (performance_figure w df).
Proof. intros Hd. unfold performance_figure. abort_at Hd. Qed.

Lemma complexity_figure_aborts (w : World) (df : DataFrame) (e : exn) :
  draw w (Savefig complexity_png) = Some e ->
  aborts (complexity_figure w df).
Proof. intros Hd. unfold complexity_figure. abort_at Hd. Qed.

Lemma main_aborts (w : World) (e : exn) (path : string) :
  path = performance_png \/ path = complexity_png ->
  draw w (Savefig path) = Some e ->
  aborts (main w).
Proof.
  intros Hp Hd. unfold main.
  do 3 (apply aborts_bind_right; [solve [silence] | intros ?]).
  destruct Hp as [-> | ->].
  - apply aborts_bind_left. now apply performance_figure_aborts with e.
  - apply aborts_bind_right; [apply performance_figure_silent | intros ?].
    apply aborts_bind_left. now apply complexity_figure_aborts with e.
Qed.

(** The statements of a figure on a valid table, with a charting library
    that can fail only in [savefig]. *)
Ltac quiet_steps Hv Hq :=
  repeat
    (first
       [ rewrite mbind_chart_quiet by (apply Hq; intros ?; discriminate)
       | erewrite mbind_lift_Ok
           by (first
                 [ apply getitem_has; apply valid_frame_columns;
                   [exact Hv | simpl; auto 10]
                 | apply graph_types_unique; exact Hv
                 | apply group_means_Ok; [exact Hv | auto]
                 | apply performance_ratio_rows; exact Hv ]) ];
     cbv beta).

Lemma performance_figure_raises (w : World) (df : DataFrame) (e : exn)
    (out : list string) :
  valid_frame df = true ->
  (forall c, (forall p, c <> Savefig p) -> draw w c = None) ->
  draw w (Savefig performance_png) = Some e ->
  performance_figure w df out = (out, inl e).
Proof.
  intros Hv Hq Hd. unfold performance_figure.
  quiet_steps Hv Hq.
  now apply mbind_chart_raise.
Qed.

Lemma performance_figure_Ok (w : World) (df : DataFrame) (out : list string) :
  valid_frame df = true ->
  (forall c, (forall p, c <> Savefig p) -> draw w c = None) ->
  draw w (Savefig performance_png) = None ->
  performance_figure w df out = (out, Ok tt).
Proof.
  intros Hv Hq Hd. unfold performance_figure.
  quiet_steps Hv Hq.
  rewrite mbind_chart_quiet by exact Hd.
  apply chart_quiet. apply Hq. intros p. discriminate.
Qed.

Lemma complexity_figure_raises (w : World) (df : DataFrame) (e : exn)
    (out : list string) :
  valid_frame df = true ->
  (forall c, (forall p, c <> Savefig p) -> draw w c = None) ->
  draw w (Savefig complexity_png) = Some e ->
  complexity_figure w df out = (out, inl e).
Proof.
  intros Hv Hq Hd. unfold complexity_figure.
  quiet_steps Hv Hq.
  now apply mbind_chart_raise.
Qed.

(** On a valid table, with a charting library that fails in nothing but
    [savefig], the exception the run ends with is the one [savefig]
    raised. *)
Lemma savefig_error_surfaces (w : World) (df : DataFrame) (e : exn)
    (path : string) :
  read_csv (files w) data_path = Ok df ->
  valid_frame df = true ->
  (forall c, (forall p, c <> Savefig p) -> draw w c = None) ->
  (path = performance_png
   \/ (path = complexity_png /\ draw w (Savefig performance_png) = None)) ->
  draw w (Savefig path) = Some e ->
  run w = ([], inl e).
Proof.
  intros Hload Hv Hq Hp Hd. unfold run, main.
  rewrite !mbind_chart_quiet by (apply Hq; intros ?; discriminate).
  rewrite (mbind_lift_Ok _ df) by exact Hload.
  destruct Hp as [-> | [-> Hfirst]].
  - apply mbind_raise. now apply performance_figure_raises.
  - rewrite (mbind_Ok _ _ _ _ tt (performance_figure_Ok w df [] Hv Hq Hfirst)).
    apply mbind_raise. now apply complexity_figure_raises.
Qed.

(** A run that ends well printed what [print_summary] prints on the loaded
    table. *)
Lemma run_Ok_summary (w : World) (out : list string) :
  run w = (out, Ok tt) ->
  exists df,
    read_csv (files w) data_path = Ok df
    /\ print_summary df [] = (out, Ok tt).
Proof.
  unfold run, main. intros Hrun.
  apply bind_Ok_inv in Hrun; [|apply silent_chart].
  destruct Hrun as (_ & _ & Hrun).
  apply bind_Ok_inv in Hrun; [|apply silent_chart].
  destruct Hrun as (_ & _ & Hrun).
  apply bind_Ok_inv in Hrun; [|apply silent_lift].
  destruct Hrun as (df & Hload & Hrun).
  apply bind_Ok_inv in Hrun; [|apply performance_figure_silent].
  destruct Hrun as (_ & _ & Hrun).
  apply bind_Ok_inv in Hrun; [|apply complexity_figure_silent].
  destruct Hrun as (_ & _ & Hrun).
  exists df. split; [|exact Hrun].
  unfold lift in Hload. now injection Hload.
Qed.

(** C8, as the code has it. The figures are rendered before anything is
    printed and no exception is caught: if writing either image fails, the
    run ends with an exception and standard output is empty; on a valid
    table, with a charting library that fails in nothing else, that
    exception is the one [savefig] raised. When a run does end well, what it
    printed is what [print_summary] prints on the loaded table, whatever the
    charting library did. *)
Theorem render_failure_aborts (w : World) :
  (forall e path,
     path = performance_png \/ path = complexity_png ->
     draw w (Savefig path) = Some e ->
     exists e', run w = ([], inl e'))
  /\ (forall df e path,
        read_csv (files w) data_path = Ok df ->
        valid_frame df = true ->
        (forall c, (forall p, c <> Savefig p) -> draw w c = None) ->
        (path = performance_png
         \/ (path = complexity_png
             /\ draw w (Savefig performance_png) = None)) ->
        draw w (Savefig path) = Some e ->
        run w = ([], inl e))
  /\ (forall out,
        run w = (out, Ok tt) ->
        exists df,
          read_csv (files w) data_path = Ok df
          /\ print_summary df [] = (out, Ok tt)).
Proof.
  split; [|split].
  - intros e path Hp Hd. apply (main_aborts w e path Hp Hd []).
  - intros df e path. apply savefig_error_surfaces.
  - apply run_Ok_summary.
Qed.

End Rendering.

Lemma render_failure_aborts_witness :
  draw disk_full_world (Savefig performance_png) = Some (RenderError "savefig")
  /\ exists e', Script.run (H := Reference.platform) disk_full_world
                = ([], inl e').
Proof.
  split; [reflexivity|].
  apply (proj1 (render_failure_aborts (H := Reference.platform)
                  disk_full_world)
           (RenderError "savefig") performance_png);
    [left; reflexivity | reflexivity].
Defined.

(** C8, as the spec has it, fails: on the two-row scenario, when the first
    image cannot be written the run ends with the rendering exception and
    not one line of the report is printed, though the same file gives the
    full report when rendering succeeds. *)
Lemma render_failure_counterexample :
  Script.run (H := Reference.platform) disk_full_world
    = ([], inl (RenderError "savefig"))
  /\ files disk_full_world = files Reference.scenario_world
  /\ List.length (fst (Script.run (H := Reference.platform)
                         Reference.scenario_world)) = 16%nat
  /\ snd (Script.run (H := Reference.platform) Reference.scenario_world)
     = Ok tt.
Proof. repeat split; vm_compute; reflexivity. Qed.

(* ===================================================================== *)
(** ** The report depends on the data file only *)
(* ===================================================================== *)

Section Determinism.

Context `{Platform}.
Import Pandas Script.

Ltac step_result :=
  match goal with
  | |- context [match ?r with inl _ => _ | inr _ => _ end] =>
      match r with
      | context [match _ with inl _ => _ | inr _ => _ end] => fail 1
      | _ => destruct r as [?e | ?a] eqn:?E
      end
  end.

(** A report that is printed to the end is sixteen [print] calls: six on the
    total and the category counts, five on the averages, three on the
    comparison, two on the costs. *)
Lemma print_summary_length (df : DataFrame) (out : list string) :
  print_summary df [] = (out, Ok tt) -> List.length out = 16%nat.
Proof.
  unfold print_summary, print_counts, print_averages, print_comparison,
    print_costs, mbind, print, lift, Ok.
  cbn [app].
  repeat (step_result; [discriminate|]).
  intros [= <-]. reflexivity.
Qed.

(** Two runs that read the same data file and both end well print the
    same text, line for line, whatever else differs between the two worlds
    (other files, the behaviour of the charting library); that text is the
    full report, the output of its sixteen [print] calls. *)
Theorem report_deterministic (w1 w2 : World) (out1 out2 : list string) :
  files w1 data_path = files w2 data_path ->
  run w1 = (out1, Ok tt) ->
  run w2 = (out2, Ok tt) ->
  out1 = out2 /\ List.length out1 = 16%nat.
Proof.
  intros Hf H1 H2.
  apply run_Ok_summary in H1. destruct H1 as (df1 & L1 & P1).
  apply run_Ok_summary in H2. destruct H2 as (df2 & L2 & P2).
  rewrite (read_csv_ext _ _ _ Hf) in L1.
  assert (df1 = df2) by (unfold Ok in *; congruence). subst df2.
  split; [congruence|].
  apply (print_summary_length df1 out1 P1).
Qed.

End Determinism.

Lemma report_deterministic_witness :
  files Reference.scenario_world Script.data_path
    = files other_world Script.data_path
  /\ fst (Script.run (H := Reference.platform) Reference.scenario_world)
     = fst (Script.run (H := Reference.platform) other_world).
Proof.
  split; [reflexivity|].
  refine (proj1 (report_deterministic (H := Reference.platform)
                   Reference.scenario_world other_world
                   (fst (Script.run (H := Reference.platform)
                           Reference.scenario_world))
                   (fst (Script.run (H := Reference.platform) other_world))
                   eq_refl _ _));
    vm_compute; reflexivity.
Defined.

(* ===================================================================== *)
(** ** The two-row scenario, run *)
(* ===================================================================== *)

(** Total 2; A faster once, B faster once; mean A time 2.0, mean B time
    1.5; costs match on one row of two. *)
Example scenario_report :
  Script.run (H := Reference.platform) Reference.scenario_world =
    ([ "=== Performance Analysis Summary ===";
       "Total graphs analyzed: 2";
       "Small graphs (< 30 vertices): 2";
       "Medium graphs (< 300 vertices): 0";
       "Large graphs (< 1000 vertices): 0";
       "Extra graphs (< 2000 vertices): 0";
       (Script.nl ++ "=== Average Performance Metrics ===")%string;
       "Average Prim's execution time: 2.00 ms";
       "Average Kruskal's execution time: 1.50 ms";
       "Average Prim's operations: 125";
       "Average Kruskal's operations: 85";
       (Script.nl ++ "=== Performance Comparison ===")%string;
       "Prim's algorithm faster in: 1 cases";
       "Kruskal's algorithm faster in: 1 cases";
       (Script.nl ++ "=== Cost Verification ===")%string;
       "MST costs match in all 1 cases: ✗" ],
     Ok tt).
Proof. vm_compute. reflexivity. Qed.

(** The file read by [read_csv] is the frame written out by hand. *)
Example scenario_load :
  Pandas.read_csv (H := Reference.platform)
    (files Reference.scenario_world) Script.data_path
  = Ok Reference.scenario_df.
Proof. vm_compute. reflexivity. Qed.

(* ===================================================================== *)
(** ** Element-wise operators on arbitrary cells *)
(* ===================================================================== *)

Section AnyCells.

Import Pandas.

Lemma rmap_Ok_inv {A B} (f : A -> result B) (l : list A) (bs : list B) :
  rmap f l = Ok bs -> Forall2 (fun x b => f x = Ok b) l bs.
Proof.
  revert bs. induction l as [|x t IH]; simpl; intros bs.
  - intros [= <-]. constructor.
  - destruct (f x) as [e | b] eqn:Ex; [discriminate|]. simpl.
    destruct (rmap f t) as [e | bt] eqn:Et; [discriminate|]. simpl.
    intros [= <-]. constructor; [exact Ex | apply IH; reflexivity].
Qed.

(** When every failure of [f] on [l] is the exception [e] and there is one,
    mapping [f] over [l] raises [e]. *)
Lemma rmap_Raise {A B} (f : A -> result B) (l : list A) (e : exn) :
  (exists x, In x l /\ f x = Raise e) ->
  (forall x, In x l -> f x = Raise e \/ exists b, f x = Ok b) ->
  rmap f l = Raise e.
Proof.
  induction l as [|x t IH]; simpl; intros (y & Hy & Fy) Hall.
  - contradiction.
  - destruct (Hall x (or_introl eq_refl)) as [-> | (b & Eb)]; [reflexivity|].
    rewrite Eb. simpl.
    rewrite IH; [reflexivity | | intros z Hz; apply Hall; now right].
    destruct Hy as [<- | Hy]; [|eauto].
    rewrite Fy in Eb. discriminate.
Qed.

Lemma rmap_truth {A} (f : A -> result bool) (l : list A) (bs : list bool) :
  rmap f l = Ok bs -> bs = map (fun x => truth (f x)) l.
Proof.
  intros Hr. apply rmap_Ok_inv in Hr.
  induction Hr as [|x b t bt Hx _ IH]; simpl; [reflexivity|].
  rewrite Hx, IH. reflexivity.
Qed.

Lemma to_float_cases (v : value) :
  to_float v = if is_str v then Raise TypeError else Ok (float_of v).
Proof. destruct v; reflexivity. Qed.


Lemma ltb_asym (x y : F64.float) :
  F64.ltb x y = true -> F64.ltb y x = false.
Proof.
  unfold F64.ltb, SFltb. destruct (SFcompare x y) as [c|] eqn:E;
    [|discriminate].
  rewrite (compare_antisym x y c E). destruct c; simpl; congruence.
Qed.

Lemma string_ltb_asym (s t : string) :
  String.ltb s t = true -> String.ltb t s = false.
Proof.
  unfold String.ltb. rewrite (String.compare_antisym t s).
  destruct (String.compare s t); simpl; congruence.
Qed.

(** [a < b] and [b < a] never both hold, whatever the cells are. *)
Lemma val_lt_asym (a b : value) :
  truth (val_lt a b) = true -> truth (val_lt b a) = false.
Proof.
  destruct a as [x | f | s | c], b as [y | g | t | d]; simpl;
    try discriminate;
    first [ apply ltb_asym
          | apply string_ltb_asym
          | intros Hl; apply Z.ltb_lt in Hl; apply Z.ltb_ge; lia ].
Qed.

Lemma val_lt_nan_left (b : value) : truth (val_lt (VFloat F64.nan) b) = false.
Proof. destruct b; reflexivity. Qed.

Lemma ltb_nan_right (x : F64.float) : F64.ltb x F64.nan = false.
Proof. destruct x; reflexivity. Qed.

Lemma val_lt_nan_right (a : value) : truth (val_lt a (VFloat F64.nan)) = false.
Proof. destruct a; simpl; try reflexivity; apply ltb_nan_right. Qed.

Lemma is_null_nan (v : value) : is_null v = true -> v = VFloat F64.nan.
Proof.
  destruct v as [z | f | s | b]; try discriminate.
  destruct f; try discriminate. reflexivity.
Qed.

Lemma val_lt_raises (a b : value) (e : exn) :
  val_lt a b = inl e -> e = TypeError.
Proof.
  destruct a, b; simpl; try discriminate; now intros [= <-].
Qed.

(** A pair that [<] skips because of a missing cell is a pair on which
    [<] does not hold. *)
Lemma masked_lt_truth (a b : value) (c : bool) :
  masked_lt a b = Ok c -> c = truth (val_lt a b).
Proof.
  unfold masked_lt. destruct (is_null a) eqn:Na.
  - apply is_null_nan in Na. subst a. intros [= <-].
    symmetry. apply val_lt_nan_left.
  - destruct (is_null b) eqn:Nb; cbn [orb].
    + apply is_null_nan in Nb. subst b. intros [= <-].
      symmetry. apply val_lt_nan_right.
    + now intros ->.
Qed.

Lemma masked_lt_raises (a b : value) (e : exn) :
  masked_lt a b = inl e -> e = TypeError.
Proof.
  unfold masked_lt. destruct (is_null a || is_null b); [discriminate|].
  apply val_lt_raises.
Qed.

Lemma lt_pair_truth (left : Series) (a b : value) (c : bool) :
  lt_pair left a b = Ok c -> c = truth (val_lt a b).
Proof.
  unfold lt_pair. destruct (object_dtype left);
    [apply masked_lt_truth | now intros ->].
Qed.

Lemma lt_pair_raises (left : Series) (a b : value) (e : exn) :
  lt_pair left a b = inl e -> e = TypeError.
Proof.
  unfold lt_pair. destruct (object_dtype left);
    [apply masked_lt_raises | apply val_lt_raises].
Qed.

Lemma series_lt_pairs (a b : Series) :
  series_lt a b = rmap (fun p => lt_pair a (fst p) (snd p)) (combine a b).
Proof. unfold series_lt, lt_pair. destruct (object_dtype a); reflexivity. Qed.

Lemma rmap_Ok_map {A B} (f : A -> result B) (g : A -> B) (l : list A)
    (bs : list B) :
  (forall x b, f x = Ok b -> b = g x) ->
  rmap f l = Ok bs -> bs = map g l.
Proof.
  intros Hf Hr. apply rmap_Ok_inv in Hr.
  induction Hr as [|x b t bt Hx _ IH]; simpl; [reflexivity|].
  now rewrite (Hf x b Hx), IH.
Qed.

(** The mask of [a < b], when it is computed, marks the pairs on which [<]
    holds. *)
Lemma series_lt_truth (a b : Series) (m : list bool) :
  series_lt a b = Ok m ->
  m = map (fun p => truth (val_lt (fst p) (snd p))) (combine a b).
Proof.
  rewrite series_lt_pairs. apply rmap_Ok_map.
  intros [x y] c. apply lt_pair_truth.
Qed.







Lemma filter_disjoint_length {A} (p q : A -> bool) (l : list A) :
  (forall x, In x l -> p x = true -> q x = false) ->
  (List.length (filter p l) + List.length (filter q l) <= List.length l)%nat.
Proof.
  induction l as [|x t IH]; simpl; intros Hd; [lia|].
  assert (IH' := IH (fun y Hy => Hd y (or_intror Hy))).
  specialize (Hd x (or_introl eq_refl)).
  destruct (p x) eqn:Ep, (q x) eqn:Eq; simpl; try lia.
  all: specialize (Hd eq_refl); discriminate.
Qed.

End AnyCells.

(* ===================================================================== *)
(** ** The ratio and the head-to-head counts on any table *)
(* ===================================================================== *)

Section AnyTable.

Import Pandas Script.


Lemma faster_counts_rows (df : DataFrame) (p k : nat) :
  prim_faster_count df = Ok p ->
  kruskal_faster_count df = Ok k ->
  p = count_rows (a_faster df) df /\ k = count_rows (b_faster df) df.
Proof.
  unfold prim_faster_count, kruskal_faster_count. intros Hp Hk.
  destruct (getitem df "Prim_Time_ms") as [e | a] eqn:Ea; [discriminate|].
  destruct (getitem df "Kruskal_Time_ms") as [e | b] eqn:Eb; [discriminate|].
  apply getitem_Ok in Ea, Eb. destruct Ea as [_ ->], Eb as [_ ->].
  cbn [rbind] in Hp, Hk.
  destruct (series_lt (map (field df "Prim_Time_ms") (rows df)) _)
    as [e | m] eqn:Em; [discriminate|].
  destruct (series_lt (map (field df "Kruskal_Time_ms") (rows df)) _)
    as [e | m'] eqn:Em'; [discriminate|].
  apply series_lt_truth in Em, Em'.
  rewrite combine_map, map_map in Em, Em'. cbn [fst snd] in Em, Em'.
  cbn [rbind] in Hp, Hk. injection Hp as <-. injection Hk as <-. subst m m'.
  unfold len, loc. cbn [rows]. rewrite !select_map. split; reflexivity.
Qed.

(** X2. Whenever the two head-to-head counts are computed, whatever the
    table holds (text with missing cells included), they count disjoint sets
    of rows: no row is in both, so their sum never exceeds the number of
    rows; and a row with a missing (NaN) time in either column is in
    neither. *)
Theorem head_to_head_disjoint (df : DataFrame) (p k : nat) :
  prim_faster_count df = Ok p ->
  kruskal_faster_count df = Ok k ->
  p = count_rows (a_faster df) df
  /\ k = count_rows (b_faster df) df
  /\ (p + k <= len df)%nat
  /\ (forall r, a_faster df r = true -> b_faster df r = false)
  /\ (forall r,
        field df "Prim_Time_ms" r = VFloat F64.nan
        \/ field df "Kruskal_Time_ms" r = VFloat F64.nan ->
        a_faster df r = false /\ b_faster df r = false).
Proof.
  intros Hp Hk. destruct (faster_counts_rows df p k Hp Hk) as [-> ->].
  split; [reflexivity|]. split; [reflexivity|].
  split; [|split].
  - apply filter_disjoint_length. intros r _. apply val_lt_asym.
  - intros r. apply val_lt_asym.
  - intros r [E | E]; unfold a_faster, b_faster; rewrite E;
      split; first [apply val_lt_nan_left | apply val_lt_nan_right].
Qed.

End AnyTable.


(** Text over a missing cell is not an error in [/]: the entry is NaN. Text
    over a number is a [TypeError]. *)
Example ratio_text_over_missing :
  Script.performance_ratio text_over_missing_df
    = Ok [VFloat F64.nan; VFloat F64.nan]
  /\ Script.performance_ratio text_time_df = Raise TypeError.
Proof. split; reflexivity. Qed.

Lemma head_to_head_disjoint_witness :
  Script.prim_faster_count text_gap_df = Ok 1%nat
  /\ Script.kruskal_faster_count text_gap_df = Ok 0%nat
  /\ (1 + 0 <= Pandas.len text_gap_df)%nat.
Proof.
  split; [reflexivity|]. split; [reflexivity|].
  exact (proj1 (proj2 (proj2
           (head_to_head_disjoint text_gap_df 1 0 eq_refl eq_refl)))).
Defined.

(** The file of that table, loaded and run: both counts are computed. *)
Example text_gap_run :
  Pandas.read_csv (H := Reference.platform)
    (Reference.one_file text_gap_csv) Script.data_path = Ok text_gap_df
  /\ Script.prim_faster_count text_gap_df = Ok 1%nat
  /\ Script.kruskal_faster_count text_gap_df = Ok 0%nat.
Proof. repeat split; vm_compute; reflexivity. Qed.

(* ===================================================================== *)
(** ** Averages: which exception, when *)
(* ===================================================================== *)

Section Averages.

Context `{Platform}.
Import Pandas Script.

Lemma rmap_to_float (s : Series) :
  rmap to_float s =
    if existsb is_str s then Raise TypeError else Ok (map float_of s).
Proof.
  destruct (existsb is_str s) eqn:E.
  - apply existsb_exists in E. destruct E as (v & Hv & Sv).
    apply rmap_Raise.
    + exists v. split; [exact Hv|]. rewrite to_float_cases. now rewrite Sv.
    + intros x _. rewrite to_float_cases. destruct (is_str x); eauto.
  - apply rmap_Ok. intros v Hv. rewrite to_float_cases.
    destruct (is_str v) eqn:Sv; [|reflexivity].
    assert (existsb is_str s = true) by (apply existsb_exists; eauto).
    congruence.
Qed.

Lemma existsb_map {A B} (p : B -> bool) (f : A -> B) (l : list A) :
  existsb p (map f l) = existsb (fun x => p (f x)) l.
Proof.
  induction l as [|x t IH]; simpl; [reflexivity | now rewrite IH].
Qed.

Lemma count_valid_none (xs : list F64.float) :
  (forall x, In x xs -> x = F64.nan) -> count_valid xs = 0%nat.
Proof.
  intros Hx. unfold count_valid.
  induction xs as [|x t IH]; simpl; [reflexivity|].
  rewrite (Hx x (or_introl eq_refl)). simpl.
  apply IH. intros y Hy. apply Hx. now right.
Qed.

(** X3. An average [df[col].mean()] ends in exactly one of three ways: a
    [KeyError] when the table lacks the column; a [TypeError] when the
    column is there and some row holds text under it; a float64 otherwise,
    which is NaN when every cell of the column is missing. *)
Theorem column_mean_cases (df : DataFrame) (col : string) :
  match column_mean df col with
  | inl e =>
      (e = KeyError col /\ has_column df col = false)
      \/ (e = TypeError /\ has_column df col = true
          /\ existsb (text_in df col) (rows df) = true)
  | inr x =>
      has_column df col = true
      /\ existsb (text_in df col) (rows df) = false
      /\ ((forall r, In r (rows df) -> field df col r = VFloat F64.nan) ->
          x = F64.nan)
  end.
Proof.
  unfold column_mean. destruct (has_column df col) eqn:Hc.
  - rewrite (getitem_has _ _ Hc). simpl. unfold mean.
    rewrite rmap_to_float, existsb_map.
    change (fun x => is_str (field df col x)) with (text_in df col).
    destruct (existsb (text_in df col) (rows df)); simpl.
    + right. auto.
    + split; [reflexivity|]. split; [reflexivity|].
      intros Hall. rewrite count_valid_none; [reflexivity|].
      intros x Hx. rewrite map_map in Hx. apply in_map_iff in Hx.
      destruct Hx as (r & <- & Hr). now rewrite (Hall r Hr).
  - rewrite (getitem_missing _ _ Hc). simpl. left. auto.
Qed.

End Averages.

(* ===================================================================== *)
(** ** The report reads seven columns *)
(* ===================================================================== *)

Section ReportColumns.

Context `{Platform}.
Import Pandas Script.

Lemma select_length_same {A B} (m : list bool) (l : list A) (l' : list B) :
  List.length l = List.length l' ->
  List.length (select m l) = List.length (select m l').
Proof.
  revert l l'. induction m as [|b m IH]; intros [|x l] [|y l'];
    simpl; try reflexivity; try discriminate.
  intros [= Hl]. destruct b; simpl; auto.
Qed.

Lemma len_loc_same (df df' : DataFrame) (m : list bool) :
  len df = len df' -> len (loc df m) = len (loc df' m).
Proof. intros Hl. unfold len, loc. simpl. now apply select_length_same. Qed.

Lemma label_count_same (df df' : DataFrame) (label : string) :
  len df = len df' ->
  getitem df "Graph_Type" = getitem df' "Graph_Type" ->
  label_count df label = label_count df' label.
Proof.
  intros Hl Hg. unfold label_count. rewrite Hg.
  destruct (getitem df' "Graph_Type"); simpl; [reflexivity|].
  now rewrite (len_loc_same df df' _ Hl).
Qed.

Lemma column_mean_same (df df' : DataFrame) (col : string) :
  getitem df col = getitem df' col ->
  column_mean df col = column_mean df' col.
Proof. intros Hg. unfold column_mean. now rewrite Hg. Qed.

Lemma faster_counts_same (df df' : DataFrame) :
  len df = len df' ->
  getitem df "Prim_Time_ms" = getitem df' "Prim_Time_ms" ->
  getitem df "Kruskal_Time_ms" = getitem df' "Kruskal_Time_ms" ->
  prim_faster_count df = prim_faster_count df'
  /\ kruskal_faster_count df = kruskal_faster_count df'.
Proof.
  intros Hl Ha Hb. unfold prim_faster_count, kruskal_faster_count.
  rewrite Ha, Hb.
  destruct (getitem df' "Prim_Time_ms") as [e | a];
    destruct (getitem df' "Kruskal_Time_ms") as [e' | b]; simpl;
    try (split; reflexivity).
  split.
  - destruct (series_lt a b); simpl; [reflexivity|].
    now rewrite (len_loc_same df df' _ Hl).
  - destruct (series_lt b a); simpl; [reflexivity|].
    now rewrite (len_loc_same df df' _ Hl).
Qed.

Lemma cost_matches_same (df df' : DataFrame) :
  len df = len df' ->
  getitem df "Prim_Cost" = getitem df' "Prim_Cost" ->
  getitem df "Kruskal_Cost" = getitem df' "Kruskal_Cost" ->
  cost_matches df = cost_matches df'.
Proof.
  intros Hl Ha Hb. unfold cost_matches. rewrite Ha, Hb.
  destruct (getitem df' "Prim_Cost") as [e | a];
    destruct (getitem df' "Kruskal_Cost") as [e' | b]; simpl;
    try reflexivity.
  now rewrite (len_loc_same df df' _ Hl).
Qed.

(** X4. The report is a function of the number of rows and of the seven
    columns it reads: two tables that agree on these print the same text
    and end the same way, whatever their [Vertices] column holds, in
    whatever order their columns come, and whatever other columns they
    carry. *)
Theorem report_reads_its_columns (df df' : DataFrame) :
  len df = len df' ->
  (forall c, In c report_columns -> getitem df c = getitem df' c) ->
  forall out, print_summary df out = print_summary df' out.
Proof.
  intros Hl Hc out.
  unfold print_summary, print_counts, print_averages, print_comparison,
    print_costs.
  rewrite !(label_count_same df df' _ Hl) by (apply Hc; simpl; auto 10).
  rewrite !(column_mean_same df df') by (apply Hc; simpl; auto 10).
  destruct (faster_counts_same df df' Hl) as [-> ->];
    try (apply Hc; simpl; auto 10).
  rewrite (cost_matches_same df df' Hl) by (apply Hc; simpl; auto 10).
  rewrite Hl. reflexivity.
Qed.

Lemma mbind_assoc {A B C} (c : M A) (k : A -> M B) (k' : B -> M C)
    (out : list string) :
  mbind (mbind c k) k' out = mbind c (fun a => mbind (k a) k') out.
Proof.
  unfold mbind. destruct (c out) as [o [e | a]]; reflexivity.
Qed.

Lemma mbind_ext {A B} (c : M A) (k k' : A -> M B) (out : list string) :
  (forall a o, k a o = k' a o) -> mbind c k out = mbind c k' out.
Proof.
  intros Hk. unfold mbind. destruct (c out) as [o [e | a]]; auto.
Qed.

Lemma print_summary_split (df : DataFrame) (out : list string) :
  print_summary df out = mbind (first_sections df) (fun _ => print_costs df) out.
Proof.
  unfold print_summary, first_sections. rewrite mbind_assoc.
  apply mbind_ext. intros a o. symmetry. apply mbind_assoc.
Qed.

(** X5. The two cost columns are read by the last section only, after its
    heading is printed: on a table that lacks one of them, once the first
    three sections are printed the run prints the heading "Cost
    Verification" and ends with the [KeyError] of the missing column,
    [Prim_Cost] before [Kruskal_Cost]. *)
Theorem missing_cost_partial_report (df : DataFrame)
    (out pre : list string) :
  has_column df "Prim_Cost" = false \/ has_column df "Kruskal_Cost" = false ->
  first_sections df out = (pre, Ok tt) ->
  print_summary df out =
    (pre ++ [(nl ++ "=== Cost Verification ===")%string],
     inl (KeyError (if has_column df "Prim_Cost" then "Kruskal_Cost"
                    else "Prim_Cost"))).
Proof.
  intros Hm Hpre. rewrite print_summary_split.
  rewrite (mbind_Ok _ _ _ _ _ Hpre).
  unfold print_costs, mbind, print, lift, cost_matches.
  destruct (has_column df "Prim_Cost") eqn:Ha.
  - destruct Hm as [Hm | Hb]; [discriminate|].
    rewrite (getitem_has _ _ Ha), (getitem_missing _ _ Hb). reflexivity.
  - rewrite (getitem_missing _ _ Ha). reflexivity.
Qed.

End ReportColumns.

Lemma report_reads_its_columns_witness :
  Pandas.len Reference.scenario_df = Pandas.len shuffled_df
  /\ Script.print_summary (H := Reference.platform) Reference.scenario_df []
     = Script.print_summary (H := Reference.platform) shuffled_df [].
Proof.
  split; [reflexivity|].
  apply (report_reads_its_columns (H := Reference.platform)
           Reference.scenario_df shuffled_df eq_refl).
  intros c Hc. simpl in Hc.
  destruct Hc as [<- | [<- | [<- | [<- | [<- | [<- | [<- | []]]]]]]];
    reflexivity.
Defined.

Lemma missing_cost_partial_report_witness :
  has_column no_cost_df "Prim_Cost" = false
  /\ List.length
       (fst (Script.print_summary (H := Reference.platform) no_cost_df []))
     = 15%nat
  /\ snd (Script.print_summary (H := Reference.platform) no_cost_df [])
     = inl (KeyError "Prim_Cost").
Proof.
  split; [reflexivity|].
  rewrite (missing_cost_partial_report (H := Reference.platform)
             no_cost_df []
             (fst (first_sections (H := Reference.platform) no_cost_df []))
             (or_introl eq_refl));
    [split; reflexivity | vm_compute; reflexivity].
Defined.

(* ===================================================================== *)
(** ** Runs that end at the load or at a missing column *)
(* ===================================================================== *)

Section EarlyEnds.

Context `{Platform}.
Import Pandas Script.

(** X6. The load is not guarded: when the two style calls pass and
    [read_csv] raises, whatever the exception (a file that cannot be opened
    or decoded, an empty file, a record wider than the header and the first
    record), the run ends with that very exception and nothing is
    printed. *)
Theorem load_failure_surfaces (w : World) (e : exn) :
  draw w (StyleUse "seaborn-v0_8") = None ->
  draw w (SetPalette "husl") = None ->
  read_csv (files w) data_path = Raise e ->
  run w = ([], inl e).
Proof.
  intros Hs Hp Hload.
  unfold run, main. rewrite !mbind_chart_quiet by assumption.
  apply mbind_raise. unfold lift. now rewrite Hload.
Qed.

Ltac read_until_missing Hq :=
  repeat
    (first
       [ rewrite mbind_chart_quiet by apply Hq
       | erewrite mbind_lift_Ok by (apply getitem_has; eassumption) ];
     cbv beta).

Lemma performance_figure_key_error (w : World) (df : DataFrame) (c : string)
    (out : list string) :
  (forall call, draw w call = None) ->
  first_missing df = Some c ->
  performance_figure w df out = (out, inl (KeyError c)).
Proof.
  intros Hq. unfold first_missing, reading_order. cbn [find].
  unfold performance_figure.
  destruct (has_column df "Vertices") eqn:Hv; cbn [negb];
    [| intros [= <-]; read_until_missing Hq; apply mbind_raise;
       unfold lift; now rewrite getitem_missing ].
  destruct (has_column df "Prim_Time_ms") eqn:Hpt; cbn [negb];
    [| intros [= <-]; read_until_missing Hq; apply mbind_raise;
       unfold lift; now rewrite getitem_missing ].
  destruct (has_column df "Kruskal_Time_ms") eqn:Hkt; cbn [negb];
    [| intros [= <-]; read_until_missing Hq; apply mbind_raise;
       unfold lift; now rewrite getitem_missing ].
  destruct (has_column df "Prim_Operations") eqn:Hpo; cbn [negb];
    [| intros [= <-]; read_until_missing Hq; apply mbind_raise;
       unfold lift; now rewrite getitem_missing ].
  destruct (has_column df "Kruskal_Operations") eqn:Hko; cbn [negb];
    [| intros [= <-]; read_until_missing Hq; apply mbind_raise;
       unfold lift; now rewrite getitem_missing ].
  destruct (has_column df "Graph_Type") eqn:Hgt; cbn [negb];
    [discriminate|].
  intros [= <-]. read_until_missing Hq. apply mbind_raise.
  unfold lift, graph_types. now rewrite getitem_missing.
Qed.

(** X7. All six columns other than the costs are read by the first figure,
    before anything is printed: on a loaded table that lacks one of them,
    with a charting library that does not fail, the run prints nothing and
    ends with the [KeyError] of the first missing column in the order
    [Vertices], [Prim_Time_ms], [Kruskal_Time_ms], [Prim_Operations],
    [Kruskal_Operations], [Graph_Type]. *)
Theorem missing_column_key_error (w : World) (df : DataFrame) (c : string) :
  (forall call, draw w call = None) ->
  read_csv (files w) data_path = Ok df ->
  first_missing df = Some c ->
  run w = ([], inl (KeyError c)).
Proof.
  intros Hq Hload Hm. unfold run, main.
  rewrite !mbind_chart_quiet by apply Hq.
  rewrite (mbind_lift_Ok _ df) by exact Hload.
  apply mbind_raise. now apply performance_figure_key_error.
Qed.

End EarlyEnds.

Lemma load_failure_surfaces_witness :
  Script.run (H := Reference.platform) no_file_world
  = ([], inl (IOError "FileNotFoundError" Script.data_path))
  /\ Script.run (H := Reference.platform) wide_record_world
     = ([], inl (ParserError 3)).
Proof.
  split.
  - exact (load_failure_surfaces (H := Reference.platform)
             no_file_world (IOError "FileNotFoundError" Script.data_path)
             eq_refl eq_refl eq_refl).
  - exact (load_failure_surfaces (H := Reference.platform)
             wide_record_world (ParserError 3) eq_refl eq_refl eq_refl).
Defined.

Lemma missing_column_key_error_witness :
  Script.run (H := Reference.platform) two_missing_world
  = ([], inl (KeyError "Prim_Operations")).
Proof.
  destruct (Pandas.read_csv (H := Reference.platform)
              (files two_missing_world) Script.data_path)
    as [e | df] eqn:Hload; [vm_compute in Hload; discriminate|].
  apply (missing_column_key_error (H := Reference.platform)
           two_missing_world df "Prim_Operations");
    [reflexivity | exact Hload |].
  vm_compute in Hload. injection Hload as <-. reflexivity.
Defined.

(* ===================================================================== *)
(** ** The whole run on the header-only file *)
(* ===================================================================== *)

Section EmptyRun.

Context `{Platform}.
Import Pandas Script.

Lemma getitem_empty (df : DataFrame) (name : string) :
  rows df = [] -> has_column df name = true -> getitem df name = Ok [].
Proof.
  intros Hr Hc. rewrite (getitem_has _ _ Hc), Hr. reflexivity.
Qed.

Lemma mbind_print {B} (s : string) (k : unit -> M B) (out : list string) :
  mbind (print s) k out = k tt (out ++ [s]).
Proof. reflexivity. Qed.

Lemma graph_types_empty (df : DataFrame) :
  rows df = [] -> has_column df "Graph_Type" = true ->
  graph_types df = Ok [].
Proof.
  intros Hr Hc. unfold graph_types. now rewrite (getitem_empty _ _ Hr Hc).
Qed.

Lemma performance_ratio_empty (df : DataFrame) :
  rows df = [] ->
  has_column df "Prim_Time_ms" = true ->
  has_column df "Kruskal_Time_ms" = true ->
  performance_ratio df = Ok [].
Proof.
  intros Hr Ha Hb. unfold performance_ratio.
  now rewrite (getitem_empty _ _ Hr Ha), (getitem_empty _ _ Hr Hb).
Qed.

Lemma label_count_empty (df : DataFrame) (label : string) :
  rows df = [] -> has_column df "Graph_Type" = true ->
  label_count df label = Ok 0%nat.
Proof.
  intros Hr Hc. unfold label_count. rewrite (getitem_empty _ _ Hr Hc).
  reflexivity.
Qed.

Lemma faster_counts_empty (df : DataFrame) :
  rows df = [] ->
  has_column df "Prim_Time_ms" = true ->
  has_column df "Kruskal_Time_ms" = true ->
  prim_faster_count df = Ok 0%nat /\ kruskal_faster_count df = Ok 0%nat.
Proof.
  intros Hr Ha Hb. unfold prim_faster_count, kruskal_faster_count.
  rewrite (getitem_empty _ _ Hr Ha), (getitem_empty _ _ Hr Hb).
  split; reflexivity.
Qed.

Lemma cost_matches_empty (df : DataFrame) :
  rows df = [] ->
  has_column df "Prim_Cost" = true ->
  has_column df "Kruskal_Cost" = true ->
  cost_matches df = Ok 0%nat.
Proof.
  intros Hr Ha Hb. unfold cost_matches.
  rewrite (getitem_empty _ _ Hr Ha), (getitem_empty _ _ Hr Hb).
  reflexivity.
Qed.

Lemma print_summary_empty (df : DataFrame) :
  rows df = [] ->
  (forall c, In c required_columns -> has_column df c = true) ->
  print_summary df [] = (empty_report, Ok tt).
Proof.
  intros Hr Hc.
  unfold print_summary, print_counts, print_averages, print_comparison,
    print_costs.
  rewrite !(label_count_empty df _ Hr) by (apply Hc; simpl; auto 10).
  rewrite !(column_mean_empty df _ Hr) by (apply Hc; simpl; auto 10).
  destruct (faster_counts_empty df Hr) as [-> ->];
    try (apply Hc; simpl; auto 10).
  rewrite (cost_matches_empty df Hr) by (apply Hc; simpl; auto 10).
  unfold len. rewrite Hr. reflexivity.
Qed.

Ltac empty_steps Hq Hr Hc :=
  repeat
    (first
       [ rewrite mbind_chart_quiet by apply Hq
       | erewrite mbind_lift_Ok
           by (first
                 [ apply (getitem_empty _ _ Hr); apply Hc; simpl; auto 10
                 | apply (graph_types_empty _ Hr); apply Hc; simpl; auto 10
                 | apply (performance_ratio_empty _ Hr);
                   apply Hc; simpl; auto 10
                 | reflexivity ]) ];
     cbv beta).

Lemma figures_empty (w : World) (df : DataFrame) (out : list string) :
  (forall call, draw w call = None) ->
  rows df = [] ->
  (forall c, In c required_columns -> has_column df c = true) ->
  performance_figure w df out = (out, Ok tt)
  /\ complexity_figure w df out = (out, Ok tt).
Proof.
  intros Hq Hr Hc. split.
  - unfold performance_figure. empty_steps Hq Hr Hc.
    apply chart_quiet, Hq.
  - unfold complexity_figure. empty_steps Hq Hr Hc.
    apply chart_quiet, Hq.
Qed.

(** X8. A file that holds only a header naming the eight columns (in any
    order, among others) is not an error case: with a charting library that
    does not fail, the run draws both figures from empty series and prints
    the complete report, with every count zero, every average "nan", and
    the cost line reporting a match in all 0 cases. *)
Theorem empty_table_report (w : World) (hdr : list string) :
  files w data_path = Some [hdr] ->
  (forall c, In c required_columns -> In c hdr) ->
  (forall call, draw w call = None) ->
  run w = (empty_report, Ok tt).
Proof.
  intros Hf Hcols Hq.
  assert (Hne : hdr <> []).
  { intros ->. apply (Hcols "Vertices"). simpl. auto. }
  pose proof (read_csv_header_only (files w) data_path hdr Hf Hne) as Hload.
  set (df := {| columns := mangle hdr; rows := [] |}) in *.
  assert (Hc : forall c, In c required_columns -> has_column df c = true).
  { intros c Hin.
    apply has_column_mangle; [now apply Hcols | now apply required_plain]. }
  destruct (figures_empty w df [] Hq eq_refl Hc) as [Hp Hx].
  unfold run, main.
  rewrite !mbind_chart_quiet by apply Hq.
  rewrite (mbind_lift_Ok _ df) by exact Hload.
  rewrite (mbind_Ok _ _ _ _ tt Hp), (mbind_Ok _ _ _ _ tt Hx).
  now apply print_summary_empty.
Qed.

End EmptyRun.

Lemma empty_table_report_witness :
  Script.run (H := Reference.platform) empty_world = (empty_report, Ok tt).
Proof.
  apply (empty_table_report (H := Reference.platform) empty_world
           Reference.header eq_refl);
    [intros c Hc; exact Hc | reflexivity].
Defined.

(* ===================================================================== *)
(** ** The shape of a loaded table *)
(* ===================================================================== *)

Section LoadedShape.

Context `{Platform}.
Import Pandas Script.















End LoadedShape.


(** A first record wider than the header is not an error. *)
Example indexed_load :
  Pandas.read_csv (H := Reference.platform)
    (Reference.one_file indexed_csv) Script.data_path = Ok indexed_df.
Proof. vm_compute. reflexivity. Qed.



(* ===================================================================== *)
(** ** Categories of any column *)
(* ===================================================================== *)

Section AnyCategories.

Context `{Platform}.
Import Pandas Script.

Lemma eqb_refl_not_nan (f : F64.float) :
  F64.is_nan f = false -> F64.eqb f f = true.
Proof.
  destruct f as [s | s | | s m e]; simpl; try discriminate; intros _;
    unfold F64.eqb, SFeqb; simpl.
  - reflexivity.
  - destruct s; reflexivity.
  - destruct s; rewrite Z.compare_refl, Pos.compare_cont_refl; reflexivity.
Qed.

Lemma same_key_refl (v : value) : same_key v v = true.
Proof.
  destruct v as [z | f | s | b]; simpl.
  - apply Z.eqb_refl.
  - destruct (F64.is_nan f) eqn:N.
    + apply orb_true_r.
    + now rewrite eqb_refl_not_nan.
  - apply String.eqb_refl.
  - apply Bool.eqb_reflx.
Qed.

Lemma eqb_nan_right (x : F64.float) : F64.eqb x F64.nan = false.
Proof. destruct x; reflexivity. Qed.

(** NaN is a key of its own, and [==] against NaN holds for no cell. *)
Lemma same_key_nan (x : value) :
  same_key (VFloat F64.nan) x = true <-> x = VFloat F64.nan.
Proof.
  destruct x as [z | f | s | b]; simpl; split; try discriminate.
  - destruct f; simpl; try discriminate. reflexivity.
  - intros [= ->]. reflexivity.
Qed.

Lemma val_eq_nan (x : value) : val_eq x (VFloat F64.nan) = false.
Proof. destruct x; simpl; try reflexivity; apply eqb_nan_right. Qed.

Lemma seen_nan (seen : list value) :
  existsb (same_key (VFloat F64.nan)) seen = true
  <-> In (VFloat F64.nan) seen.
Proof.
  rewrite existsb_exists. split.
  - intros (x & Hx & Hk). apply same_key_nan in Hk. now subst.
  - intros Hin. exists (VFloat F64.nan). split; [exact Hin | reflexivity].
Qed.

Lemma unique_from_nan (seen : list value) (s : Series) :
  In (VFloat F64.nan) (unique_from seen s)
  <-> In (VFloat F64.nan) s /\ ~ In (VFloat F64.nan) seen.
Proof.
  revert seen. induction s as [|a t IH]; intros seen; simpl; [tauto|].
  destruct (value_eq_dec a (VFloat F64.nan)) as [-> | Na].
  - destruct (existsb (same_key (VFloat F64.nan)) seen) eqn:E.
    + apply seen_nan in E. rewrite IH. tauto.
    + assert (~ In (VFloat F64.nan) seen)
        by (intros Hin; apply seen_nan in Hin; congruence).
      simpl. tauto.
  - destruct (existsb (same_key a) seen).
    + rewrite IH. tauto.
    + simpl. rewrite IH. simpl. tauto.
Qed.

Lemma unique_from_nan_once (seen : list value) (s : Series) :
  (count_occ value_eq_dec (unique_from seen s) (VFloat F64.nan) <= 1)%nat.
Proof.
  revert seen. induction s as [|a t IH]; intros seen; simpl; [lia|].
  destruct (existsb (same_key a) seen); [apply IH|].
  simpl. destruct (value_eq_dec a (VFloat F64.nan)) as [-> | Na];
    [|apply IH].
  rewrite (proj1 (count_occ_not_In value_eq_dec _ _)); [lia|].
  rewrite unique_from_nan. simpl. tauto.
Qed.

(** Every entry has an entry of the same key among the distinct ones, or it
    had been seen. *)
Lemma unique_from_covers (seen : list value) (s : Series) (v : value) :
  In v s ->
  existsb (same_key v) seen = true
  \/ exists u, In u (unique_from seen s) /\ same_key v u = true.
Proof.
  revert seen. induction s as [|a t IH]; intros seen; simpl; [intros []|].
  intros [-> | Hv].
  - destruct (existsb (same_key v) seen) eqn:E; [now left|].
    right. exists v. split; [now left | apply same_key_refl].
  - destruct (existsb (same_key a) seen) eqn:E.
    + apply IH, Hv.
    + destruct (IH (a :: seen) Hv) as [Hs | (u & Hu & Hk)].
      * simpl in Hs. apply orb_true_iff in Hs. destruct Hs as [Hs | Hs].
        -- right. exists a. split; [now left | exact Hs].
        -- now left.
      * right. exists u. split; [now right | exact Hk].
Qed.

Lemma unique_from_sub (seen : list value) (s : Series) (u : value) :
  In u (unique_from seen s) -> In u s /\ existsb (same_key u) seen = false.
Proof.
  revert seen. induction s as [|a t IH]; intros seen; simpl; [intros []|].
  destruct (existsb (same_key a) seen) eqn:E.
  - intros Hu. destruct (IH _ Hu). auto.
  - intros [<- | Hu]; [auto|].
    destruct (IH _ Hu) as [Hin Hs]. simpl in Hs.
    apply orb_false_iff in Hs. tauto.
Qed.

Lemma unique_from_keys (seen : list value) (s : Series) :
  ForallOrdPairs (fun u v => same_key v u = false) (unique_from seen s).
Proof.
  revert seen. induction s as [|a t IH]; intros seen; simpl; [constructor|].
  destruct (existsb (same_key a) seen); [apply IH|].
  constructor; [|apply IH].
  apply Forall_forall. intros v Hv. apply unique_from_sub in Hv.
  destruct Hv as [_ Hs]. simpl in Hs. apply orb_false_iff in Hs. tauto.
Qed.

Lemma filter_none {A} (p : A -> bool) (l : list A) :
  (forall x, p x = false) -> filter p l = [].
Proof.
  intros Hp. induction l as [|x t IH]; simpl; [reflexivity|].
  now rewrite Hp.
Qed.

Lemma group_mean_nan (df : DataFrame) (col : string) :
  has_column df "Graph_Type" = true ->
  has_column df col = true ->
  group_mean df col (VFloat F64.nan) = Ok F64.nan.
Proof.
  intros Hg Hc. unfold group_mean. rewrite (getitem_has _ _ Hg).
  unfold Ok at 1. cbn [rbind]. rewrite series_eq_scalar_rows.
  rewrite (getitem_loc_rows df _ col Hc).
  rewrite filter_none by (intros r; apply val_eq_nan). reflexivity.
Qed.

(** X11. Whatever the [Graph_Type] column holds (text, numbers, missing
    values), the categories drawn in the bar chart are entries of the
    column, no two of them with the same key, and every row's label has its
    key among them. A missing label (NaN) is a category of its own, listed
    once, exactly when some row lacks its label; as [== NaN] selects no row,
    the mean drawn for that category is NaN. *)
Theorem categories_of_any_column (df : DataFrame) (col : string) :
  has_column df "Graph_Type" = true ->
  has_column df col = true ->
  exists gts,
    graph_types df = Ok gts
    /\ (forall u, In u gts ->
          exists r, In r (rows df) /\ field df "Graph_Type" r = u)
    /\ ForallOrdPairs (fun u v => same_key v u = false) gts
    /\ (forall r, In r (rows df) ->
          exists u, In u gts /\ same_key (field df "Graph_Type" r) u = true)
    /\ (In (VFloat F64.nan) gts <->
        exists r, In r (rows df) /\ field df "Graph_Type" r = VFloat F64.nan)
    /\ (count_occ value_eq_dec gts (VFloat F64.nan) <= 1)%nat
    /\ group_mean df col (VFloat F64.nan) = Ok F64.nan.
Proof.
  intros Hg Hc.
  exists (unique (map (field df "Graph_Type") (rows df))).
  split; [unfold graph_types; now rewrite (getitem_has _ _ Hg)|].
  unfold unique. split; [|split; [|split; [|split; [|split]]]].
  - intros u Hu. apply unique_from_sub in Hu. destruct Hu as [Hu _].
    apply in_map_iff in Hu. destruct Hu as (r & E & Hr). eauto.
  - apply unique_from_keys.
  - intros r Hr.
    destruct (unique_from_covers [] (map (field df "Graph_Type") (rows df))
                (field df "Graph_Type" r)) as [Hs | Hu];
      [now apply in_map | discriminate | exact Hu].
  - rewrite unique_from_nan, in_map_iff. simpl. split.
    + intros [(r & E & Hr) _]. eauto.
    + intros (r & Hr & E). split; [eauto | tauto].
  - apply unique_from_nan_once.
  - now apply group_mean_nan.
Qed.

End AnyCategories.

Lemma categories_of_any_column_witness :
  has_column missing_label_df "Graph_Type" = true
  /\ Script.graph_types missing_label_df
     = Ok [VStr "Small"; VFloat F64.nan; VStr "Large"]
  /\ Script.group_mean (H := Reference.platform) missing_label_df
       "Prim_Time_ms" (VFloat F64.nan) = Ok F64.nan.
Proof.
  split; [reflexivity|]. split; [reflexivity|].
  destruct (categories_of_any_column (H := Reference.platform)
              missing_label_df "Prim_Time_ms" eq_refl eq_refl)
    as (gts & _ & _ & _ & _ & _ & _ & Hm).
  exact Hm.
Defined.

(* ===================================================================== *)
(** ** The counts do not depend on the order of the rows *)
(* ===================================================================== *)

Section RowOrder.

Import Pandas Script.

Lemma label_count_rows (df : DataFrame) (label : string) :
  label_count df label =
    if has_column df "Graph_Type"
    then Ok (count_rows (in_category df (VStr label)) df)
    else Raise (KeyError "Graph_Type").
Proof.
  unfold label_count. destruct (has_column df "Graph_Type") eqn:Hg.
  - rewrite (getitem_has _ _ Hg). simpl. rewrite series_eq_scalar_rows.
    unfold len, loc. simpl. now rewrite select_map.
  - now rewrite (getitem_missing _ _ Hg).
Qed.

Lemma cost_matches_rows (df : DataFrame) :
  cost_matches df =
    if has_column df "Prim_Cost"
    then if has_column df "Kruskal_Cost"
         then Ok (count_rows (cost_match df) df)
         else Raise (KeyError "Kruskal_Cost")
    else Raise (KeyError "Prim_Cost").
Proof.
  unfold cost_matches. destruct (has_column df "Prim_Cost") eqn:Ha.
  - rewrite (getitem_has _ _ Ha). simpl.
    destruct (has_column df "Kruskal_Cost") eqn:Hb.
    + rewrite (getitem_has _ _ Hb). simpl. rewrite series_eq_rows.
      unfold len, loc. simpl. now rewrite select_map.
    + now rewrite (getitem_missing _ _ Hb).
  - now rewrite (getitem_missing _ _ Ha).
Qed.

(** Comparing two columns row by row: a [TypeError] when some row is
    incomparable, the mask of the rows otherwise. *)
Lemma compare_rows (df : DataFrame) (a b : string) :
  series_lt (map (field df a) (rows df)) (map (field df b) (rows df)) =
    if existsb (incomparable df a b) (rows df) then Raise TypeError
    else Ok (map (fun r => truth (val_lt (field df a r) (field df b r)))
                 (rows df)).
Proof.
  rewrite series_lt_pairs, combine_map.
  set (left := map (field df a) (rows df)).
  assert (Hbad : forall r,
             incomparable df a b r
             = match lt_pair left (field df a r) (field df b r) with
               | inl _ => true
               | inr _ => false
               end) by reflexivity.
  destruct (existsb (incomparable df a b) (rows df)) eqn:E.
  - apply existsb_exists in E. destruct E as (r & Hr & Hb).
    apply rmap_Raise.
    + exists (field df a r, field df b r).
      split; [now apply (in_map (fun r => (field df a r, field df b r)))|].
      cbn [fst snd]. rewrite Hbad in Hb.
      destruct (lt_pair left (field df a r) (field df b r)) as [e | c] eqn:V;
        [|discriminate].
      now rewrite (lt_pair_raises _ _ _ _ V).
    + intros [x y] _. cbn [fst snd].
      destruct (lt_pair left x y) as [e | c] eqn:V;
        [left; now rewrite (lt_pair_raises _ _ _ _ V) | eauto].
  - rewrite (rmap_Ok _ (fun p : value * value => truth (val_lt (fst p) (snd p)))).
    + now rewrite map_map.
    + intros [x y] Hin. apply in_map_iff in Hin.
      destruct Hin as (r & [= <- <-] & Hr). cbn [fst snd].
      destruct (lt_pair left (field df a r) (field df b r)) as [e | c] eqn:V.
      * assert (existsb (incomparable df a b) (rows df) = true).
        { apply existsb_exists. exists r. split; [exact Hr|].
          rewrite Hbad. now rewrite V. }
        congruence.
      * now rewrite (lt_pair_truth _ _ _ _ V).
Qed.

Lemma prim_faster_count_cases (df : DataFrame) :
  prim_faster_count df =
    if has_column df "Prim_Time_ms"
    then if has_column df "Kruskal_Time_ms"
         then if existsb (incomparable df "Prim_Time_ms" "Kruskal_Time_ms")
                         (rows df)
              then Raise TypeError
              else Ok (count_rows (a_faster df) df)
         else Raise (KeyError "Kruskal_Time_ms")
    else Raise (KeyError "Prim_Time_ms").
Proof.
  unfold prim_faster_count. destruct (has_column df "Prim_Time_ms") eqn:Ha.
  - rewrite (getitem_has _ _ Ha). unfold Ok at 1. cbn [rbind].
    destruct (has_column df "Kruskal_Time_ms") eqn:Hb.
    + rewrite (getitem_has _ _ Hb). unfold Ok at 1. cbn [rbind].
      rewrite compare_rows.
      destruct (existsb _ (rows df)); [reflexivity|].
      unfold Ok at 1. cbn [rbind]. unfold len, loc. cbn [rows].
      now rewrite select_map.
    + now rewrite (getitem_missing _ _ Hb).
  - now rewrite (getitem_missing _ _ Ha).
Qed.

Lemma existsb_ext {A} (p q : A -> bool) (l : list A) :
  (forall x, p x = q x) -> existsb p l = existsb q l.
Proof.
  intros Hpq. induction l as [|x t IH]; simpl; [reflexivity|].
  now rewrite Hpq, IH.
Qed.

Lemma kruskal_faster_count_cases (df : DataFrame) :
  kruskal_faster_count df =
    if has_column df "Kruskal_Time_ms"
    then if has_column df "Prim_Time_ms"
         then if existsb (incomparable df "Kruskal_Time_ms" "Prim_Time_ms")
                         (rows df)
              then Raise TypeError
              else Ok (count_rows (b_faster df) df)
         else Raise (KeyError "Prim_Time_ms")
    else Raise (KeyError "Kruskal_Time_ms").
Proof.
  unfold kruskal_faster_count.
  destruct (has_column df "Kruskal_Time_ms") eqn:Hb.
  - rewrite (getitem_has _ _ Hb). unfold Ok at 1. cbn [rbind].
    destruct (has_column df "Prim_Time_ms") eqn:Ha.
    + rewrite (getitem_has _ _ Ha). unfold Ok at 1. cbn [rbind].
      rewrite compare_rows.
      destruct (existsb _ (rows df)); [reflexivity|].
      unfold Ok at 1. cbn [rbind]. unfold len, loc. cbn [rows].
      now rewrite select_map.
    + now rewrite (getitem_missing _ _ Ha).
  - now rewrite (getitem_missing _ _ Hb).
Qed.

Lemma filter_length_perm {A} (p : A -> bool) (l l' : list A) :
  Permutation l l' ->
  List.length (filter p l) = List.length (filter p l').
Proof.
  induction 1 as [| x l l' _ IH | x y l | l l' l'' _ IH1 _ IH2]; simpl.
  - reflexivity.
  - destruct (p x); simpl; now rewrite IH.
  - destruct (p x), (p y); reflexivity.
  - now rewrite IH1.
Qed.

Lemma existsb_perm {A} (p : A -> bool) (l l' : list A) :
  Permutation l l' -> existsb p l = existsb p l'.
Proof.
  induction 1 as [| x l l' _ IH | x y l | l l' l'' _ IH1 _ IH2]; simpl.
  - reflexivity.
  - now rewrite IH.
  - destruct (p x), (p y); reflexivity.
  - now rewrite IH1.
Qed.

Lemma object_dtype_perm (s s' : Series) :
  Permutation s s' -> object_dtype s = object_dtype s'.
Proof.
  intros Hp. unfold object_dtype.
  now rewrite (existsb_perm is_str s s' Hp), (existsb_perm is_bool s s' Hp),
              (existsb_perm is_null s s' Hp).
Qed.

(** X12. The counts of the report do not depend on the order of the rows:
    two tables with the same columns whose rows are a permutation of one
    another have the same length and give the same four label counts, the
    same two head-to-head counts and the same cost count, exceptions
    included. *)
Theorem counts_ignore_row_order (df df' : DataFrame) :
  columns df = columns df' ->
  Permutation (rows df) (rows df') ->
  len df = len df'
  /\ (forall label, label_count df label = label_count df' label)
  /\ prim_faster_count df = prim_faster_count df'
  /\ kruskal_faster_count df = kruskal_faster_count df'
  /\ cost_matches df = cost_matches df'.
Proof.
  intros Hc Hp.
  assert (Hf : forall c, field df c = field df' c)
    by (intros c; unfold field; now rewrite Hc).
  assert (Hh : forall c, has_column df c = has_column df' c)
    by (intros c; unfold has_column; now rewrite Hc).
  assert (Hcount : forall p, count_rows p df = count_rows p df')
    by (intros p; unfold count_rows; now apply filter_length_perm).
  assert (Hbad : forall a b,
             existsb (incomparable df a b) (rows df)
             = existsb (incomparable df' a b) (rows df')).
  { intros a b.
    rewrite (existsb_ext (incomparable df a b) (incomparable df' a b)).
    - now apply existsb_perm.
    - intros r. unfold incomparable, lt_pair. rewrite !Hf.
      now rewrite (object_dtype_perm _ _ (Permutation_map (field df' a) Hp)). }
  split; [unfold len; now apply Permutation_length|].
  split; [|split; [|split]].
  - intros label. rewrite !label_count_rows, Hh, Hcount.
    unfold in_category. now rewrite Hf.
  - rewrite !prim_faster_count_cases, !Hh, Hbad, Hcount.
    unfold a_faster. now rewrite !Hf.
  - rewrite !kruskal_faster_count_cases, !Hh, Hbad, Hcount.
    unfold b_faster. now rewrite !Hf.
  - rewrite !cost_matches_rows, !Hh, Hcount.
    unfold cost_match. now rewrite !Hf.
Qed.

End RowOrder.

Lemma counts_ignore_row_order_witness :
  Script.prim_faster_count missing_label_df
    = Script.prim_faster_count reordered_df
  /\ Script.cost_matches missing_label_df = Script.cost_matches reordered_df.
Proof.
  destruct (counts_ignore_row_order missing_label_df reordered_df eq_refl)
    as (_ & _ & Hp & _ & Hc).
  - unfold missing_label_df, reordered_df. cbn [rows].
    eapply perm_trans; [apply perm_skip, perm_swap | apply perm_swap].
  - split; [exact Hp | exact Hc].
Defined.

(* ===================================================================== *)
(** ** Rounding of the printed averages *)
(* ===================================================================== *)

Section Rounding.

Lemma round_half_even_nearest (num den : Z) :
  (0 < den)%Z ->
  (2 * Z.abs (Py.round_half_even num den * den - num) <= den)%Z
  /\ ((2 * Z.abs (Py.round_half_even num den * den - num) = den)%Z ->
      Z.even (Py.round_half_even num den) = true).
Proof.
  intros Hd. unfold Py.round_half_even.
  pose proof (Z.div_mod num den ltac:(lia)) as Hdm.
  pose proof (Z.mod_pos_bound num den Hd) as Hm.
  set (q := (num / den)%Z) in *. set (r := (num mod den)%Z) in *.
  destruct (Z.compare_spec (2 * r) den) as [E | L | G].
  - destruct (Z.even q) eqn:Ev.
    + split; [lia | auto].
    + split; [lia|]. intros _.
      rewrite Z.add_1_r, Z.even_succ, <- Z.negb_even, Ev. reflexivity.
  - split; [lia | lia].
  - split; [lia | lia].
Qed.

(** The integer whose digits [format_f] prints for a finite [m * 2^e]
    with [d] decimals is the one nearest to [m * 2^e * 10^d], ties going to
    the even one: exact when [e >= 0], and for [e = -p] within half a unit
    of the last printed place. *)
Theorem printed_average_nearest (d : nat) (m : positive) (e : Z) :
  match e with
  | Zneg p =>
      (2 * Z.abs (Py.scaled d m e * 2 ^ Zpos p - Zpos m * 10 ^ Z.of_nat d)
       <= 2 ^ Zpos p)%Z
      /\ ((2 * Z.abs (Py.scaled d m e * 2 ^ Zpos p
                      - Zpos m * 10 ^ Z.of_nat d) = 2 ^ Zpos p)%Z ->
          Z.even (Py.scaled d m e) = true)
  | _ => Py.scaled d m e = (Zpos m * 2 ^ e * 10 ^ Z.of_nat d)%Z
  end.
Proof.
  destruct e as [| p | p]; try reflexivity.
  unfold Py.scaled, Py.pow10.
  apply round_half_even_nearest.
  apply Z.pow_pos_nonneg; lia.
Qed.

End Rounding.

(* ===================================================================== *)
(** ** Valid tables: the global averages, and no exception *)
(* ===================================================================== *)

Section ValidRuns.

Context `{Platform}.
Import Pandas Script.

Lemma valid_row_averaged (df : DataFrame) (r : list value) (c : string) :
  valid_row df r = true -> In c averaged_columns ->
  nonneg_time (field df c r) = true.
Proof.
  unfold valid_row. rewrite !andb_true_iff.
  intros ((((((((_ & _) & _) & Ha) & Hb) & Hc) & Hd) & _) & _) Hin.
  simpl in Hin.
  destruct Hin as [<- | [<- | [<- | [<- | []]]]]; try assumption.
  - destruct (field df "Prim_Operations" r); simpl in *; congruence.
  - destruct (field df "Kruskal_Operations" r); simpl in *; congruence.
Qed.

Lemma averaged_is_required (c : string) :
  In c averaged_columns -> In c required_columns.
Proof.
  simpl. intros [<- | [<- | [<- | [<- | []]]]]; auto 10.
Qed.

Lemma column_mean_arithmetic (df : DataFrame) (c : string) :
  valid_frame df = true -> rows df <> [] -> In c averaged_columns ->
  column_mean df c = Ok (arithmetic_mean (column_values df c)).
Proof.
  intros Hv Hne Hc. unfold column_mean.
  rewrite (getitem_has df c)
    by (apply valid_frame_columns; [exact Hv | now apply averaged_is_required]).
  unfold Ok at 1. cbn [rbind]. unfold column_values.
  rewrite <- (map_map (field df c) float_of).
  apply mean_of_times.
  - intros E. apply Hne. destruct (rows df); [reflexivity | discriminate].
  - intros v Hin. apply in_map_iff in Hin. destruct Hin as (r & <- & Hr).
    apply valid_row_averaged; [|exact Hc].
    now apply valid_frame_rows.
Qed.

(** X14. With a summation routine that adds up its entries, on a valid
    table with at least one row each of the four global averages is a
    float64 sum of all the cells of the column, divided by the number of
    rows, and the averages section prints them with two decimals for the
    times and none for the operation counts. *)
Theorem global_averages_arithmetic (df : DataFrame) :
  lawful_sum ->
  valid_frame df = true ->
  rows df <> [] ->
  (forall c, In c averaged_columns ->
     exists total,
       sum_of (column_values df c) total
       /\ column_mean df c = Ok (F64.div total (F64.of_nat (len df))))
  /\ (forall c, In c averaged_columns ->
        column_mean df c = Ok (arithmetic_mean (column_values df c)))
  /\ print_averages df [] =
       ([ (nl ++ "=== Average Performance Metrics ===")%string;
          ("Average Prim's execution time: "
             ++ Py.format_f 2 (arithmetic_mean
                                 (column_values df "Prim_Time_ms"))
             ++ " ms")%string;
          ("Average Kruskal's execution time: "
             ++ Py.format_f 2 (arithmetic_mean
                                 (column_values df "Kruskal_Time_ms"))
             ++ " ms")%string;
          ("Average Prim's operations: "
             ++ Py.format_f 0 (arithmetic_mean
                                 (column_values df "Prim_Operations")))%string;
          ("Average Kruskal's operations: "
             ++ Py.format_f 0 (arithmetic_mean
                                 (column_values df "Kruskal_Operations")))%string ],
        Ok tt).
Proof.
  intros Hsum Hv Hne. split; [|split].
  - intros c Hc. exists (fsum (column_values df c)).
    split; [apply Hsum|].
    rewrite (column_mean_arithmetic df c Hv Hne Hc).
    unfold arithmetic_mean, column_values, len. now rewrite length_map.
  - intros c Hc. now apply column_mean_arithmetic.
  - unfold print_averages, mbind, print, lift.
    rewrite !(column_mean_arithmetic df _ Hv Hne) by (simpl; auto 10).
    reflexivity.
Qed.

Lemma column_mean_Ok (df : DataFrame) (c : string) :
  valid_frame df = true -> In c averaged_columns ->
  exists x, column_mean df c = Ok x.
Proof.
  intros Hv Hc. destruct (rows df) as [|r t] eqn:Hr.
  - exists F64.nan. apply column_mean_empty; [exact Hr|].
    apply valid_frame_columns; [exact Hv | now apply averaged_is_required].
  - eexists. apply column_mean_arithmetic; [exact Hv | | exact Hc].
    rewrite Hr. discriminate.
Qed.

Ltac valid_steps Hv Hq :=
  repeat
    (first
       [ rewrite mbind_chart_quiet by apply Hq
       | erewrite mbind_lift_Ok
           by (first
                 [ apply getitem_has; apply valid_frame_columns;
                   [exact Hv | simpl; auto 10]
                 | apply graph_types_unique; exact Hv
                 | apply group_means_Ok; [exact Hv | auto]
                 | apply performance_ratio_rows; exact Hv ]) ];
     cbv beta).

Lemma figures_Ok (w : World) (df : DataFrame) (out : list string) :
  valid_frame df = true ->
  (forall call, draw w call = None) ->
  performance_figure w df out = (out, Ok tt)
  /\ complexity_figure w df out = (out, Ok tt).
Proof.
  intros Hv Hq. split.
  - unfold performance_figure. valid_steps Hv Hq. apply chart_quiet, Hq.
  - unfold complexity_figure. valid_steps Hv Hq. apply chart_quiet, Hq.
Qed.

Lemma print_summary_Ok (df : DataFrame) :
  valid_frame df = true ->
  exists out, print_summary df [] = (out, Ok tt).
Proof.
  intros Hv.
  assert (Hg : getitem df "Graph_Type"
               = Ok (map (field df "Graph_Type") (rows df)))
    by (apply getitem_has, valid_frame_columns; simpl; auto 10).
  destruct (column_mean_Ok df "Prim_Time_ms" Hv) as [x1 H1];
    [simpl; auto 10|].
  destruct (column_mean_Ok df "Kruskal_Time_ms" Hv) as [x2 H2];
    [simpl; auto 10|].
  destruct (column_mean_Ok df "Prim_Operations" Hv) as [x3 H3];
    [simpl; auto 10|].
  destruct (column_mean_Ok df "Kruskal_Operations" Hv) as [x4 H4];
    [simpl; auto 10|].
  unfold print_summary, print_counts, print_averages, print_comparison,
    print_costs, mbind, print, lift.
  rewrite !(label_count_occ df _ _ Hg), H1, H2, H3, H4.
  rewrite (prim_faster_count_rows df Hv), (kruskal_faster_count_rows df Hv).
  rewrite (cost_matches_count df)
    by (apply valid_frame_columns; simpl; auto 10).
  unfold Ok. cbn. eexists. reflexivity.
Qed.

(** X15. A valid table never makes the script raise: when the file loads
    as a valid table and the charting library does not fail, the run ends
    without an exception, having printed the full report (sixteen [print]
    calls). *)
Theorem valid_run_completes (w : World) (df : DataFrame) :
  read_csv (files w) data_path = Ok df ->
  valid_frame df = true ->
  (forall call, draw w call = None) ->
  exists out, run w = (out, Ok tt) /\ List.length out = 16%nat.
Proof.
  intros Hload Hv Hq.
  destruct (figures_Ok w df [] Hv Hq) as [Hp Hx].
  destruct (print_summary_Ok df Hv) as [out Hout].
  exists out. split.
  - unfold run, main. rewrite !mbind_chart_quiet by apply Hq.
    rewrite (mbind_lift_Ok _ df) by exact Hload.
    now rewrite (mbind_Ok _ _ _ _ tt Hp), (mbind_Ok _ _ _ _ tt Hx).
  - now apply print_summary_length with df.
Qed.

End ValidRuns.

Lemma global_averages_arithmetic_witness :
  valid_frame Reference.scenario_df = true
  /\ Script.column_mean (H := Reference.platform)
       Reference.scenario_df "Prim_Time_ms" = Ok (F64.dec 20 1)
  /\ Script.column_mean (H := Reference.platform)
       Reference.scenario_df "Kruskal_Operations" = Ok (F64.dec 850 1).
Proof.
  split; [reflexivity|].
  destruct (global_averages_arithmetic (H := Reference.platform)
              Reference.scenario_df seq_sum_lawful eq_refl)
    as (_ & Hm & _); [discriminate|].
  split; [apply (Hm "Prim_Time_ms") | apply (Hm "Kruskal_Operations")];
    simpl; auto 10.
Defined.

Lemma valid_run_completes_witness :
  exists out,
    Script.run (H := Reference.platform) Reference.scenario_world
      = (out, Ok tt)
    /\ List.length out = 16%nat.
Proof.
  apply (valid_run_completes (H := Reference.platform)
           Reference.scenario_world Reference.scenario_df);
    [vm_compute; reflexivity | reflexivity | reflexivity].
Defined.
